(** * Security-report normalizer ([app/ai-parser.js]): model and properties

    The normalizer reads scanner reports (SARIF, HTML, npm-audit style JSON,
    free text, ZAP style JSON) and reduces them to one record shape.  This
    file embeds the JavaScript of [app/ai-parser.js] function by function and
    proves the properties its specification states.

    Conventions of the embedding:
    - a JavaScript value read from JSON is a [value]; a property that is not
      there reads as [VUndef];
    - code that may throw lives in the [exn] monad; [try { .. } catch] is a
      match on the outcome;
    - [forEach] loops that push into an array declared outside the loop pass
      that array along as an accumulator;
    - what the program takes from Node.js and from the JavaScript library
      ([JSON.parse], [path.join], [process.env], [toUpperCase], [trim]) is a
      field of the class [Host]; the directories read are a [Fs.t]. *)

From Stdlib Require Import List String Ascii Bool Arith Lia.
From Stdlib Require Import Decimal DecimalString.
Import ListNotations.
Local Open Scope string_scope.
Local Open Scope list_scope.
Local Open Scope nat_scope.

Set Implicit Arguments.
Set Warnings "-register-all".

(* ------------------------------------------------------------------ *)
(** ** Strings *)

Module Str.

(** A text is its sequence of bytes in UTF-8: an ASCII character is one
    byte below 128, any other character is made of bytes from 128 up.  All
    the patterns the normalizer looks for are ASCII, so looking for them in
    the bytes or in the characters is the same. *)

Definition is_lower (c : ascii) : bool :=
  (97 <=? nat_of_ascii c) && (nat_of_ascii c <=? 122).

Definition is_digit (c : ascii) : bool :=
  (48 <=? nat_of_ascii c) && (nat_of_ascii c <=? 57).

Definition upper_char (c : ascii) : ascii :=
  if is_lower c then ascii_of_nat (nat_of_ascii c - 32) else c.

(** Upper case of ASCII letters: a-z go to A-Z, every other character is
    kept.  This is the case folding of a regular expression with the [i]
    flag, and what [toUpperCase] does to ASCII text. *)
Fixpoint upper (s : string) : string :=
  match s with
  | EmptyString => EmptyString
  | String c s' => String (upper_char c) (upper s')
  end.

Fixpoint is_ascii (s : string) : bool :=
  match s with
  | EmptyString => true
  | String c s' => (nat_of_ascii c <? 128) && is_ascii s'
  end.

(** [startsWith s p]: [p] is a prefix of [s]. *)
Fixpoint startsWith (s p : string) : bool :=
  match p, s with
  | EmptyString, _ => true
  | String _ _, EmptyString => false
  | String a p', String b s' => Ascii.eqb a b && startsWith s' p'
  end.

(** [endsWith s p]: [p] is a suffix of [s], as [String.prototype.endsWith]. *)
Fixpoint endsWith (s p : string) : bool :=
  String.eqb s p ||
  match s with
  | EmptyString => false
  | String _ s' => endsWith s' p
  end.

(** [String.prototype.includes]: [sub] occurs somewhere in [s]. *)
Fixpoint includes (s sub : string) : bool :=
  startsWith s sub ||
  match s with
  | EmptyString => false
  | String _ s' => includes s' sub
  end.

(** ASCII white space (tab, line feed, vertical tab, form feed, carriage
    return, space). *)
Definition is_space (c : ascii) : bool :=
  let n := nat_of_ascii c in
  ((9 <=? n) && (n <=? 13)) || (n =? 32).

Fixpoint trimStart (s : string) : string :=
  match s with
  | EmptyString => EmptyString
  | String c s' => if is_space c then trimStart s' else s
  end.

(** Drops the white space at the end: a space is kept only when something
    that survives follows it. *)
Fixpoint trimEnd (s : string) : string :=
  match s with
  | EmptyString => EmptyString
  | String c s' =>
      match trimEnd s' with
      | EmptyString => if is_space c then EmptyString else String c EmptyString
      | t => String c t
      end
  end.

(** What [trim] does to ASCII text. *)
Definition trim (s : string) : string := trimEnd (trimStart s).

(** [s.split(sep)] for a one-character separator: the pieces between the
    separators, always at least one piece. *)
Fixpoint split (sep : ascii) (s : string) : list string :=
  match s with
  | EmptyString => [EmptyString]
  | String c s' =>
      if Ascii.eqb c sep then EmptyString :: split sep s'
      else match split sep s' with
           | [] => [String c EmptyString]
           | piece :: rest => String c piece :: rest
           end
  end.

(** Decimal text of an array index. *)
Definition of_index (n : nat) : string :=
  NilEmpty.string_of_uint (Nat.to_uint n).

Fixpoint take (n : nat) (s : string) : string :=
  match n, s with
  | S n', String c s' => String c (take n' s')
  | _, _ => EmptyString
  end.

End Str.

(* ------------------------------------------------------------------ *)
(** ** JavaScript values and exceptions *)

(** A value as [JSON.parse] builds it, plus [undefined].

    - [VNum repr]: a number, kept as the text [Number.prototype.toString]
      gives it (["123"], ["7.5"], ["1e+21"]).  The normalizer only tests
      numbers for truthiness, compares them with [===] and prints them, and
      the text decides all three ([-0] prints as ["0"]).
    - [VObj props]: the own properties in enumeration order, one entry per
      key. *)
Inductive value : Type :=
| VUndef
| VNull
| VBool (b : bool)
| VNum (repr : string)
| VStr (s : string)
| VArr (items : list value)
| VObj (props : list (string * value)).

(** Outcome of code that may throw. *)
Inductive exn (A : Type) : Type :=
| Ok (a : A)
| Throw.
Arguments Throw {A}.

Definition bind {A B} (m : exn A) (k : A -> exn B) : exn B :=
  match m with
  | Ok a => k a
  | Throw => Throw
  end.

Declare Scope exn_scope.
Delimit Scope exn_scope with exn.
Notation "x <- m ;; k" := (bind m (fun x => k))
  (at level 61, m at next level, right associativity) : exn_scope.
Local Open Scope exn_scope.

(** [try { return body } catch (e) { return [] }] *)
Definition try_or_empty {A} (body : exn (list A)) : list A :=
  match body with
  | Ok l => l
  | Throw => []
  end.

Module JS.

(** ToBoolean. *)
Definition truthy (v : value) : bool :=
  match v with
  | VUndef | VNull => false
  | VBool b => b
  | VNum repr => negb (String.eqb repr "0" || String.eqb repr "NaN")
  | VStr s => negb (String.eqb s "")
  | VArr _ | VObj _ => true
  end.

Definition nullish (v : value) : bool :=
  match v with
  | VUndef | VNull => true
  | _ => false
  end.

(** [typeof v === 'object'] *)
Definition typeof_object (v : value) : bool :=
  match v with
  | VNull | VArr _ | VObj _ => true
  | _ => false
  end.

Definition isArray (v : value) : bool :=
  match v with
  | VArr _ => true
  | _ => false
  end.

Fixpoint lookup (k : string) (props : list (string * value)) : option value :=
  match props with
  | [] => None
  | (k', v) :: rest => if String.eqb k k' then Some v else lookup k rest
  end.

Definition or_undef (o : option value) : value :=
  match o with
  | Some v => v
  | None => VUndef
  end.

(** [v.k] for the property names the normalizer reads (none of them is
    inherited from a prototype): an own property of an object, [undefined]
    on any other value, a TypeError on [null] and [undefined]. *)
Definition get (v : value) (k : string) : exn value :=
  match v with
  | VUndef | VNull => Throw
  | VObj props => Ok (or_undef (lookup k props))
  | _ => Ok VUndef
  end.

(** [v?.k] *)
Definition get_opt (v : value) (k : string) : exn value :=
  if nullish v then Ok VUndef else get v k.

(** Own enumerable string keys, [Object.keys(v)]. *)
Definition keys (v : value) : exn (list string) :=
  match v with
  | VUndef | VNull => Throw
  | VObj props => Ok (map fst props)
  | VArr items => Ok (map Str.of_index (seq 0 (List.length items)))
  | VStr s => Ok (map Str.of_index (seq 0 (String.length s)))
  | _ => Ok []
  end.

(** [s[n]] on a text.  The normalizer never looks at what the text it gets
    holds: it only reads named properties of it, and they are
    [undefined]. *)
Fixpoint char_at (s : string) (n : nat) : value :=
  match s, n with
  | EmptyString, _ => VUndef
  | String c _, O => VStr (String c EmptyString)
  | String _ s', S n' => char_at s' n'
  end.

(** [v[k]] where [k] is one of [Object.keys(v)]. *)
Definition get_key (v : value) (k : string) : exn value :=
  match v with
  | VUndef | VNull => Throw
  | VObj props => Ok (or_undef (lookup k props))
  | VArr items =>
      Ok (or_undef (option_map (fun i => nth i items VUndef)
                      (find (fun i => String.eqb (Str.of_index i) k)
                            (seq 0 (List.length items)))))
  | VStr s =>
      Ok (or_undef (option_map (char_at s)
                      (find (fun i => String.eqb (Str.of_index i) k)
                            (seq 0 (String.length s)))))
  | _ => Ok VUndef
  end.

(** [v?.[0]] *)
Definition first_opt (v : value) : exn value :=
  match v with
  | VUndef | VNull => Ok VUndef
  | VObj props => Ok (or_undef (lookup "0" props))
  | VArr items => Ok (nth 0 items VUndef)
  | VStr s => Ok (char_at s 0)
  | _ => Ok VUndef
  end.

(** [a === b].  Two objects (or arrays) met at two places of a parsed
    document are never the same object. *)
Definition strict_eq (a b : value) : bool :=
  match a, b with
  | VUndef, VUndef => true
  | VNull, VNull => true
  | VBool x, VBool y => Bool.eqb x y
  | VNum x, VNum y => String.eqb x y && negb (String.eqb x "NaN")
  | VStr x, VStr y => String.eqb x y
  | _, _ => false
  end.

(** [a || b]: [b] is evaluated only when [a] is falsy. *)
Definition or_else (a b : exn value) : exn value :=
  va <- a ;; if truthy va then Ok va else b.

(** [v.toString()].  An object answers ["[object Object]"] unless an own
    property hides the inherited method (then the call is a TypeError); an
    array joins its items with commas, [null] and [undefined] items giving
    the empty text. *)
Fixpoint toString (v : value) : exn string :=
  match v with
  | VUndef | VNull => Throw
  | VBool b => Ok (if b then "true" else "false")
  | VNum repr => Ok repr
  | VStr s => Ok s
  | VArr items =>
      (fix join (l : list value) : exn string :=
         match l with
         | [] => Ok ""
         | x :: rest =>
             sx <- (if nullish x then Ok "" else toString x) ;;
             match rest with
             | [] => Ok sx
             | _ => sr <- join rest ;; Ok (sx ++ "," ++ sr)%string
             end
         end) items
  | VObj props =>
      match lookup "toString" props with
      | Some _ => Throw
      | None => Ok "[object Object]"
      end
  end.

End JS.

(* ------------------------------------------------------------------ *)
(** ** Pattern matching on report text *)

Module Re.

Fixpoint drop (n : nat) (s : string) : string :=
  match n, s with
  | S n', String _ s' => drop n' s'
  | _, _ => s
  end.

(** [s] begins with [p], letters compared without case ([p] is written in
    upper case): the [i] flag of a regular expression over ASCII. *)
Fixpoint startsWith_ci (s p : string) : bool :=
  match p, s with
  | EmptyString, _ => true
  | String _ _, EmptyString => false
  | String a p', String b s' =>
      Ascii.eqb a (Str.upper_char b) && startsWith_ci s' p'
  end.

(** The longest run of digits at the start of [s]: a greedy [\d*]. *)
Fixpoint digits (s : string) : string :=
  match s with
  | String c s' => if Str.is_digit c then String c (digits s') else EmptyString
  | EmptyString => EmptyString
  end.

(** A match found at the start of a text: how many characters it covers and
    the text the caller keeps (group 0 or group 1). *)
Definition hit : Type := nat * string.

(** [/CVE-\d{4}-\d+/i] tried at the start of [s]; keeps the whole match. *)
Definition cve_at (s : string) : option hit :=
  if startsWith_ci s "CVE-" then
    let year := digits (drop 4 s) in
    if (4 <=? String.length year) && Str.startsWith (drop 8 s) "-" then
      let num := digits (drop 9 s) in
      match num with
      | EmptyString => None
      | _ => let n := 9 + String.length num in Some (n, Str.take n s)
      end
    else None
  else None.

(** [/CWE-(\d+)/i] tried at the start of [s]; keeps group 1, the digits. *)
Definition cwe_at (s : string) : option hit :=
  if startsWith_ci s "CWE-" then
    match digits (drop 4 s) with
    | EmptyString => None
    | num => Some (4 + String.length num, num)
    end
  else None.

(** [/(CRITICAL|HIGH|MEDIUM|LOW)/i] tried at the start of [s]: the
    alternatives in the order written; keeps group 1. *)
Definition severity_at (s : string) : option hit :=
  if startsWith_ci s "CRITICAL" then Some (8, Str.take 8 s)
  else if startsWith_ci s "HIGH" then Some (4, Str.take 4 s)
  else if startsWith_ci s "MEDIUM" then Some (6, Str.take 6 s)
  else if startsWith_ci s "LOW" then Some (3, Str.take 3 s)
  else None.

(** [s.match(re)] without the [g] flag: the leftmost match. *)
Fixpoint first_match (at_start : string -> option hit) (s : string)
  : option string :=
  match at_start s with
  | Some (_, m) => Some m
  | None =>
      match s with
      | EmptyString => None
      | String _ s' => first_match at_start s'
      end
  end.

(** [Array.from(s.matchAll(re))] with the [g] flag: matches from left to
    right, the search resuming after the end of the previous match.
    [skip] counts the characters still covered by the previous match. *)
Fixpoint match_all (at_start : string -> option hit) (skip : nat) (s : string)
  : list string :=
  match s with
  | EmptyString => []
  | String _ s' =>
      match skip with
      | S k => match_all at_start k s'
      | O =>
          match at_start s with
          | Some (len, m) => m :: match_all at_start (len - 1) s'
          | None => match_all at_start 0 s'
          end
      end
  end.

Definition matchAll (at_start : string -> option hit) (s : string) : list string :=
  match_all at_start 0 s.

End Re.

(* ------------------------------------------------------------------ *)
(** ** The canonical record *)

Module Vuln.

(** The object literal every parser pushes.  A field holds whatever
    JavaScript value the expression of the literal evaluates to. *)
Record t : Type := make {
  id : value;
  name : value;
  severity : value;
  file : value;
  description : value;
  recommendation : value
}.

(** The record as a JavaScript object, keys in the order of the literal. *)
Definition to_value (r : t) : value :=
  VObj [("id", id r); ("name", name r); ("severity", severity r);
        ("file", file r); ("description", description r);
        ("recommendation", recommendation r)].

Definition fields (r : t) : list value :=
  [id r; name r; severity r; file r; description r; recommendation r].

End Vuln.

(** [{ tool, vulnerabilities }] *)
Record ToolResult : Type := mkToolResult {
  tool : string;
  vulnerabilities : list Vuln.t
}.

Definition ToolResult_to_value (r : ToolResult) : value :=
  VObj [("tool", VStr (tool r));
        ("vulnerabilities", VArr (map Vuln.to_value (vulnerabilities r)))].

(** [l.forEach(x => ..)] where the callback updates a state declared outside
    of it and may throw. *)
Fixpoint forEach {A S : Type} (f : A -> S -> exn S) (l : list A) (st : S) : exn S :=
  match l with
  | [] => Ok st
  | x :: rest => st' <- f x st ;; forEach f rest st'
  end.

(** [vulnerabilities.push(r)] *)
Definition push (acc : list Vuln.t) (r : Vuln.t) : list Vuln.t := acc ++ [r].

(** [v && Array.isArray(v)], giving the items when it holds. *)
Definition array_items (v : value) : option (list value) :=
  if JS.truthy v && JS.isArray v then
    match v with
    | VArr items => Some items
    | _ => None
    end
  else None.

(* ------------------------------------------------------------------ *)
(** ** Host functions and the file system *)

(** What the program takes from Node.js and from the JavaScript library.
    [JSON_parse] answers [None] when [JSON.parse] throws a SyntaxError.
    [toUpperCase] and [trim] are the methods of [String.prototype]; on ASCII
    text they are the functions of [Str]. *)
Class Host : Type := {
  JSON_parse : string -> option value;
  path_join : string -> string -> string;
  env : string -> option string;
  toUpperCase : string -> string;
  trim : string -> string;
  toUpperCase_ascii : forall s, Str.is_ascii s = true -> toUpperCase s = Str.upper s;
  trim_ascii : forall s, Str.is_ascii s = true -> trim s = Str.trim s
}.

Module Fs.

Inductive node : Type :=
| File (content : string)
| Dir (entries : list string).

(** The file system, by path.  Listing what is not a directory and
    reading what is not a file throw. *)
Definition t : Type := string -> option node.

Definition existsSync (fs : t) (p : string) : bool :=
  match fs p with
  | Some _ => true
  | None => false
  end.

Definition readdirSync (fs : t) (p : string) : exn (list string) :=
  match fs p with
  | Some (Dir entries) => Ok entries
  | _ => Throw
  end.

Definition readFileSync (fs : t) (p : string) : exn string :=
  match fs p with
  | Some (File content) => Ok content
  | _ => Throw
  end.

End Fs.

Module FileEntry.
(** [{ name, path, content }] *)
Record t : Type := make {
  name : string;
  path : string;
  content : string
}.
End FileEntry.

Section Normalizer.

Context {host : Host}.

(** [process.env.X || fallback] *)
Definition env_or (x fallback : string) : string :=
  match env x with
  | Some s => if String.eqb s "" then fallback else s
  | None => fallback
  end.

Definition REPORTS_DIR : string := env_or "REPORTS_DIR" "./reports".
Definition SAST_DIR : string := path_join REPORTS_DIR "sast".
Definition SCA_DIR : string := path_join REPORTS_DIR "sca".
Definition DAST_DIR : string := path_join REPORTS_DIR "dast".

(** [readFilesFromDirectory(dir)] *)
Definition readFilesFromDirectory (fs : Fs.t) (dir : string)
  : exn (list FileEntry.t) :=
  if negb (Fs.existsSync fs dir) then Ok []
  else
    entries <- Fs.readdirSync fs dir ;;
    forEach (fun file acc =>
               content <- Fs.readFileSync fs (path_join dir file) ;;
               Ok (acc ++ [FileEntry.make file (path_join dir file) content]))
            entries [].

(* ---------------------------------------------------------------- *)
(** *** Severity classifier *)

(** [normalizeSeverity(severity)] *)
Definition normalizeSeverity (severity : value) : exn string :=
  if negb (JS.truthy severity) then Ok "UNKNOWN"
  else
    t <- JS.toString severity ;;
    let s := toUpperCase t in
    if Str.includes s "CRITICAL" || Str.includes s "CRIT" then Ok "CRITICAL"
    else if Str.includes s "HIGH" then Ok "HIGH"
    else if Str.includes s "MEDIUM" || Str.includes s "MED" then Ok "MEDIUM"
    else if Str.includes s "LOW" then Ok "LOW"
    else if Str.includes s "INFO" then Ok "INFO"
    else Ok s.

(** [JSON.parse(content)] inside a [try] block. *)
Definition parse (content : string) : exn value :=
  match JSON_parse content with
  | Some v => Ok v
  | None => Throw
  end.

(* ---------------------------------------------------------------- *)
(** *** SAST *)

(** [rules.find(r => r.id === result.ruleId)] on an array. *)
Fixpoint find_rule (rules : list value) (result : value) : exn value :=
  match rules with
  | [] => Ok VUndef
  | r :: rest =>
      rid <- JS.get r "id" ;;
      ruleId <- JS.get result "ruleId" ;;
      if JS.strict_eq rid ruleId then Ok r else find_rule rest result
  end.

(** [rules?.find(..)]: a value that is neither nullish nor an array has no
    [find] to call. *)
Definition rules_find (rules result : value) : exn value :=
  match rules with
  | VUndef | VNull => Ok VUndef
  | VArr items => find_rule items result
  | _ => Throw
  end.

(** [v.k1?.k2] *)
Definition get2 (v : value) (k1 k2 : string) : exn value :=
  d <- JS.get v k1 ;;
  JS.get_opt d k2.

(** The body of the inner callback of [parseSARIF]. *)
Definition sarif_result (run result : value) : exn Vuln.t :=
  tool_ <- JS.get run "tool" ;;
  driver <- JS.get_opt tool_ "driver" ;;
  rules <- JS.get_opt driver "rules" ;;
  rule <- JS.or_else (rules_find rules result) (Ok (VObj [])) ;;
  locations <- JS.get result "locations" ;;
  loc0 <- JS.first_opt locations ;;
  physicalLocation <- JS.get_opt loc0 "physicalLocation" ;;
  artifactLocation <- JS.get_opt physicalLocation "artifactLocation" ;;
  location <- JS.or_else (JS.get_opt artifactLocation "uri") (Ok (VStr "unknown")) ;;
  id <- JS.or_else (JS.get result "ruleId") (Ok (VStr "N/A")) ;;
  name <- JS.or_else (JS.get rule "name")
            (JS.or_else (get2 result "message" "text") (Ok (VStr "Unknown vulnerability"))) ;;
  level <- JS.or_else (JS.get result "level") (get2 rule "defaultConfiguration" "level") ;;
  severity <- normalizeSeverity level ;;
  description <- JS.or_else (get2 rule "fullDescription" "text")
                   (JS.or_else (get2 rule "shortDescription" "text")
                      (JS.or_else (get2 result "message" "text") (Ok (VStr "No description")))) ;;
  recommendation <- JS.or_else (get2 rule "help" "text")
                      (JS.or_else (JS.get rule "helpUri")
                         (Ok (VStr "No recommendation available"))) ;;
  Ok (Vuln.make id name (VStr severity) location description recommendation).

(** The body of the [try] block of [parseSARIF], after [JSON.parse]. *)
Definition parseSARIF_doc (sarif : value) : exn (list Vuln.t) :=
  runs <- JS.get sarif "runs" ;;
  match array_items runs with
  | Some runs =>
      forEach (fun run acc =>
                 results <- JS.get run "results" ;;
                 match array_items results with
                 | Some results =>
                     forEach (fun result acc =>
                                r <- sarif_result run result ;;
                                Ok (push acc r))
                             results acc
                 | None => Ok acc
                 end)
              runs []
  | None => Ok []
  end.

(** [parseSARIF(content)] *)
Definition parseSARIF (content : string) : list Vuln.t :=
  try_or_empty (sarif <- parse content ;; parseSARIF_doc sarif).

(** The text of a template literal with one hole, [`prefix${hole}`]. *)
Definition template (prefix hole : string) : string := (prefix ++ hole)%string.

(** One turn of the [for] loop of [parseHTML]. *)
Definition html_record (cwes severities : list string) (i : nat) : exn Vuln.t :=
  severity <- normalizeSeverity (VStr (nth i severities "")) ;;
  Ok (Vuln.make (VStr (template "CWE-" (nth i cwes "")))
                (VStr (template "Vulnerability CWE-" (nth i cwes "")))
                (VStr severity)
                (VStr "See HTML report")
                (VStr "Extracted from HTML report")
                (VStr "Refer to HTML report for details")).

(** [parseHTML(content)]: the loop runs [i] over
    [0 .. Math.min(cwes.length, severities.length) - 1]. *)
Definition parseHTML (content : string) : exn (list Vuln.t) :=
  let cwes := Re.matchAll Re.cwe_at content in
  let severities := Re.matchAll Re.severity_at content in
  forEach (fun i acc => r <- html_record cwes severities i ;; Ok (push acc r))
          (seq 0 (Nat.min (List.length cwes) (List.length severities))) [].

(** The loop body of the per-category functions: [all.concat(found)]. *)
Definition concat_found (acc found : list Vuln.t) : list Vuln.t := acc ++ found.

Definition sast_file (file : FileEntry.t) (acc : list Vuln.t) : exn (list Vuln.t) :=
  if Str.endsWith (FileEntry.name file) ".sarif"
     || Str.endsWith (FileEntry.name file) ".json"
  then Ok (concat_found acc (parseSARIF (FileEntry.content file)))
  else if Str.endsWith (FileEntry.name file) ".html"
  then found <- parseHTML (FileEntry.content file) ;; Ok (concat_found acc found)
  else Ok acc.

(** [parseSASTReports()] *)
Definition parseSASTReports (fs : Fs.t) : exn ToolResult :=
  files <- readFilesFromDirectory fs SAST_DIR ;;
  all <- forEach sast_file files [] ;;
  Ok (mkToolResult "SAST" all).

(* ---------------------------------------------------------------- *)
(** *** SCA *)

(** The callback of the array shape of [parseSCAJSON]. *)
Definition sca_generic (vuln : value) : exn Vuln.t :=
  id <- JS.or_else (JS.get vuln "id")
          (JS.or_else (JS.get vuln "cve") (Ok (VStr "N/A"))) ;;
  name <- JS.or_else (JS.get vuln "title")
            (JS.or_else (JS.get vuln "name") (Ok (VStr "Unknown vulnerability"))) ;;
  sev <- JS.get vuln "severity" ;;
  severity <- normalizeSeverity sev ;;
  file <- JS.or_else (JS.get vuln "package")
            (JS.or_else (JS.get vuln "library")
               (JS.or_else (JS.get vuln "dependency") (Ok (VStr "unknown")))) ;;
  description <- JS.or_else (JS.get vuln "description") (Ok (VStr "No description")) ;;
  recommendation <- JS.or_else (JS.get vuln "recommendation")
                      (JS.or_else (JS.get vuln "fix")
                         (Ok (VStr "Update to latest version"))) ;;
  Ok (Vuln.make id name (VStr severity) file description recommendation).

(** The record pushed for one entry [v] of [vuln.via] (npm audit shape). *)
Definition sca_via (pkg : string) (vuln v : value) : exn Vuln.t :=
  id <- JS.or_else (JS.get v "cve")
          (JS.or_else (JS.get v "id") (Ok (VStr "N/A"))) ;;
  name <- JS.or_else (JS.get v "title") (Ok (VStr "Dependency vulnerability")) ;;
  sev <- JS.get v "severity" ;;
  severity <- normalizeSeverity sev ;;
  description <- JS.or_else (JS.get v "url") (Ok (VStr "See package for details")) ;;
  fixAvailable <- JS.get vuln "fixAvailable" ;;
  Ok (Vuln.make id name (VStr severity) (VStr pkg) description
        (VStr (if JS.truthy fixAvailable then "Update available"
               else "No fix available"))).

(** The callback over [vuln.via]. *)
Definition sca_via_entry (pkg : string) (vuln v : value) (acc : list Vuln.t)
  : exn (list Vuln.t) :=
  if JS.typeof_object v then r <- sca_via pkg vuln v ;; Ok (push acc r)
  else Ok acc.

(** The callback over [Object.keys(data.vulnerabilities)]. *)
Definition sca_package (vulns : value) (pkg : string) (acc : list Vuln.t)
  : exn (list Vuln.t) :=
  vuln <- JS.get_key vulns pkg ;;
  via <- JS.get vuln "via" ;;
  match array_items via with
  | Some via => forEach (sca_via_entry pkg vuln) via acc
  | None => Ok acc
  end.

(** The body of the [try] block of [parseSCAJSON], after [JSON.parse]. *)
Definition parseSCAJSON_doc (data : value) : exn (list Vuln.t) :=
  vulns <- JS.get data "vulnerabilities" ;;
  match array_items vulns with
  | Some items =>
      forEach (fun vuln acc => r <- sca_generic vuln ;; Ok (push acc r)) items []
  | None =>
      if JS.truthy vulns then
        pkgs <- JS.keys vulns ;;
        forEach (sca_package vulns) pkgs []
      else Ok []
  end.

(** [parseSCAJSON(content)] *)
Definition parseSCAJSON (content : string) : list Vuln.t :=
  try_or_empty (data <- parse content ;; parseSCAJSON_doc data).

(** The callback of [parseSCATXT]: the records one line adds. *)
Definition scatxt_line (line : string) (acc : list Vuln.t) : exn (list Vuln.t) :=
  let cveMatch := Re.first_match Re.cve_at line in
  let severityMatch := Re.first_match Re.severity_at line in
  match cveMatch with
  | Some cve =>
      severity <- match severityMatch with
                  | Some word => normalizeSeverity (VStr word)
                  | None => Ok "UNKNOWN"
                  end ;;
      Ok (push acc (Vuln.make (VStr cve)
                      (VStr (template "Vulnerability " cve))
                      (VStr severity)
                      (VStr "See TXT report")
                      (VStr (trim line))
                      (VStr "Update affected package")))
  | None => Ok acc
  end.

(** [parseSCATXT(content)] *)
Definition parseSCATXT (content : string) : exn (list Vuln.t) :=
  forEach scatxt_line (Str.split "010" content) [].

Definition sca_file (file : FileEntry.t) (acc : list Vuln.t) : exn (list Vuln.t) :=
  if Str.endsWith (FileEntry.name file) ".json"
  then Ok (concat_found acc (parseSCAJSON (FileEntry.content file)))
  else if Str.endsWith (FileEntry.name file) ".txt"
  then found <- parseSCATXT (FileEntry.content file) ;; Ok (concat_found acc found)
  else Ok acc.

(** [parseSCAReports()] *)
Definition parseSCAReports (fs : Fs.t) : exn ToolResult :=
  files <- readFilesFromDirectory fs SCA_DIR ;;
  all <- forEach sca_file files [] ;;
  Ok (mkToolResult "SCA" all).

(* ---------------------------------------------------------------- *)
(** *** DAST *)

(** [riskdesc?.split(' ')[0]]: only a text has [split]. *)
Definition riskdesc_head (riskdesc : value) : exn value :=
  match riskdesc with
  | VUndef | VNull => Ok VUndef
  | VStr s => Ok (VStr (hd "" (Str.split " " s)))
  | _ => Throw
  end.

(** The callback over [site.alerts] (ZAP shape). *)
Definition dast_alert (site alert : value) : exn Vuln.t :=
  id <- JS.or_else (JS.get alert "pluginid")
          (JS.or_else (JS.get alert "id") (Ok (VStr "N/A"))) ;;
  name <- JS.or_else (JS.get alert "name")
            (JS.or_else (JS.get alert "alert") (Ok (VStr "Unknown vulnerability"))) ;;
  risk <- JS.or_else (riskdesc <- JS.get alert "riskdesc" ;; riskdesc_head riskdesc)
            (JS.get alert "risk") ;;
  severity <- normalizeSeverity risk ;;
  file <- JS.or_else (JS.get alert "url")
            (JS.or_else (JS.get site "name") (Ok (VStr "unknown"))) ;;
  description <- JS.or_else (JS.get alert "desc")
                   (JS.or_else (JS.get alert "description") (Ok (VStr "No description"))) ;;
  recommendation <- JS.or_else (JS.get alert "solution")
                      (JS.or_else (JS.get alert "recommendation")
                         (Ok (VStr "No recommendation available"))) ;;
  Ok (Vuln.make id name (VStr severity) file description recommendation).

(** The callback of the generic shape of [parseDASTJSON]. *)
Definition dast_generic (vuln : value) : exn Vuln.t :=
  id <- JS.or_else (JS.get vuln "id") (Ok (VStr "N/A")) ;;
  name <- JS.or_else (JS.get vuln "name")
            (JS.or_else (JS.get vuln "title") (Ok (VStr "Unknown vulnerability"))) ;;
  sev <- JS.get vuln "severity" ;;
  severity <- normalizeSeverity sev ;;
  file <- JS.or_else (JS.get vuln "url")
            (JS.or_else (JS.get vuln "endpoint") (Ok (VStr "unknown"))) ;;
  description <- JS.or_else (JS.get vuln "description") (Ok (VStr "No description")) ;;
  recommendation <- JS.or_else (JS.get vuln "recommendation")
                      (JS.or_else (JS.get vuln "solution")
                         (Ok (VStr "No recommendation available"))) ;;
  Ok (Vuln.make id name (VStr severity) file description recommendation).

(** The body of the [try] block of [parseDASTJSON], after [JSON.parse]. *)
Definition parseDASTJSON_doc (data : value) : exn (list Vuln.t) :=
  sites <- JS.get data "site" ;;
  match array_items sites with
  | Some sites =>
      forEach (fun site acc =>
                 alerts <- JS.get site "alerts" ;;
                 match array_items alerts with
                 | Some alerts =>
                     forEach (fun alert acc =>
                                r <- dast_alert site alert ;; Ok (push acc r))
                             alerts acc
                 | None => Ok acc
                 end)
              sites []
  | None =>
      vulns <- JS.get data "vulnerabilities" ;;
      match array_items vulns with
      | Some items =>
          forEach (fun vuln acc => r <- dast_generic vuln ;; Ok (push acc r)) items []
      | None => Ok []
      end
  end.

(** [parseDASTJSON(content)] *)
Definition parseDASTJSON (content : string) : list Vuln.t :=
  try_or_empty (data <- parse content ;; parseDASTJSON_doc data).

Definition dast_file (file : FileEntry.t) (acc : list Vuln.t) : exn (list Vuln.t) :=
  if Str.endsWith (FileEntry.name file) ".json"
  then Ok (concat_found acc (parseDASTJSON (FileEntry.content file)))
  else Ok acc.

(** [parseDASTReports()] *)
Definition parseDASTReports (fs : Fs.t) : exn ToolResult :=
  files <- readFilesFromDirectory fs DAST_DIR ;;
  all <- forEach dast_file files [] ;;
  Ok (mkToolResult "DAST" all).

End Normalizer.

(* ------------------------------------------------------------------ *)
(** ** Sample documents *)

Module Fixture.

(** JSON text is written here with ['] where the report has a double
    quote. *)
Fixpoint json_text (s : string) : string :=
  match s with
  | EmptyString => EmptyString
  | String c s' =>
      String (if Ascii.eqb c "'" then ascii_of_nat 34 else c) (json_text s')
  end.

Definition lodash_src : string :=
  json_text "{'vulnerabilities':{'lodash':{'via':[{'cve':'CVE-2021-1234','severity':'high'}],'fixAvailable':true}}}".

Definition lodash_doc : value :=
  VObj [("vulnerabilities",
         VObj [("lodash",
                VObj [("via", VArr [VObj [("cve", VStr "CVE-2021-1234");
                                          ("severity", VStr "high")]]);
                      ("fixAvailable", VBool true)])])].

Definition xss_src : string :=
  json_text "{'runs':[{'tool':{'driver':{'rules':[{'id':'CWE-79','name':'XSS','help':{'text':'Sanitize input'}}]}},'results':[{'ruleId':'CWE-79','level':'error'}]}]}".

Definition xss_doc : value :=
  VObj [("runs",
         VArr [VObj [("tool",
                      VObj [("driver",
                             VObj [("rules",
                                    VArr [VObj [("id", VStr "CWE-79");
                                                ("name", VStr "XSS");
                                                ("help", VObj [("text", VStr "Sanitize input")])]])])]);
                     ("results",
                      VArr [VObj [("ruleId", VStr "CWE-79");
                                  ("level", VStr "error")]])]])].

Definition numeric_id_src : string := json_text "{'vulnerabilities':[{'id':123}]}".

Definition numeric_id_doc : value :=
  VObj [("vulnerabilities", VArr [VObj [("id", VNum "123")]])].

Definition no_runs_src : string := json_text "{'version':'2.1.0'}".

Definition no_runs_doc : value := VObj [("version", VStr "2.1.0")].

Definition null_via_src : string :=
  json_text "{'vulnerabilities':{'a':{'via':[{'cve':'CVE-2020-1'}]},'b':{'via':[null]}}}".

Definition null_via_doc : value :=
  VObj [("vulnerabilities",
         VObj [("a", VObj [("via", VArr [VObj [("cve", VStr "CVE-2020-1")]])]);
               ("b", VObj [("via", VArr [VNull])])])].

Definition null_package_src : string :=
  json_text "{'vulnerabilities':{'a':{'via':[{'cve':'CVE-2020-1'}]},'b':null}}".

Definition null_package_doc : value :=
  VObj [("vulnerabilities",
         VObj [("a", VObj [("via", VArr [VObj [("cve", VStr "CVE-2020-1")]])]);
               ("b", VNull)])].

Definition not_json_src : string := "Scan finished: 3 findings".

Definition documents : list (string * value) :=
  [(lodash_src, lodash_doc); (xss_src, xss_doc);
   (numeric_id_src, numeric_id_doc); (no_runs_src, no_runs_doc);
   (null_via_src, null_via_doc); (null_package_src, null_package_doc)].

(** A host that knows the sample documents above and takes any other text
    for a syntax error; paths are joined with a slash, no environment
    variable is set, and texts are handled as ASCII. *)
Definition host : Host := {|
  JSON_parse := fun s => JS.lookup s documents;
  path_join := fun a b => (a ++ "/" ++ b)%string;
  env := fun _ => None;
  toUpperCase := Str.upper;
  trim := Str.trim;
  toUpperCase_ascii := fun s _ => eq_refl;
  trim_ascii := fun s _ => eq_refl
|}.

(** A reports directory with two SAST files, one SCA file and no DAST
    directory. *)
Definition files : Fs.t :=
  fun p =>
    if String.eqb p "./reports/sast" then Some (Fs.Dir ["scan.sarif"; "README.md"])
    else if String.eqb p "./reports/sast/scan.sarif" then Some (Fs.File xss_src)
    else if String.eqb p "./reports/sast/README.md" then Some (Fs.File "CWE-79 high")
    else if String.eqb p "./reports/sca" then Some (Fs.Dir ["audit.json"])
    else if String.eqb p "./reports/sca/audit.json" then Some (Fs.File lodash_src)
    else None.

(** The same reports seen by a later run: an empty DAST directory and a log
    file have appeared next to them. *)
Definition files_later : Fs.t :=
  fun p =>
    if String.eqb p "./reports/dast" then Some (Fs.Dir [])
    else if String.eqb p "./reports/run.log" then Some (Fs.File "second run")
    else files p.

End Fixture.

(* ------------------------------------------------------------------ *)
(** ** Definitions used in the statements *)

(** What a truthy input is classified as, from its upper-cased text. *)
Definition by_text (u : string) : string :=
  if Str.includes u "CRITICAL" || Str.includes u "CRIT" then "CRITICAL"
  else if Str.includes u "HIGH" then "HIGH"
  else if Str.includes u "MEDIUM" || Str.includes u "MED" then "MEDIUM"
  else if Str.includes u "LOW" then "LOW"
  else if Str.includes u "INFO" then "INFO"
  else u.

(** A field that is there: neither [undefined] nor [null]. *)
Definition present (v : value) : Prop := JS.nullish v = false.

(** A field that holds a text. *)
Definition is_text (v : value) : Prop := exists s, v = VStr s.

(** All six fields are there and the severity is a text. *)
Definition well_formed (r : Vuln.t) : Prop :=
  Forall present (Vuln.fields r) /\ is_text (Vuln.severity r).

(** All six fields hold a text. *)
Definition all_text (r : Vuln.t) : Prop := Forall is_text (Vuln.fields r).

(** An expression whose value, when it has one, is there. *)
Definition yields_present (m : exn value) : Prop :=
  forall v, m = Ok v -> present v.

(** A structured object: an object or an array, not [null]. *)
Definition is_structured (v : value) : bool :=
  match v with
  | VArr _ | VObj _ => true
  | _ => false
  end.

(** The entries of one package of the keyed shape that are structured
    objects, each with the package name and the advisory it sits in. *)
Definition package_entries (vulns : value) (pkg : string)
  : list (string * value * value) :=
  match JS.get_key vulns pkg with
  | Ok vuln =>
      match JS.get vuln "via" with
      | Ok (VArr via) =>
          flat_map (fun v => if is_structured v then [(pkg, vuln, v)] else []) via
      | _ => []
      end
  | Throw => []
  end.

(** The same over all packages, in the order of [Object.keys]. *)
Definition keyed_entries (vulns : value) : list (string * value * value) :=
  match JS.keys vulns with
  | Ok pkgs => flat_map (package_entries vulns) pkgs
  | Throw => []
  end.

(** The record [r] is the one of entry [v] of package [pkg]: the package
    name is its [file], and its [recommendation] is one of two texts, chosen
    by the truth of [fixAvailable]. *)
Definition keyed_record {host : Host} (entry : string * value * value) (r : Vuln.t)
  : Prop :=
  let '(pkg, vuln, v) := entry in
  sca_via pkg vuln v = Ok r /\
  Vuln.file r = VStr pkg /\
  exists fixAvailable,
    JS.get vuln "fixAvailable" = Ok fixAvailable /\
    Vuln.recommendation r
    = VStr (if JS.truthy fixAvailable then "Update available" else "No fix available").

(** The record [parseHTML] builds from a CWE number and a severity word. *)
Definition html_entry (cwe word : string) : Vuln.t :=
  Vuln.make (VStr ("CWE-" ++ cwe)%string)
            (VStr ("Vulnerability CWE-" ++ cwe)%string)
            (VStr (Str.upper word))
            (VStr "See HTML report")
            (VStr "Extracted from HTML report")
            (VStr "Refer to HTML report for details").

(** The record [parseSCATXT] builds from a CVE token, a severity and the
    line they were found in. *)
Definition txt_entry {host : Host} (cve severity line : string) : Vuln.t :=
  Vuln.make (VStr cve)
            (VStr ("Vulnerability " ++ cve)%string)
            (VStr severity)
            (VStr "See TXT report")
            (VStr (trim line))
            (VStr "Update affected package").

(** What the callback of [parseSCATXT] adds for one line, starting from
    nothing. *)
Definition line_records {host : Host} (line : string) : list Vuln.t :=
  match scatxt_line line [] with
  | Ok added => added
  | Throw => []
  end.

(** What a run sees of a directory: the names and the contents of its
    files, in the order they are listed. *)
Definition listing {host : Host} (fs : Fs.t) (dir : string)
  : exn (list (string * string)) :=
  files <- readFilesFromDirectory fs dir ;;
  Ok (map (fun f => (FileEntry.name f, FileEntry.content f)) files).

(** The directory is not there, or it has no entry. *)
Definition missing_or_empty (fs : Fs.t) (dir : string) : Prop :=
  fs dir = None \/ fs dir = Some (Fs.Dir []).

(* ------------------------------------------------------------------ *)
(** ** The wording of the specification *)

Module Spec.

(** The ordered candidate list of the severity classifier: the text looked
    for and the level it stands for. *)
Definition candidates : list (string * string) :=
  [("CRITICAL", "CRITICAL"); ("CRIT", "CRITICAL"); ("HIGH", "HIGH");
   ("MEDIUM", "MEDIUM"); ("MED", "MEDIUM"); ("LOW", "LOW"); ("INFO", "INFO")].

(** The first candidate, in that order, found in the upper-cased text. *)
Definition first_candidate (upper : string) : option (string * string) :=
  find (fun c => Str.includes upper (fst c)) candidates.

(** [classify raw] for a text: empty gives UNKNOWN, the first candidate
    found decides, a text without any candidate is kept in upper case. *)
Definition classify {host : Host} (raw : string) : string :=
  if String.eqb raw "" then "UNKNOWN"
  else
    match first_candidate (toUpperCase raw) with
    | Some c => snd c
    | None => toUpperCase raw
    end.

Fixpoint all_digits (s : string) : bool :=
  match s with
  | EmptyString => true
  | String c s' => Str.is_digit c && all_digits s'
  end.

(** A CVE-shaped token: [CVE-] in any case, four digits, a dash, one or more
    digits. *)
Definition is_cve_token (t : string) : Prop :=
  exists head year num,
    t = (head ++ year ++ "-" ++ num)%string /\
    Str.upper head = "CVE-" /\
    String.length year = 4 /\ all_digits year = true /\
    num <> "" /\ all_digits num = true.

(** One of the four severity words, in any case. *)
Definition is_severity_word (w : string) : Prop :=
  In (Str.upper w) ["CRITICAL"; "HIGH"; "MEDIUM"; "LOW"].

(** The text [t] occurs in [line]. *)
Definition occurs (t line : string) : Prop :=
  exists before after, line = (before ++ t ++ after)%string.

Definition has_cve (line : string) : Prop :=
  exists t, is_cve_token t /\ occurs t line.

Definition has_severity_word (line : string) : Prop :=
  exists w, is_severity_word w /\ occurs w line.

(** The text whose lines are [lines]: a line feed stands between two lines,
    none after the last. *)
Fixpoint unlines (lines : list string) : string :=
  match lines with
  | [] => ""
  | line :: rest =>
      match rest with
      | [] => line
      | _ => (line ++ String "010" (unlines rest))%string
      end
  end.

(** A text without a line feed. *)
Fixpoint one_line (s : string) : bool :=
  match s with
  | EmptyString => true
  | String c s' => negb (Ascii.eqb c "010") && one_line s'
  end.

End Spec.

(* ------------------------------------------------------------------ *)
(** ** Definitions used in the further statements *)

(** The records one file adds to its category, by the end of its name. *)
Definition sast_records {host : Host} (file : FileEntry.t) : list Vuln.t :=
  if Str.endsWith (FileEntry.name file) ".sarif"
     || Str.endsWith (FileEntry.name file) ".json"
  then parseSARIF (FileEntry.content file)
  else if Str.endsWith (FileEntry.name file) ".html"
  then try_or_empty (parseHTML (FileEntry.content file))
  else [].

Definition sca_records {host : Host} (file : FileEntry.t) : list Vuln.t :=
  if Str.endsWith (FileEntry.name file) ".json"
  then parseSCAJSON (FileEntry.content file)
  else if Str.endsWith (FileEntry.name file) ".txt"
  then try_or_empty (parseSCATXT (FileEntry.content file))
  else [].

Definition dast_records {host : Host} (file : FileEntry.t) : list Vuln.t :=
  if Str.endsWith (FileEntry.name file) ".json"
  then parseDASTJSON (FileEntry.content file)
  else [].

(** The entry [e] of directory [dir] is a file that can be read. *)
Definition readable {host : Host} (fs : Fs.t) (dir e : string) : Prop :=
  exists content, fs (path_join dir e) = Some (Fs.File content).

(** The file object built for entry [e] of [dir]. *)
Definition entry_of {host : Host} (fs : Fs.t) (dir : string) (f : FileEntry.t) : Prop :=
  FileEntry.path f = path_join dir (FileEntry.name f) /\
  fs (FileEntry.path f) = Some (Fs.File (FileEntry.content f)).

(** The value of the first of [names] that holds something truthy in the
    object, else the text [fallback]: a chain [o.a || o.b || 'fallback']. *)
Definition first_truthy (props : list (string * value)) (names : list string)
           (fallback : string) : value :=
  match find (fun k => JS.truthy (JS.or_undef (JS.lookup k props))) names with
  | Some k => JS.or_undef (JS.lookup k props)
  | None => VStr fallback
  end.

(** The results of a SARIF document, each with its run, run after run. *)
Definition sarif_findings (runs : list value) : list (value * value) :=
  flat_map (fun run =>
              match JS.get run "results" with
              | Ok (VArr results) => map (pair run) results
              | _ => []
              end) runs.

(** The alerts of a ZAP document, each with its site, site after site. *)
Definition zap_findings (sites : list value) : list (value * value) :=
  flat_map (fun site =>
              match JS.get site "alerts" with
              | Ok (VArr alerts) => map (pair site) alerts
              | _ => []
              end) sites.

(** A finding that is there and whose severity is absent or a JSON
    primitive (a text, a number, a boolean, [null]). *)
Definition plain_finding (item : value) : Prop :=
  JS.nullish item = false /\
  forall sev, JS.get item "severity" = Ok sev -> is_structured sev = false.

Fixpoint no_space (s : string) : bool :=
  match s with
  | EmptyString => true
  | String c s' => negb (Ascii.eqb c " ") && no_space s'
  end.

(** No CVE-shaped token begins in [before] when [before] is followed by
    [rest]. *)
Definition no_cve_starts_in (before rest : string) : Prop :=
  forall skipped from_here t after,
    before = (skipped ++ from_here)%string -> from_here <> "" ->
    Spec.is_cve_token t ->
    (from_here ++ rest)%string <> (t ++ after)%string.

(** *** Fallback chains *)

(** [v.k] where the read cannot throw: the own property of an object,
    [undefined] on anything else. *)
Definition prop (v : value) (k : string) : value :=
  match v with
  | VObj props => JS.or_undef (JS.lookup k props)
  | _ => VUndef
  end.

(** [c1 || c2 || .. || last] on values: the first candidate that is truthy,
    else [last]. *)
Definition first_or (candidates : list value) (last : value) : value :=
  match find JS.truthy candidates with
  | Some v => v
  | None => last
  end.

(** [c1 || c2 || .. || 'fallback']: the first candidate that is truthy, else
    the fallback literal. *)
Definition pick (candidates : list value) (fallback : string) : value :=
  first_or candidates (VStr fallback).

(** [s] is the severity of a record whose raw severity is [source]: what the
    classifier answers, which is UNKNOWN when [source] is falsy. *)
Definition severity_from {host : Host} (source : value) (s : string) : Prop :=
  normalizeSeverity source = Ok s /\
  (JS.truthy source = false -> s = "UNKNOWN").

(** The fields of the record of a SARIF result: [rule] is the rule found for
    the result, or the empty object. *)
Definition sarif_fields {host : Host} (run result : value) (r : Vuln.t) : Prop :=
  exists rule loc0 s,
    JS.or_else (rules_find (prop (prop (prop run "tool") "driver") "rules") result)
               (Ok (VObj [])) = Ok rule /\
    JS.first_opt (prop result "locations") = Ok loc0 /\
    severity_from (first_or [prop result "level"]
                     (prop (prop rule "defaultConfiguration") "level")) s /\
    r = Vuln.make
          (pick [prop result "ruleId"] "N/A")
          (pick [prop rule "name"; prop (prop result "message") "text"]
             "Unknown vulnerability")
          (VStr s)
          (pick [prop (prop (prop loc0 "physicalLocation") "artifactLocation") "uri"]
             "unknown")
          (pick [prop (prop rule "fullDescription") "text";
                 prop (prop rule "shortDescription") "text";
                 prop (prop result "message") "text"] "No description")
          (pick [prop (prop rule "help") "text"; prop rule "helpUri"]
             "No recommendation available").

(** The fields of the record of a finding of the array shape of an SCA
    report. *)
Definition sca_generic_fields {host : Host} (vuln : value) (r : Vuln.t) : Prop :=
  exists s,
    severity_from (prop vuln "severity") s /\
    r = Vuln.make
          (pick [prop vuln "id"; prop vuln "cve"] "N/A")
          (pick [prop vuln "title"; prop vuln "name"] "Unknown vulnerability")
          (VStr s)
          (pick [prop vuln "package"; prop vuln "library"; prop vuln "dependency"]
             "unknown")
          (pick [prop vuln "description"] "No description")
          (pick [prop vuln "recommendation"; prop vuln "fix"]
             "Update to latest version").

(** The fields of the record of entry [v] of the [via] array of package
    [pkg], whose value is [vuln]. *)
Definition sca_via_fields {host : Host} (pkg : string) (vuln v : value) (r : Vuln.t)
  : Prop :=
  exists s,
    severity_from (prop v "severity") s /\
    r = Vuln.make
          (pick [prop v "cve"; prop v "id"] "N/A")
          (pick [prop v "title"] "Dependency vulnerability")
          (VStr s)
          (VStr pkg)
          (pick [prop v "url"] "See package for details")
          (VStr (if JS.truthy (prop vuln "fixAvailable") then "Update available"
                 else "No fix available")).

(** The fields of the record of a ZAP alert: [head] is the first word of its
    [riskdesc]. *)
Definition dast_alert_fields {host : Host} (site alert : value) (r : Vuln.t) : Prop :=
  exists head s,
    riskdesc_head (prop alert "riskdesc") = Ok head /\
    severity_from (first_or [head] (prop alert "risk")) s /\
    r = Vuln.make
          (pick [prop alert "pluginid"; prop alert "id"] "N/A")
          (pick [prop alert "name"; prop alert "alert"] "Unknown vulnerability")
          (VStr s)
          (pick [prop alert "url"; prop site "name"] "unknown")
          (pick [prop alert "desc"; prop alert "description"] "No description")
          (pick [prop alert "solution"; prop alert "recommendation"]
             "No recommendation available").

(** The fields of the record of a finding of the generic shape of a DAST
    report. *)
Definition dast_generic_fields {host : Host} (vuln : value) (r : Vuln.t) : Prop :=
  exists s,
    severity_from (prop vuln "severity") s /\
    r = Vuln.make
          (pick [prop vuln "id"] "N/A")
          (pick [prop vuln "name"; prop vuln "title"] "Unknown vulnerability")
          (VStr s)
          (pick [prop vuln "url"; prop vuln "endpoint"] "unknown")
          (pick [prop vuln "description"] "No description")
          (pick [prop vuln "recommendation"; prop vuln "solution"]
             "No recommendation available").

(** *** Walks that reach the end *)

(** A package of the keyed shape that the walk gets through: its value is
    there, and every entry of its [via] array that passes the [typeof] test
    is there and has a severity that is absent or a JSON primitive. *)
Definition walkable_package (vulns : value) (pkg : string) : Prop :=
  exists vuln,
    JS.get_key vulns pkg = Ok vuln /\
    JS.nullish vuln = false /\
    forall via v,
      JS.get vuln "via" = Ok (VArr via) -> In v via ->
      JS.typeof_object v = true -> plain_finding v.

(** Every package of the keyed shape can be walked. *)
Definition keyed_walkable (vulns : value) : Prop :=
  forall pkgs, JS.keys vulns = Ok pkgs -> Forall (walkable_package vulns) pkgs.

(** An alert that is there, whose [riskdesc] is a text or absent and whose
    [risk] is absent or a JSON primitive. *)
Definition plain_alert (alert : value) : Prop :=
  JS.nullish alert = false /\
  (forall riskdesc, JS.get alert "riskdesc" = Ok riskdesc ->
                    JS.nullish riskdesc = true \/ is_text riskdesc) /\
  (forall risk, JS.get alert "risk" = Ok risk -> is_structured risk = false).

(** *** First matches *)

(** No severity word begins in [before] when [before] is followed by
    [rest]. *)
Definition no_severity_word_starts_in (before rest : string) : Prop :=
  forall skipped from_here w after,
    before = (skipped ++ from_here)%string -> from_here <> "" ->
    Spec.is_severity_word w ->
    (from_here ++ rest)%string <> (w ++ after)%string.

(** The text does not begin with a digit. *)
Definition no_digit_ahead (s : string) : Prop :=
  forall c rest, s = String c rest -> Str.is_digit c = false.

Module Sample.

Definition two_rules_doc : value :=
  VObj [("runs",
         VArr [VObj [("tool",
                      VObj [("driver",
                             VObj [("rules",
                                    VArr [VObj [("id", VStr "R1"); ("name", VStr "first")];
                                          VObj [("id", VStr "R1"); ("name", VStr "second")];
                                          VNull])])]);
                     ("results", VArr [VObj [("ruleId", VStr "R1")]])]])].

Definition zap_doc : value :=
  VObj [("site",
         VArr [VObj [("name", VStr "http://shop.test");
                     ("alerts",
                      VArr [VObj [("pluginid", VStr "10020");
                                  ("name", VStr "Missing header");
                                  ("riskdesc", VStr "Medium (High)")];
                            VObj [("alert", VStr "Cookie flag");
                                  ("risk", VStr "Low");
                                  ("url", VStr "http://shop.test/cart")]])]]);
        ("vulnerabilities", VArr [VObj [("id", VStr "ignored")]])].

Definition zap_null_alert_doc : value :=
  VObj [("site",
         VArr [VObj [("alerts", VArr [VObj [("name", VStr "kept?")]; VNull])]])].

Definition sca_list_doc : value :=
  VObj [("vulnerabilities",
         VArr [VObj [("id", VStr "GHSA-1"); ("cve", VStr "CVE-2020-1");
                     ("name", VStr "by name"); ("library", VStr "left-pad");
                     ("dependency", VStr "other"); ("severity", VStr "moderate");
                     ("fix", VStr "upgrade")];
               VStr "a bare text";
               VObj [("cve", VStr "CVE-2020-2"); ("severity", VNum "9.8")]])].

Definition sca_null_item_doc : value :=
  VObj [("vulnerabilities", VArr [VObj [("id", VStr "GHSA-1")]; VNull])].

Definition sarif_null_result_doc : value :=
  VObj [("runs", VArr [VObj [("results", VArr [VObj [("ruleId", VStr "R1")]; VNull])]])].

Definition dast_list_null_doc : value :=
  VObj [("vulnerabilities", VArr [VNull])].

(** A reports directory whose SAST directory holds a sub-directory. *)
Definition files_with_subdir : Fs.t :=
  fun p =>
    if String.eqb p "./reports/sast" then Some (Fs.Dir ["scan.sarif"; "old"])
    else if String.eqb p "./reports/sast/scan.sarif" then Some (Fs.File Fixture.xss_src)
    else if String.eqb p "./reports/sast/old" then Some (Fs.Dir [])
    else None.

Definition sca_null_item_src : string :=
  Fixture.json_text "{'vulnerabilities':[{'id':'GHSA-1'},null]}".

Definition sarif_null_result_src : string :=
  Fixture.json_text "{'runs':[{'results':[{'ruleId':'R1'},null]}]}".

Definition zap_null_alert_src : string :=
  Fixture.json_text "{'site':[{'alerts':[{'name':'kept?'},null]}]}".

Definition dast_list_null_src : string :=
  Fixture.json_text "{'vulnerabilities':[null]}".

Definition documents : list (string * value) :=
  [(sca_null_item_src, sca_null_item_doc);
   (sarif_null_result_src, sarif_null_result_doc);
   (zap_null_alert_src, zap_null_alert_doc);
   (dast_list_null_src, dast_list_null_doc)].

(** The host of [Fixture], knowing the documents of this module instead. *)
Definition host : Host := {|
  JSON_parse := fun s => JS.lookup s documents;
  path_join := fun a b => (a ++ "/" ++ b)%string;
  env := fun _ => None;
  toUpperCase := Str.upper;
  trim := Str.trim;
  toUpperCase_ascii := fun s _ => eq_refl;
  trim_ascii := fun s _ => eq_refl
|}.

End Sample.

(* ------------------------------------------------------------------ *)
(** ** Checks on small inputs *)

Example normalizeSeverity_high :
  normalizeSeverity (host := Fixture.host) (VStr "high") = Ok "HIGH".
Proof. reflexivity. Qed.

Example normalizeSeverity_both :
  normalizeSeverity (host := Fixture.host) (VStr "HIGH/CRITICAL") = Ok "CRITICAL".
Proof. reflexivity. Qed.

Example normalizeSeverity_banana :
  normalizeSeverity (host := Fixture.host) (VStr "banana") = Ok "BANANA".
Proof. reflexivity. Qed.

Example normalizeSeverity_error :
  normalizeSeverity (host := Fixture.host) (VStr "error") = Ok "ERROR".
Proof. reflexivity. Qed.

Example normalizeSeverity_nested :
  normalizeSeverity (host := Fixture.host)
    (VArr [VStr "a"; VNull; VArr [VNum "1"; VStr "low"]])
  = Ok "LOW".
Proof. reflexivity. Qed.

Example normalizeSeverity_hidden_toString :
  normalizeSeverity (host := Fixture.host) (VObj [("toString", VStr "high")]) = Throw.
Proof. reflexivity. Qed.

Example cve_first :
  Re.first_match Re.cve_at "Found cve-2022-9999 and CVE-2021-1 here"
  = Some "cve-2022-9999".
Proof. reflexivity. Qed.

Example cve_year_must_have_four_digits :
  Re.first_match Re.cve_at "CVE-20221-9 CVE-202-9 CVE-2022-x" = None.
Proof. reflexivity. Qed.

Example cwe_all :
  Re.matchAll Re.cwe_at "CWE-79 cwe-89, CWE- CWE-x CWE-2022" = ["79"; "89"; "2022"].
Proof. reflexivity. Qed.

Example severity_all :
  Re.matchAll Re.severity_at "Highlow MEDIUMCRITICAL lo"
  = ["High"; "low"; "MEDIUM"; "CRITICAL"].
Proof. reflexivity. Qed.

Example endsWith_json :
  Str.endsWith "audit.json" ".json" = true /\
  Str.endsWith "json" ".json" = false /\
  Str.endsWith "audit.json.bak" ".json" = false.
Proof. repeat split; reflexivity. Qed.

Example split_lines :
  Str.split "010" (String "a" (String "010" (String "010" (String "b" EmptyString))))
  = ["a"; ""; "b"].
Proof. reflexivity. Qed.

Example trim_spaces : Str.trim "   a b  " = "a b".
Proof. reflexivity. Qed.

Example riskdesc_first_word :
  riskdesc_head (VStr "High (Medium)") = Ok (VStr "High") /\
  riskdesc_head (VNum "3") = Throw /\
  riskdesc_head VUndef = Ok VUndef.
Proof. repeat split; reflexivity. Qed.

Example parseSARIF_sample :
  parseSARIF (host := Fixture.host) Fixture.xss_src
  = [Vuln.make (VStr "CWE-79") (VStr "XSS") (VStr "ERROR") (VStr "unknown")
       (VStr "No description") (VStr "Sanitize input")].
Proof. reflexivity. Qed.

Example parseSASTReports_sample :
  parseSASTReports (host := Fixture.host) Fixture.files
  = Ok (mkToolResult "SAST"
          [Vuln.make (VStr "CWE-79") (VStr "XSS") (VStr "ERROR") (VStr "unknown")
             (VStr "No description") (VStr "Sanitize input")]).
Proof. reflexivity. Qed.

(* ------------------------------------------------------------------ *)
(** ** The exception monad *)

Lemma bind_Ok_inv {A B : Type} (m : exn A) (k : A -> exn B) (b : B) :
  bind m k = Ok b -> exists a, m = Ok a /\ k a = Ok b.
Proof.
  destruct m as [a|]; simpl; intros H; [exists a; auto | discriminate].
Qed.

(** Splits every [bind] that is known to succeed into its two steps. *)
Ltac bind_inv :=
  repeat match goal with
         | H : bind _ _ = Ok _ |- _ =>
             let a := fresh "a" in
             let E := fresh "E" in
             apply bind_Ok_inv in H; destruct H as (a & E & H)
         | H : Ok _ = Ok _ |- _ => injection H as H
         end.

Lemma try_or_empty_Forall {A : Type} (P : A -> Prop) (body : exn (list A)) :
  (forall l, body = Ok l -> Forall P l) -> Forall P (try_or_empty body).
Proof.
  intros H. destruct body as [l|]; simpl; [apply H; reflexivity | constructor].
Qed.

(* ------------------------------------------------------------------ *)
(** ** Loops *)

Section Loops.

Context {A S : Type}.
Variable f : A -> S -> exn S.

(** A property of the state that every turn keeps holds at the end. *)
Lemma forEach_invariant (P : S -> Prop) (l : list A) :
  (forall x st st', In x l -> P st -> f x st = Ok st' -> P st') ->
  forall st st', P st -> forEach f l st = Ok st' -> P st'.
Proof.
  induction l as [|x l IH]; intros Hstep st st' Hst H; simpl in H.
  - injection H as <-. exact Hst.
  - bind_inv. apply IH with (st := a); auto.
    + intros y s1 s2 Hy. apply Hstep. right. exact Hy.
    + apply Hstep with (x := x) (st := st); auto. left. reflexivity.
Qed.

(** A turn that always throws makes the whole loop throw. *)
Lemma forEach_throws (l : list A) (x : A) :
  In x l -> (forall st, f x st = Throw) ->
  forall st, forEach f l st = Throw.
Proof.
  induction l as [|y l IH]; intros Hin Hx st; [destruct Hin|].
  simpl. destruct Hin as [-> | Hin].
  - rewrite Hx. reflexivity.
  - destruct (f y st) as [st1|]; simpl; [apply IH; assumption | reflexivity].
Qed.

(** A loop whose turns never throw never throws. *)
Lemma forEach_total (l : list A) :
  (forall x st, In x l -> exists st', f x st = Ok st') ->
  forall st, exists st', forEach f l st = Ok st'.
Proof.
  induction l as [|x l IH]; intros Hstep st; simpl.
  - exists st. reflexivity.
  - destruct (Hstep x st (or_introl eq_refl)) as (st1 & ->). simpl.
    apply IH. intros y s Hy. apply Hstep. right. exact Hy.
Qed.

End Loops.

Section Collecting.

Context {A : Type}.

(** A loop that pushes one record per item keeps any property that holds of
    every record it builds. *)
Lemma forEach_push_Forall (build : A -> exn Vuln.t) (P : Vuln.t -> Prop)
      (l : list A) (acc out : list Vuln.t) :
  (forall x r, In x l -> build x = Ok r -> P r) ->
  Forall P acc ->
  forEach (fun x acc => r <- build x ;; Ok (push acc r)) l acc = Ok out ->
  Forall P out.
Proof.
  intros Hbuild Hacc H.
  apply (forEach_invariant (fun x acc => r <- build x ;; Ok (push acc r))
           (Forall P) l) with (st := acc); auto.
  intros x st st' Hx Hst Hpush. bind_inv. subst st'. unfold push.
  apply Forall_app. split; [assumption|]. constructor; [|constructor].
  apply Hbuild with (x := x); assumption.
Qed.

(** A loop that pushes one record per item, none of them failing, appends
    the records in order. *)
Lemma forEach_push_map (build : A -> exn Vuln.t) (g : A -> Vuln.t)
      (l : list A) (acc : list Vuln.t) :
  (forall x, In x l -> build x = Ok (g x)) ->
  forEach (fun x acc => r <- build x ;; Ok (push acc r)) l acc = Ok (acc ++ map g l).
Proof.
  revert acc. induction l as [|x l IH]; intros acc H; simpl.
  - rewrite app_nil_r. reflexivity.
  - rewrite (H x (or_introl eq_refl)). simpl.
    rewrite IH; [|intros y Hy; apply H; right; exact Hy].
    unfold push. rewrite <- app_assoc. reflexivity.
Qed.

(** A loop whose turns each append the records of the entries of their item
    appends, in all, the records of all the entries, in order. *)
Lemma forEach_entries {B : Type} (f : A -> list Vuln.t -> exn (list Vuln.t))
      (e : A -> list B) (R : B -> Vuln.t -> Prop) (l : list A) :
  (forall x acc acc', In x l -> f x acc = Ok acc' ->
                      exists lx, acc' = acc ++ lx /\ Forall2 R (e x) lx) ->
  forall acc out, forEach f l acc = Ok out ->
                  exists lo, out = acc ++ lo /\ Forall2 R (flat_map e l) lo.
Proof.
  induction l as [|x l IH]; intros Hstep acc out H; simpl in H.
  - injection H as <-. exists []. split; [symmetry; apply app_nil_r | constructor].
  - bind_inv.
    destruct (Hstep x acc a (or_introl eq_refl) E) as (lx & -> & Hx).
    destruct (IH (fun y s1 s2 Hy => Hstep y s1 s2 (or_intror Hy)) _ _ H)
      as (lo & -> & Hlo).
    exists (lx ++ lo). split; [symmetry; apply app_assoc|].
    simpl. apply Forall2_app; assumption.
Qed.

End Collecting.

(** Reading two lists by index up to the shorter length is pairing them. *)
Lemma map_nth_combine {B : Type} (h : string -> string -> B) (xs ys : list string) :
  map (fun i => h (nth i xs "") (nth i ys ""))
      (seq 0 (Nat.min (List.length xs) (List.length ys)))
  = map (fun p => h (fst p) (snd p)) (combine xs ys).
Proof.
  revert ys. induction xs as [|x xs IH]; intros ys; simpl; [reflexivity|].
  destruct ys as [|y ys]; simpl; [reflexivity|].
  f_equal. rewrite <- seq_shift, map_map. apply IH.
Qed.

Lemma array_items_not_array (v : value) :
  JS.isArray v = false -> array_items v = None.
Proof.
  intros H. unfold array_items. rewrite H, Bool.andb_false_r. reflexivity.
Qed.

Lemma array_items_Some (v : value) (items : list value) :
  array_items v = Some items -> v = VArr items.
Proof.
  destruct v; unfold array_items; simpl; rewrite ?Bool.andb_false_r;
    intros H; try discriminate H.
  injection H as ->. reflexivity.
Qed.

(* ------------------------------------------------------------------ *)
(** ** Texts: cutting and joining *)

Section Texts.

Local Open Scope string_scope.
Local Open Scope nat_scope.

Lemma append_assoc (a b c : string) : (a ++ b) ++ c = a ++ (b ++ c).
Proof. induction a as [|x a IH]; simpl; [reflexivity | rewrite IH; reflexivity]. Qed.

Lemma take_drop (n : nat) (s : string) : s = Str.take n s ++ Re.drop n s.
Proof.
  revert s. induction n as [|n IH]; intros s; simpl; [destruct s; reflexivity|].
  destruct s as [|c s]; simpl; [reflexivity|]. rewrite <- IH. reflexivity.
Qed.

Lemma take_add (n m : nat) (s : string) :
  Str.take (n + m) s = Str.take n s ++ Str.take m (Re.drop n s).
Proof.
  revert s. induction n as [|n IH]; intros s; simpl.
  - destruct s; reflexivity.
  - destruct s as [|c s]; simpl; [destruct m; reflexivity|].
    rewrite IH. reflexivity.
Qed.

Lemma drop_add (n m : nat) (s : string) :
  Re.drop (n + m) s = Re.drop m (Re.drop n s).
Proof.
  revert s. induction n as [|n IH]; intros s; simpl.
  - destruct s; reflexivity.
  - destruct s as [|c s]; simpl; [destruct m; reflexivity | apply IH].
Qed.

Lemma drop_app_length (a b : string) : Re.drop (String.length a) (a ++ b) = b.
Proof. induction a as [|x a IH]; simpl; [destruct b; reflexivity | exact IH]. Qed.

Lemma take_length_le (n : nat) (s : string) :
  n <= String.length s -> String.length (Str.take n s) = n.
Proof.
  revert s. induction n as [|n IH]; intros s H; simpl; [reflexivity|].
  destruct s as [|c s]; simpl in *; [lia|]. rewrite IH; [reflexivity | lia].
Qed.

Lemma startsWith_take (p s : string) :
  Str.startsWith s p = true -> Str.take (String.length p) s = p.
Proof.
  revert s. induction p as [|a p IH]; intros s H; simpl; [reflexivity|].
  destruct s as [|b s]; simpl in H; [discriminate|].
  apply Bool.andb_true_iff in H. destruct H as [Hab Hp].
  apply Ascii.eqb_eq in Hab. subst b. rewrite (IH _ Hp). reflexivity.
Qed.

Lemma startsWith_app (p rest : string) : Str.startsWith (p ++ rest) p = true.
Proof.
  induction p as [|a p IH]; simpl; [destruct rest; reflexivity|].
  rewrite Ascii.eqb_refl. exact IH.
Qed.

Lemma upper_length (s : string) : String.length (Str.upper s) = String.length s.
Proof. induction s as [|c s IH]; simpl; [reflexivity | rewrite IH; reflexivity]. Qed.

Lemma upper_char_ascii (c : ascii) :
  nat_of_ascii (Str.upper_char c) < 128 -> nat_of_ascii c < 128.
Proof.
  unfold Str.upper_char. destruct (Str.is_lower c) eqn:E; [|auto].
  intros _. unfold Str.is_lower in E.
  apply Bool.andb_true_iff in E. destruct E as [_ E].
  apply Nat.leb_le in E. lia.
Qed.

(** A text whose upper case is ASCII is ASCII. *)
Lemma upper_is_ascii (s : string) :
  Str.is_ascii (Str.upper s) = true -> Str.is_ascii s = true.
Proof.
  induction s as [|c s IH]; simpl; [reflexivity|].
  intros H. apply Bool.andb_true_iff in H. destruct H as [Hc Hs].
  apply Nat.ltb_lt in Hc. apply upper_char_ascii in Hc.
  apply Bool.andb_true_iff. split; [apply Nat.ltb_lt; exact Hc | apply IH; exact Hs].
Qed.

(** A successful case-blind test at the start of [s] cuts [s] into the part
    matched, which is the pattern up to case, and the rest. *)
Lemma startsWith_ci_take (p s : string) :
  Re.startsWith_ci s p = true ->
  Str.upper (Str.take (String.length p) s) = p /\
  s = Str.take (String.length p) s ++ Re.drop (String.length p) s.
Proof.
  revert s. induction p as [|a p IH]; intros s H; simpl.
  - split; [destruct s; reflexivity | reflexivity].
  - destruct s as [|b s]; simpl in H; [discriminate|].
    apply Bool.andb_true_iff in H. destruct H as [Hab Hp].
    apply Ascii.eqb_eq in Hab. destruct (IH _ Hp) as [Hu Hs].
    simpl. split; [rewrite Hu, <- Hab; reflexivity | rewrite <- Hs; reflexivity].
Qed.

Lemma startsWith_ci_app (w rest : string) :
  Re.startsWith_ci (w ++ rest) (Str.upper w) = true.
Proof.
  induction w as [|c w IH]; simpl; [destruct rest; reflexivity|].
  rewrite Ascii.eqb_refl. exact IH.
Qed.

Lemma digits_take (s : string) :
  Str.take (String.length (Re.digits s)) s = Re.digits s.
Proof.
  induction s as [|c s IH]; simpl; [reflexivity|].
  destruct (Str.is_digit c); simpl; [rewrite IH; reflexivity | reflexivity].
Qed.

Lemma digits_all (s : string) : Spec.all_digits (Re.digits s) = true.
Proof.
  induction s as [|c s IH]; simpl; [reflexivity|].
  destruct (Str.is_digit c) eqn:E; simpl; [rewrite E; exact IH | reflexivity].
Qed.

Lemma all_digits_take (n : nat) (s : string) :
  Spec.all_digits s = true -> Spec.all_digits (Str.take n s) = true.
Proof.
  revert s. induction n as [|n IH]; intros s H; simpl; [reflexivity|].
  destruct s as [|c s]; simpl in *; [reflexivity|].
  apply Bool.andb_true_iff in H. destruct H as [Hc Hs].
  rewrite Hc, (IH _ Hs). reflexivity.
Qed.

Lemma take_digits (n : nat) (s : string) :
  n <= String.length (Re.digits s) -> Str.take n s = Str.take n (Re.digits s).
Proof.
  revert s. induction n as [|n IH]; intros s H; simpl; [reflexivity|].
  destruct s as [|c s]; simpl in *; [reflexivity|].
  destruct (Str.is_digit c); simpl in *; [|lia].
  rewrite IH; [reflexivity | lia].
Qed.

(** A run of digits followed by something that is not a digit is all the
    digits there are. *)
Lemma digits_app_stop (a : string) (c : ascii) (rest : string) :
  Spec.all_digits a = true -> Str.is_digit c = false ->
  Re.digits (a ++ String c rest) = a.
Proof.
  intros Ha Hc. induction a as [|x a IH]; simpl in *; [rewrite Hc; reflexivity|].
  apply Bool.andb_true_iff in Ha. destruct Ha as [Hx Ha].
  rewrite Hx, (IH Ha). reflexivity.
Qed.

Lemma digits_app_nonempty (a rest : string) :
  a <> "" -> Spec.all_digits a = true -> Re.digits (a ++ rest) <> "".
Proof.
  intros Ha Hd. destruct a as [|x a]; [congruence|]. simpl in *.
  apply Bool.andb_true_iff in Hd. destruct Hd as [Hx _].
  rewrite Hx. discriminate.
Qed.

End Texts.

(* ------------------------------------------------------------------ *)
(** ** Matches *)

Section Matching.

Local Open Scope string_scope.
Local Open Scope nat_scope.

Variable at_start : string -> option Re.hit.

Lemma first_match_Some (s m : string) :
  Re.first_match at_start s = Some m ->
  exists before rest n, s = before ++ rest /\ at_start rest = Some (n, m).
Proof.
  induction s as [|c s IH]; simpl.
  - destruct (at_start "") as [[n m']|] eqn:E; [|discriminate].
    intros H. injection H as <-. exists "", "", n. split; [reflexivity | exact E].
  - destruct (at_start (String c s)) as [[n m']|] eqn:E.
    + intros H. injection H as <-. exists "", (String c s), n.
      split; [reflexivity | exact E].
    + intros H. destruct (IH H) as (before & rest & n & -> & Hat).
      exists (String c before), rest, n. split; [reflexivity | exact Hat].
Qed.

Lemma first_match_None (s : string) :
  Re.first_match at_start s = None ->
  forall before rest, s = before ++ rest -> at_start rest = None.
Proof.
  induction s as [|c s IH]; simpl.
  - destruct (at_start "") as [[n m']|] eqn:E; [discriminate|].
    intros _ before rest H. destruct before; [|discriminate].
    simpl in H. subst rest. exact E.
  - destruct (at_start (String c s)) as [[n m']|] eqn:E; [discriminate|].
    intros H before rest Hs. destruct before as [|b before]; simpl in Hs.
    + subst rest. exact E.
    + injection Hs as _ Hs. apply (IH H before rest Hs).
Qed.

(** What holds of every match at the start of a text holds of every match
    that [matchAll] lists. *)
Lemma match_all_Forall (P : string -> Prop) :
  (forall s n m, at_start s = Some (n, m) -> P m) ->
  forall s skip, Forall P (Re.match_all at_start skip s).
Proof.
  intros HP s. induction s as [|c s IH]; intros skip; simpl; [constructor|].
  destruct skip as [|k]; [|apply IH].
  destruct (at_start (String c s)) as [[len m]|] eqn:E; [|apply IH].
  constructor; [eapply HP; eassumption | apply IH].
Qed.

End Matching.

Section Patterns.

Local Open Scope string_scope.
Local Open Scope nat_scope.

(** The word a severity match keeps is one of the four words, up to case. *)
Lemma severity_at_word (s : string) (n : nat) (w : string) :
  Re.severity_at s = Some (n, w) ->
  Spec.is_severity_word w /\ s = w ++ Re.drop n s.
Proof.
  unfold Re.severity_at, Spec.is_severity_word. intros H.
  destruct (Re.startsWith_ci s "CRITICAL") eqn:E1.
  { injection H as <- <-. destruct (startsWith_ci_take _ _ E1) as [Hu Hs].
    simpl in Hu, Hs. split; [rewrite Hu; simpl; auto | exact Hs]. }
  destruct (Re.startsWith_ci s "HIGH") eqn:E2.
  { injection H as <- <-. destruct (startsWith_ci_take _ _ E2) as [Hu Hs].
    simpl in Hu, Hs. split; [rewrite Hu; simpl; auto | exact Hs]. }
  destruct (Re.startsWith_ci s "MEDIUM") eqn:E3.
  { injection H as <- <-. destruct (startsWith_ci_take _ _ E3) as [Hu Hs].
    simpl in Hu, Hs. split; [rewrite Hu; simpl; auto | exact Hs]. }
  destruct (Re.startsWith_ci s "LOW") eqn:E4; [|discriminate].
  injection H as <- <-. destruct (startsWith_ci_take _ _ E4) as [Hu Hs].
  simpl in Hu, Hs. split; [rewrite Hu; simpl; auto 6 | exact Hs].
Qed.

(** A severity word at the start of a text is matched there. *)
Lemma word_severity_at (w rest : string) :
  Spec.is_severity_word w -> Re.severity_at (w ++ rest) <> None.
Proof.
  unfold Spec.is_severity_word. intros H.
  pose proof (startsWith_ci_app w rest) as Hw.
  unfold Re.severity_at.
  destruct H as [H | [H | [H | [H | []]]]]; rewrite <- H in Hw;
    repeat match goal with
           | |- context [if Re.startsWith_ci ?s ?p then _ else _] =>
               first [rewrite Hw | destruct (Re.startsWith_ci s p)]
           end; discriminate.
Qed.

(** What the CVE pattern matches is a CVE-shaped token at the start. *)
Lemma cve_at_token (s : string) (n : nat) (t : string) :
  Re.cve_at s = Some (n, t) ->
  Spec.is_cve_token t /\ s = t ++ Re.drop n s.
Proof.
  unfold Re.cve_at. intros H.
  destruct (Re.startsWith_ci s "CVE-") eqn:E1; [|discriminate].
  destruct ((4 <=? String.length (Re.digits (Re.drop 4 s)))
            && Str.startsWith (Re.drop 8 s) "-") eqn:E2; [|discriminate].
  apply Bool.andb_true_iff in E2. destruct E2 as [Eyear Edash].
  apply Nat.leb_le in Eyear.
  destruct (Re.digits (Re.drop 9 s)) as [|d num] eqn:E3; [discriminate|].
  remember (9 + String.length (String d num)) as k eqn:Ek.
  injection H as <- <-. split; [|apply take_drop].
  exists (Str.take 4 s), (Str.take 4 (Re.drop 4 s)), (String d num).
  destruct (startsWith_ci_take _ _ E1) as [Hhead _]. simpl in Hhead.
  repeat split.
  - subst k.
    change (9 + String.length (String d num))
      with (4 + (4 + (1 + String.length (String d num)))).
    rewrite take_add. f_equal. rewrite take_add. f_equal.
    rewrite <- drop_add. change (4 + 4) with 8.
    rewrite take_add. rewrite <- drop_add. change (8 + 1) with 9.
    rewrite (startsWith_take "-" _ Edash : Str.take 1 (Re.drop 8 s) = "-").
    rewrite <- E3, digits_take. reflexivity.
  - exact Hhead.
  - rewrite take_digits by exact Eyear. apply take_length_le. exact Eyear.
  - rewrite take_digits by exact Eyear. apply all_digits_take, digits_all.
  - discriminate.
  - rewrite <- E3. apply digits_all.
Qed.

(** A CVE-shaped token at the start of a text is matched there. *)
Lemma token_cve_at (t rest : string) :
  Spec.is_cve_token t -> Re.cve_at (t ++ rest) <> None.
Proof.
  unfold Spec.is_cve_token.
  intros (head & year & num & Ht & Hhead & Hlen & Hyear & Hnum & Hdigits).
  subst t.
  assert (Lhead : String.length head = 4).
  { rewrite <- upper_length, Hhead. reflexivity. }
  rewrite !append_assoc. simpl.
  set (tail := year ++ String "-" (num ++ rest)).
  assert (D4 : Re.drop 4 (head ++ tail) = tail).
  { rewrite <- Lhead. apply drop_app_length. }
  assert (D8 : Re.drop 8 (head ++ tail) = String "-" (num ++ rest)).
  { change 8 with (4 + 4). rewrite drop_add, D4. unfold tail.
    rewrite <- Hlen. apply drop_app_length. }
  assert (D9 : Re.drop 9 (head ++ tail) = num ++ rest).
  { change 9 with (8 + 1). rewrite drop_add, D8. reflexivity. }
  unfold Re.cve_at.
  rewrite <- Hhead at 1. rewrite startsWith_ci_app.
  rewrite D4, D8, D9.
  unfold tail at 1. rewrite digits_app_stop by (exact Hyear || reflexivity).
  rewrite Hlen.
  replace (Str.startsWith (String "-" (num ++ rest)) "-") with true
    by (symmetry; apply (startsWith_app "-" (num ++ rest))).
  change ((4 <=? 4) && true) with true. cbv iota.
  destruct (Re.digits (num ++ rest)) eqn:E; [|discriminate].
  exfalso. revert E. apply digits_app_nonempty; assumption.
Qed.

(** The leftmost CVE match of a line: a CVE-shaped token that occurs in the
    line, and none exactly when no such token occurs. *)
Lemma first_match_cve (line : string) :
  (forall cve, Re.first_match Re.cve_at line = Some cve ->
               Spec.is_cve_token cve /\ Spec.occurs cve line) /\
  (Re.first_match Re.cve_at line = None <-> ~ Spec.has_cve line).
Proof.
  assert (HSome : forall cve, Re.first_match Re.cve_at line = Some cve ->
                              Spec.is_cve_token cve /\ Spec.occurs cve line).
  { intros cve H.
    destruct (first_match_Some _ _ H) as (before & rest & n & Hline & Hat).
    subst line.
    destruct (cve_at_token _ Hat) as [Htok Hrest].
    split; [exact Htok|]. exists before, (Re.drop n rest).
    rewrite <- Hrest. reflexivity. }
  split; [exact HSome|]. split.
  - intros H (t & Htok & before & after & ->).
    apply (token_cve_at after Htok).
    eapply first_match_None; [exact H | reflexivity].
  - intros H. destruct (Re.first_match Re.cve_at line) as [cve|] eqn:E; [|reflexivity].
    exfalso. apply H. exists cve. apply HSome. reflexivity.
Qed.

(** The same for the severity words. *)
Lemma first_match_severity (line : string) :
  (forall w, Re.first_match Re.severity_at line = Some w ->
             Spec.is_severity_word w /\ Spec.occurs w line) /\
  (Re.first_match Re.severity_at line = None <-> ~ Spec.has_severity_word line).
Proof.
  assert (HSome : forall w, Re.first_match Re.severity_at line = Some w ->
                            Spec.is_severity_word w /\ Spec.occurs w line).
  { intros w H.
    destruct (first_match_Some _ _ H) as (before & rest & n & Hline & Hat).
    subst line.
    destruct (severity_at_word _ Hat) as [Hword Hrest].
    split; [exact Hword|]. exists before, (Re.drop n rest).
    rewrite <- Hrest. reflexivity. }
  split; [exact HSome|]. split.
  - intros H (w & Hword & before & after & ->).
    apply (word_severity_at after Hword).
    eapply first_match_None; [exact H | reflexivity].
  - intros H. destruct (Re.first_match Re.severity_at line) as [w|] eqn:E; [|reflexivity].
    exfalso. apply H. exists w. apply HSome. reflexivity.
Qed.

Lemma severity_matches_are_words (content : string) :
  Forall Spec.is_severity_word (Re.matchAll Re.severity_at content).
Proof.
  unfold Re.matchAll. apply match_all_Forall.
  intros s n m H. apply (severity_at_word _ H).
Qed.

End Patterns.

(* ------------------------------------------------------------------ *)
(** ** Severity classifier *)

Section Classifier.

Context {host : Host}.

Lemma truthy_VStr (s : string) : JS.truthy (VStr s) = negb (String.eqb s "").
Proof. reflexivity. Qed.

Lemma eqb_empty_false (s : string) : s <> "" -> String.eqb s "" = false.
Proof. intros H. apply String.eqb_neq. exact H. Qed.

(** A falsy input is classified UNKNOWN. *)
Lemma normalizeSeverity_falsy (v : value) :
  JS.truthy v = false -> normalizeSeverity v = Ok "UNKNOWN".
Proof. intros H. unfold normalizeSeverity. rewrite H. reflexivity. Qed.

(** A truthy input is classified by its upper-cased text. *)
Lemma normalizeSeverity_truthy (v : value) :
  JS.truthy v = true ->
  normalizeSeverity v = (t <- JS.toString v ;; Ok (by_text (toUpperCase t))).
Proof.
  intros H. unfold normalizeSeverity, by_text. rewrite H. simpl.
  destruct (JS.toString v) as [t|]; simpl; [|reflexivity].
  repeat match goal with
         | |- context [if ?b then _ else _] => destruct b; simpl
         end; reflexivity.
Qed.

Lemma by_text_unknown (u : string) :
  by_text u = "UNKNOWN" <-> u = "UNKNOWN".
Proof.
  unfold by_text. split.
  - repeat match goal with
           | |- context [if ?b then _ else _] => destruct b; simpl
           end; intros H; try discriminate H; exact H.
  - intros ->. reflexivity.
Qed.

(** The cascade of tests is the search for the first candidate of the
    ordered list. *)
Lemma by_text_first_candidate (u : string) :
  by_text u = match Spec.first_candidate u with
              | Some c => snd c
              | None => u
              end.
Proof.
  unfold by_text, Spec.first_candidate. simpl.
  repeat match goal with
         | |- context [Str.includes u ?p] => destruct (Str.includes u p); simpl
         end; reflexivity.
Qed.

(** On a text, the code and the ordered candidate list of the
    specification agree. *)
Lemma normalizeSeverity_classify (s : string) :
  normalizeSeverity (VStr s) = Ok (Spec.classify s).
Proof.
  unfold Spec.classify. destruct (String.eqb s "") eqn:E.
  - apply normalizeSeverity_falsy. rewrite truthy_VStr, E. reflexivity.
  - rewrite normalizeSeverity_truthy by (rewrite truthy_VStr, E; reflexivity).
    simpl. rewrite by_text_first_candidate. reflexivity.
Qed.

(** On a text the classifier never throws. *)
Lemma normalizeSeverity_text_total (s : string) :
  exists t, normalizeSeverity (VStr s) = Ok t.
Proof. exists (Spec.classify s). apply normalizeSeverity_classify. Qed.

(** On a non-empty ASCII text the upper case is the one of [Str]. *)
Lemma normalizeSeverity_ascii (s : string) :
  Str.is_ascii s = true -> s <> "" ->
  normalizeSeverity (VStr s) = Ok (by_text (Str.upper s)).
Proof.
  intros Ha Hs.
  rewrite normalizeSeverity_truthy
    by (rewrite truthy_VStr, (eqb_empty_false Hs); reflexivity).
  simpl. rewrite (toUpperCase_ascii s Ha). reflexivity.
Qed.

(** A severity word is classified as itself, in upper case. *)
Lemma normalizeSeverity_word (w : string) :
  Spec.is_severity_word w -> normalizeSeverity (VStr w) = Ok (Str.upper w).
Proof.
  unfold Spec.is_severity_word. intros H.
  assert (Hw : w <> "").
  { intros ->. simpl in H. intuition discriminate. }
  assert (Ha : Str.is_ascii w = true).
  { apply upper_is_ascii.
    destruct H as [<- | [<- | [<- | [<- | []]]]]; reflexivity. }
  rewrite (normalizeSeverity_ascii Ha Hw).
  destruct H as [<- | [<- | [<- | [<- | []]]]]; reflexivity.
Qed.

End Classifier.

(** C2.  Whenever the upper-cased input contains both CRITICAL and HIGH the
    classifier answers CRITICAL, wherever the two occur; more generally its
    answer on a text is the level of the first candidate, in the order
    CRITICAL, CRIT, HIGH, MEDIUM, MED, LOW, INFO, that the upper-cased text
    contains. *)
Theorem normalizeSeverity_priority (host : Host) (s : string) :
  normalizeSeverity (VStr s) = Ok (Spec.classify s) /\
  (Str.includes (toUpperCase s) "CRITICAL" = true ->
   Str.includes (toUpperCase s) "HIGH" = true ->
   normalizeSeverity (VStr s) = Ok "CRITICAL").
Proof.
  split; [apply normalizeSeverity_classify|].
  intros Hc _.
  destruct (String.eqb s "") eqn:E.
  - apply String.eqb_eq in E. subst s.
    rewrite (toUpperCase_ascii "" eq_refl) in Hc. discriminate Hc.
  - rewrite normalizeSeverity_truthy by (rewrite truthy_VStr, E; reflexivity).
    simpl. unfold by_text. rewrite Hc. reflexivity.
Qed.

Lemma normalizeSeverity_priority_witness :
  Str.includes (toUpperCase (Host := Fixture.host) "high/critical") "CRITICAL" = true /\
  Str.includes (toUpperCase (Host := Fixture.host) "high/critical") "HIGH" = true /\
  normalizeSeverity (host := Fixture.host) (VStr "high/critical") = Ok "CRITICAL".
Proof.
  split; [reflexivity|]. split; [reflexivity|].
  apply (proj2 (normalizeSeverity_priority Fixture.host "high/critical")); reflexivity.
Defined.

(** C4, as the code has it.  A falsy input (absent, [null], empty text, zero,
    [false]) is classified UNKNOWN; a truthy input is classified UNKNOWN only
    when its upper-cased text is itself UNKNOWN; and a non-empty text that
    contains no candidate is returned in upper case, unchanged. *)
Theorem normalizeSeverity_unknown (host : Host) (v : value) :
  (JS.truthy v = false -> normalizeSeverity v = Ok "UNKNOWN") /\
  (normalizeSeverity v = Ok "UNKNOWN" <->
   JS.truthy v = false \/
   exists t, JS.toString v = Ok t /\ toUpperCase t = "UNKNOWN") /\
  (forall s, v = VStr s -> s <> "" ->
             Spec.first_candidate (toUpperCase s) = None ->
             normalizeSeverity v = Ok (toUpperCase s)).
Proof.
  split; [apply normalizeSeverity_falsy|]. split.
  - destruct (JS.truthy v) eqn:T.
    + rewrite (normalizeSeverity_truthy _ T). split.
      * intros H. bind_inv. right. exists a. split; [assumption|].
        apply by_text_unknown. assumption.
      * intros [H | (t & Et & Eu)]; [discriminate|].
        rewrite Et. simpl. f_equal. apply by_text_unknown. assumption.
    + split; [intros _; left; reflexivity|].
      intros _. apply normalizeSeverity_falsy. assumption.
  - intros s -> Hs Hnone.
    rewrite normalizeSeverity_classify. unfold Spec.classify.
    rewrite (eqb_empty_false Hs), Hnone. reflexivity.
Qed.

Lemma normalizeSeverity_unknown_witness :
  normalizeSeverity (host := Fixture.host) VUndef = Ok "UNKNOWN" /\
  normalizeSeverity (host := Fixture.host) (VStr "") = Ok "UNKNOWN" /\
  normalizeSeverity (host := Fixture.host) (VStr "unknown") = Ok "UNKNOWN" /\
  normalizeSeverity (host := Fixture.host) (VStr "BANANA") = Ok "BANANA".
Proof.
  split; [apply (proj1 (normalizeSeverity_unknown Fixture.host VUndef)); reflexivity|].
  split; [apply (proj1 (normalizeSeverity_unknown Fixture.host (VStr ""))); reflexivity|].
  split.
  - apply (proj1 (proj2 (normalizeSeverity_unknown Fixture.host (VStr "unknown")))).
    right. exists "unknown". split; reflexivity.
  - apply (proj2 (proj2 (normalizeSeverity_unknown Fixture.host (VStr "BANANA")))
             "BANANA");
      [reflexivity | discriminate | reflexivity].
Defined.

(** C4 as stated fails: the text ["unknown"] is neither absent nor empty and
    is classified UNKNOWN. *)
Lemma normalizeSeverity_unknown_not_only_absent :
  ~ (forall (host : Host) (v : value),
        normalizeSeverity v = Ok "UNKNOWN" <-> (v = VUndef \/ v = VStr "")).
Proof.
  intros H.
  destruct (proj1 (H Fixture.host (VStr "unknown")) eq_refl) as [E | E];
    discriminate E.
Qed.

(* ------------------------------------------------------------------ *)
(** ** SARIF levels *)

(** Where the severity of a SARIF record comes from. *)
Lemma sarif_result_severity {host : Host} (run result : value) (r : Vuln.t) :
  sarif_result run result = Ok r ->
  exists rule level s,
    JS.or_else (JS.get result "level") (get2 rule "defaultConfiguration" "level")
    = Ok level /\
    normalizeSeverity level = Ok s /\
    Vuln.severity r = VStr s.
Proof.
  intros H. unfold sarif_result in H. bind_inv. subst r. simpl.
  do 3 eexists. split; [eassumption|]. split; [eassumption | reflexivity].
Qed.

(** The run and the result of the sample SARIF document, and the record of
    that result. *)
Lemma xss_result_record :
  exists run result,
    Fixture.xss_doc = VObj [("runs", VArr [run])] /\
    JS.get run "results" = Ok (VArr [result]) /\
    JS.get result "level" = Ok (VStr "error") /\
    sarif_result (host := Fixture.host) run result
    = Ok (Vuln.make (VStr "CWE-79") (VStr "XSS") (VStr "ERROR") (VStr "unknown")
            (VStr "No description") (VStr "Sanitize input")).
Proof.
  eexists. eexists. repeat split; reflexivity.
Qed.

(** C3, as the code has it.  A SARIF result whose [level] is ["error"],
    ["warning"] or ["note"] gives a record whose severity is that level in
    upper case: ERROR, WARNING or NOTE. *)
Theorem sarif_level_upper_cased (host : Host) (run result : value)
        (level : string) (r : Vuln.t) :
  In level ["error"; "warning"; "note"] ->
  JS.get result "level" = Ok (VStr level) ->
  sarif_result run result = Ok r ->
  Vuln.severity r = VStr (Str.upper level) /\
  Vuln.severity r <> VStr "UNKNOWN".
Proof.
  intros Hin Hlevel H.
  destruct (sarif_result_severity _ _ H) as (rule & lv & s & Hlv & Hs & ->).
  rewrite Hlevel in Hlv. unfold JS.or_else in Hlv. simpl in Hlv.
  destruct Hin as [<- | [<- | [<- | []]]]; simpl in Hlv;
    injection Hlv as <-;
    rewrite normalizeSeverity_ascii in Hs by (reflexivity || discriminate);
    injection Hs as <-;
    (split; [reflexivity | discriminate]).
Qed.

Lemma sarif_level_upper_cased_witness :
  exists run result r,
    sarif_result (host := Fixture.host) run result = Ok r /\
    Vuln.severity r = VStr "ERROR" /\
    Vuln.severity r <> VStr "UNKNOWN".
Proof.
  destruct xss_result_record as (run & result & _ & _ & Hlevel & Hrec).
  exists run, result. eexists. split; [exact Hrec|].
  apply (@sarif_level_upper_cased Fixture.host run result "error" _);
    [simpl; auto | exact Hlevel | exact Hrec].
Defined.

(** C3 as stated fails: the sample document has one result of level
    ["error"], and the severity of its record is ERROR. *)
Lemma sarif_error_not_unknown :
  ~ (forall (host : Host) (run result : value) (r : Vuln.t),
        JS.get result "level" = Ok (VStr "error") ->
        sarif_result run result = Ok r ->
        Vuln.severity r = VStr "UNKNOWN").
Proof.
  intros H.
  destruct xss_result_record as (run & result & _ & _ & Hlevel & Hrec).
  specialize (H Fixture.host run result _ Hlevel Hrec). discriminate H.
Qed.

(* ------------------------------------------------------------------ *)
(** ** Fallback chains *)

Lemma truthy_present (v : value) : JS.truthy v = true -> present v.
Proof. destruct v; simpl; intros H; try discriminate H; reflexivity. Qed.

Lemma or_else_inv (a b : exn value) (v : value) :
  JS.or_else a b = Ok v ->
  (a = Ok v /\ JS.truthy v = true) \/
  (exists va, a = Ok va /\ JS.truthy va = false /\ b = Ok v).
Proof.
  unfold JS.or_else. intros H. bind_inv.
  destruct (JS.truthy a0) eqn:T.
  - injection H as <-. left. split; assumption.
  - right. exists a0. repeat split; assumption.
Qed.

Lemma yields_present_text (s : string) : yields_present (Ok (VStr s)).
Proof. intros v H. injection H as <-. reflexivity. Qed.

Lemma yields_present_or_else (a b : exn value) :
  yields_present b -> yields_present (JS.or_else a b).
Proof.
  intros Hb v H. destruct (or_else_inv _ _ H) as [[_ T] | (va & _ & _ & E)].
  - apply truthy_present. exact T.
  - apply Hb. exact E.
Qed.

(** Closes [present v] for a field built by a chain of [||] that ends in a
    literal, and for a literal field. *)
Ltac field_present :=
  match goal with
  | |- present (VStr _) => reflexivity
  | E : JS.or_else _ _ = Ok ?v |- present ?v =>
      refine (_ v E); clear E;
      repeat apply yields_present_or_else; apply yields_present_text
  end.

Ltac record_well_formed :=
  bind_inv;
  match goal with
  | H : Vuln.make _ _ _ _ _ _ = ?r |- well_formed ?r => subst r
  end;
  split; [repeat constructor; field_present | eexists; reflexivity].

Lemma all_text_well_formed (r : Vuln.t) : all_text r -> well_formed r.
Proof.
  unfold all_text, well_formed. intros H. split.
  - eapply Forall_impl; [|exact H]. intros v (s & ->). reflexivity.
  - unfold Vuln.fields in H.
    repeat match goal with
           | H : Forall _ (_ :: _) |- _ => inversion_clear H
           end.
    assumption.
Qed.

Lemma all_text_make (a b c d e g : string) :
  all_text (Vuln.make (VStr a) (VStr b) (VStr c) (VStr d) (VStr e) (VStr g)).
Proof. repeat constructor; eexists; reflexivity. Qed.

(* ------------------------------------------------------------------ *)
(** ** Every record has its six fields *)

Section Records.

Context {host : Host}.

Lemma sarif_result_well_formed (run result : value) (r : Vuln.t) :
  sarif_result run result = Ok r -> well_formed r.
Proof. intros H. unfold sarif_result in H. record_well_formed. Qed.

Lemma sca_generic_well_formed (vuln : value) (r : Vuln.t) :
  sca_generic vuln = Ok r -> well_formed r.
Proof. intros H. unfold sca_generic in H. record_well_formed. Qed.

Lemma sca_via_well_formed (pkg : string) (vuln v : value) (r : Vuln.t) :
  sca_via pkg vuln v = Ok r -> well_formed r.
Proof. intros H. unfold sca_via in H. record_well_formed. Qed.

Lemma dast_alert_well_formed (site alert : value) (r : Vuln.t) :
  dast_alert site alert = Ok r -> well_formed r.
Proof. intros H. unfold dast_alert in H. record_well_formed. Qed.

Lemma dast_generic_well_formed (vuln : value) (r : Vuln.t) :
  dast_generic vuln = Ok r -> well_formed r.
Proof. intros H. unfold dast_generic in H. record_well_formed. Qed.

Lemma parseSARIF_doc_well_formed (sarif : value) (out : list Vuln.t) :
  parseSARIF_doc sarif = Ok out -> Forall well_formed out.
Proof.
  unfold parseSARIF_doc. intros H. bind_inv.
  destruct (array_items a) as [runs|]; [|injection H as <-; constructor].
  revert H. apply forEach_invariant; [|constructor].
  intros run acc acc' _ Hacc Hrun. bind_inv.
  destruct (array_items a0) as [results|]; [|injection Hrun as <-; exact Hacc].
  revert Hrun. apply forEach_push_Forall; [|exact Hacc].
  intros result r _. apply sarif_result_well_formed.
Qed.

Lemma sca_package_well_formed (vulns : value) (pkg : string) (acc out : list Vuln.t) :
  Forall well_formed acc ->
  sca_package vulns pkg acc = Ok out -> Forall well_formed out.
Proof.
  unfold sca_package. intros Hacc H. bind_inv.
  destruct (array_items a0) as [via|]; [|injection H as <-; exact Hacc].
  revert H. apply forEach_invariant; [|exact Hacc].
  intros v st st' _ Hst Hv. unfold sca_via_entry in Hv.
  destruct (JS.typeof_object v); [|injection Hv as <-; exact Hst].
  bind_inv. subst st'. unfold push. apply Forall_app. split; [exact Hst|].
  constructor; [|constructor]. eapply sca_via_well_formed. eassumption.
Qed.

Lemma parseSCAJSON_doc_well_formed (data : value) (out : list Vuln.t) :
  parseSCAJSON_doc data = Ok out -> Forall well_formed out.
Proof.
  unfold parseSCAJSON_doc. intros H. bind_inv.
  destruct (array_items a) as [items|].
  - revert H. apply forEach_push_Forall; [|constructor].
    intros vuln r _. apply sca_generic_well_formed.
  - destruct (JS.truthy a); [|injection H as <-; constructor].
    bind_inv. revert H. apply forEach_invariant; [|constructor].
    intros pkg st st' _ Hst. apply sca_package_well_formed. exact Hst.
Qed.

Lemma parseDASTJSON_doc_well_formed (data : value) (out : list Vuln.t) :
  parseDASTJSON_doc data = Ok out -> Forall well_formed out.
Proof.
  unfold parseDASTJSON_doc. intros H. bind_inv.
  destruct (array_items a) as [sites|].
  - revert H. apply forEach_invariant; [|constructor].
    intros site acc acc' _ Hacc Hsite. bind_inv.
    destruct (array_items a0) as [alerts|]; [|injection Hsite as <-; exact Hacc].
    revert Hsite. apply forEach_push_Forall; [|exact Hacc].
    intros alert r _. apply dast_alert_well_formed.
  - bind_inv. destruct (array_items a0) as [items|]; [|injection H as <-; constructor].
    revert H. apply forEach_push_Forall; [|constructor].
    intros vuln r _. apply dast_generic_well_formed.
Qed.

(** The HTML parser never throws and builds records of six texts. *)
Lemma parseHTML_all_text (content : string) :
  exists out, parseHTML content = Ok out /\ Forall all_text out.
Proof.
  unfold parseHTML.
  set (cwes := Re.matchAll Re.cwe_at content).
  set (severities := Re.matchAll Re.severity_at content).
  set (step := fun (i : nat) (acc : list Vuln.t) =>
                 r <- html_record cwes severities i ;; Ok (push acc r)).
  destruct (forEach_total step
              (seq 0 (Nat.min (List.length cwes) (List.length severities))))
    with (st := @nil Vuln.t) as (out & Hout).
  - intros i st _. unfold step, html_record.
    destruct (normalizeSeverity_text_total (nth i severities "")) as (t & ->).
    simpl. eexists. reflexivity.
  - exists out. split; [exact Hout|].
    revert Hout. apply forEach_push_Forall; [|constructor].
    intros i r _ Hi. unfold html_record in Hi. bind_inv. subst r.
    apply all_text_make.
Qed.

(** One line of a text report never throws; what it adds is made of texts. *)
Lemma scatxt_line_all_text (line : string) (acc : list Vuln.t) :
  Forall all_text acc ->
  exists out, scatxt_line line acc = Ok out /\ Forall all_text out.
Proof.
  intros Hacc. unfold scatxt_line.
  destruct (Re.first_match Re.cve_at line) as [cve|]; [|exists acc; auto].
  destruct (Re.first_match Re.severity_at line) as [word|].
  - destruct (normalizeSeverity_text_total word) as (t & ->). simpl.
    eexists. split; [reflexivity|]. unfold push. apply Forall_app.
    split; [exact Hacc|]. constructor; [apply all_text_make | constructor].
  - simpl. eexists. split; [reflexivity|]. unfold push. apply Forall_app.
    split; [exact Hacc|]. constructor; [apply all_text_make | constructor].
Qed.

Lemma parseSCATXT_all_text (content : string) :
  exists out, parseSCATXT content = Ok out /\ Forall all_text out.
Proof.
  unfold parseSCATXT.
  generalize (Str.split "010" content). intros lines.
  assert (G : forall acc, Forall all_text acc ->
                          exists out, forEach scatxt_line lines acc = Ok out /\
                                      Forall all_text out).
  { induction lines as [|line lines IH]; intros acc Hacc; simpl.
    - exists acc. auto.
    - destruct (scatxt_line_all_text line Hacc) as (acc' & -> & Hacc').
      simpl. apply IH. exact Hacc'. }
  apply G. constructor.
Qed.

(** The records built from findings that carry no data at all: every field
    is the fallback literal of its parser. *)
Lemma records_of_empty_findings :
  sarif_result (VObj []) (VObj [])
  = Ok (Vuln.make (VStr "N/A") (VStr "Unknown vulnerability") (VStr "UNKNOWN")
          (VStr "unknown") (VStr "No description")
          (VStr "No recommendation available")) /\
  sca_generic (VObj [])
  = Ok (Vuln.make (VStr "N/A") (VStr "Unknown vulnerability") (VStr "UNKNOWN")
          (VStr "unknown") (VStr "No description")
          (VStr "Update to latest version")) /\
  sca_via "pkg" (VObj []) (VObj [])
  = Ok (Vuln.make (VStr "N/A") (VStr "Dependency vulnerability") (VStr "UNKNOWN")
          (VStr "pkg") (VStr "See package for details")
          (VStr "No fix available")) /\
  dast_alert (VObj []) (VObj [])
  = Ok (Vuln.make (VStr "N/A") (VStr "Unknown vulnerability") (VStr "UNKNOWN")
          (VStr "unknown") (VStr "No description")
          (VStr "No recommendation available")) /\
  dast_generic (VObj [])
  = Ok (Vuln.make (VStr "N/A") (VStr "Unknown vulnerability") (VStr "UNKNOWN")
          (VStr "unknown") (VStr "No description")
          (VStr "No recommendation available")).
Proof. repeat split; reflexivity. Qed.

End Records.


(** C1 as stated fails: a finding whose [id] is the number 123 gives a record
    whose [id] is that number, not a text. *)
Lemma record_field_not_text :
  ~ (forall (host : Host) (content : string) (r : Vuln.t),
        In r (parseSCAJSON content) -> all_text r).
Proof.
  intros H.
  specialize (H Fixture.host Fixture.numeric_id_src _ (or_introl eq_refl)).
  inversion_clear H as [|? ? (s & E) _]. discriminate E.
Qed.

(* ------------------------------------------------------------------ *)
(** ** Input that is not JSON *)

Lemma parse_None {host : Host} (content : string) :
  JSON_parse content = None -> parse content = Throw.
Proof. intros H. unfold parse. rewrite H. reflexivity. Qed.

Lemma parse_Some {host : Host} (content : string) (v : value) :
  JSON_parse content = Some v -> parse content = Ok v.
Proof. intros H. unfold parse. rewrite H. reflexivity. Qed.

(** C7.  On a text that is not JSON each of the three JSON parsers returns
    the empty list; an exception raised while the parsed document is walked
    ends the same way; and [parseSARIF] returns the empty list for a document
    without a [runs] array. *)
Theorem invalid_json_gives_no_record (host : Host) (content : string) :
  (JSON_parse content = None ->
   parseSARIF content = [] /\ parseSCAJSON content = [] /\ parseDASTJSON content = []) /\
  (forall doc, JSON_parse content = Some doc ->
               (parseSARIF_doc doc = Throw -> parseSARIF content = []) /\
               (parseSCAJSON_doc doc = Throw -> parseSCAJSON content = []) /\
               (parseDASTJSON_doc doc = Throw -> parseDASTJSON content = [])) /\
  (forall sarif, JSON_parse content = Some sarif ->
                 (forall runs, JS.get sarif "runs" <> Ok (VArr runs)) ->
                 parseSARIF content = []).
Proof.
  split; [|split].
  - intros H. unfold parseSARIF, parseSCAJSON, parseDASTJSON.
    rewrite (parse_None _ H). auto.
  - intros doc H. unfold parseSARIF, parseSCAJSON, parseDASTJSON.
    rewrite (parse_Some _ H). simpl.
    repeat split; intros ->; reflexivity.
  - intros sarif H Hruns. unfold parseSARIF.
    rewrite (parse_Some _ H). simpl. unfold parseSARIF_doc.
    destruct (JS.get sarif "runs") as [runs|]; simpl; [|reflexivity].
    unfold array_items.
    destruct runs as [| |b|n|s|items|props]; simpl;
      rewrite ?Bool.andb_false_r; try reflexivity.
    exfalso. eapply Hruns. reflexivity.
Qed.

Lemma invalid_json_gives_no_record_witness :
  (parseSARIF (host := Fixture.host) Fixture.not_json_src = [] /\
   parseSCAJSON (host := Fixture.host) Fixture.not_json_src = [] /\
   parseDASTJSON (host := Fixture.host) Fixture.not_json_src = []) /\
  parseSCAJSON (host := Fixture.host) Fixture.null_via_src = [] /\
  parseSARIF (host := Fixture.host) Fixture.no_runs_src = [].
Proof.
  split; [|split].
  - apply (proj1 (invalid_json_gives_no_record Fixture.host Fixture.not_json_src)).
    reflexivity.
  - apply (proj1 (proj2 (proj1 (proj2 (invalid_json_gives_no_record
                                        Fixture.host Fixture.null_via_src))
                                 Fixture.null_via_doc eq_refl)));
      reflexivity.
  - apply (proj2 (proj2 (invalid_json_gives_no_record Fixture.host Fixture.no_runs_src))
             Fixture.no_runs_doc); [reflexivity | intros runs; discriminate].
Defined.

(* ------------------------------------------------------------------ *)
(** ** The keyed shape of dependency audits *)

Lemma char_at_cases (s : string) (n : nat) :
  JS.char_at s n = VUndef \/ exists c, JS.char_at s n = VStr c.
Proof.
  revert n. induction s as [|c s IH]; intros n; simpl; [left; reflexivity|].
  destruct n; [right; eexists; reflexivity | apply IH].
Qed.

(** Only an object has a property that holds an array. *)
Lemma get_key_via_array (vulns : value) (pkg : string) (vuln : value) (via : list value) :
  JS.isArray vulns = false ->
  JS.get_key vulns pkg = Ok vuln ->
  JS.get vuln "via" = Ok (VArr via) ->
  exists props, vulns = VObj props /\ JS.lookup pkg props = Some vuln.
Proof.
  intros Harr Hkey Hvia.
  destruct vulns as [| |b|n|s|items|props]; simpl in *; try discriminate.
  - injection Hkey as <-. discriminate.
  - injection Hkey as <-. discriminate.
  - injection Hkey as <-.
    destruct (find _ _) as [i|]; simpl in Hvia; [|discriminate].
    destruct (char_at_cases s i) as [E | (c & E)]; rewrite E in Hvia; discriminate.
  - exists props. split; [reflexivity|].
    destruct (JS.lookup pkg props) as [w|]; simpl in Hkey.
    + injection Hkey as ->. reflexivity.
    + injection Hkey as <-. discriminate.
Qed.

Lemma lookup_In_keys (k : string) (props : list (string * value)) (v : value) :
  JS.lookup k props = Some v -> In k (map fst props).
Proof.
  induction props as [|[k' w] props IH]; simpl; [discriminate|].
  destruct (String.eqb k k') eqn:E.
  - intros _. left. symmetry. apply String.eqb_eq. exact E.
  - intros H. right. apply IH. exact H.
Qed.

Lemma keyed_entries_falsy (vulns : value) :
  JS.truthy vulns = false -> keyed_entries vulns = [].
Proof.
  unfold keyed_entries.
  destruct vulns as [| |b|n|s|items|props]; simpl; intros H;
    try reflexivity; try discriminate H.
  destruct s; [reflexivity | discriminate H].
Qed.

Section Keyed.

Context {host : Host}.

(** A [null] entry passes the [typeof] test and its first field access
    throws. *)
Lemma sca_via_entry_null (pkg : string) (vuln : value) (acc : list Vuln.t) :
  sca_via_entry pkg vuln VNull acc = Throw.
Proof. reflexivity. Qed.

Lemma sca_package_null (vulns : value) (pkg : string) (vuln : value)
      (via : list value) (acc : list Vuln.t) :
  JS.get_key vulns pkg = Ok vuln ->
  JS.get vuln "via" = Ok (VArr via) ->
  In VNull via ->
  sca_package vulns pkg acc = Throw.
Proof.
  intros Hkey Hvia Hnull. unfold sca_package. rewrite Hkey. simpl.
  rewrite Hvia. simpl.
  apply forEach_throws with (x := VNull); [exact Hnull|].
  apply sca_via_entry_null.
Qed.

(** What one entry of [via] adds. *)
Lemma sca_via_entry_adds (pkg : string) (vuln v : value) (acc acc' : list Vuln.t) :
  sca_via_entry pkg vuln v acc = Ok acc' ->
  exists lx, acc' = acc ++ lx /\
             Forall2 keyed_record (if is_structured v then [(pkg, vuln, v)] else []) lx.
Proof.
  unfold sca_via_entry. intros H.
  destruct v as [| |b|n|s|items|props]; simpl in H;
    try (injection H as <-; exists []; split;
         [symmetry; apply app_nil_r | constructor]);
    try discriminate H.
  - bind_inv. subst acc'. exists [a]. split; [reflexivity|].
    simpl. constructor; [|constructor].
    split; [exact E|]. unfold sca_via in E. bind_inv. subst a. simpl.
    split; [reflexivity|]. eexists. split; [eassumption | reflexivity].
  - bind_inv. subst acc'. exists [a]. split; [reflexivity|].
    simpl. constructor; [|constructor].
    split; [exact E|]. unfold sca_via in E. bind_inv. subst a. simpl.
    split; [reflexivity|]. eexists. split; [eassumption | reflexivity].
Qed.

(** What one package adds. *)
Lemma sca_package_adds (vulns : value) (pkg : string) (acc acc' : list Vuln.t) :
  sca_package vulns pkg acc = Ok acc' ->
  exists lx, acc' = acc ++ lx /\
             Forall2 keyed_record (package_entries vulns pkg) lx.
Proof.
  unfold sca_package, package_entries. intros H. bind_inv.
  rewrite E, E0.
  destruct (array_items a0) as [via|] eqn:Hvia.
  - apply array_items_Some in Hvia. subst a0.
    revert H. apply forEach_entries.
    intros v st st' _. apply sca_via_entry_adds.
  - injection H as <-. exists []. split; [symmetry; apply app_nil_r|].
    destruct a0; try constructor. discriminate Hvia.
Qed.

(** The records of a keyed document that is walked without an exception. *)
Lemma parseSCAJSON_doc_keyed (data vulns : value) (out : list Vuln.t) :
  JS.get data "vulnerabilities" = Ok vulns ->
  JS.isArray vulns = false ->
  parseSCAJSON_doc data = Ok out ->
  Forall2 keyed_record (keyed_entries vulns) out.
Proof.
  intros Hvulns Harr H.
  unfold parseSCAJSON_doc in H. rewrite Hvulns in H. simpl in H.
  rewrite (array_items_not_array _ Harr) in H.
  destruct (JS.truthy vulns) eqn:T.
  - bind_inv. unfold keyed_entries. rewrite E.
    destruct (@forEach_entries _ _ (sca_package vulns) (package_entries vulns)
                keyed_record a
                (fun pkg st st' _ => @sca_package_adds vulns pkg st st') [] out H)
      as (lo & -> & Hlo).
    exact Hlo.
  - injection H as <-. rewrite (keyed_entries_falsy _ T). constructor.
Qed.

(** The lodash document, whatever the host. *)
Lemma parseSCAJSON_doc_lodash :
  parseSCAJSON_doc Fixture.lodash_doc
  = Ok [Vuln.make (VStr "CVE-2021-1234") (VStr "Dependency vulnerability")
          (VStr "HIGH") (VStr "lodash") (VStr "See package for details")
          (VStr "Update available")].
Proof.
  unfold parseSCAJSON_doc, Fixture.lodash_doc. simpl.
  unfold sca_package. simpl. unfold sca_via_entry. simpl.
  unfold sca_via. simpl.
  rewrite (normalizeSeverity_ascii (s := "high")) by (reflexivity || discriminate).
  reflexivity.
Qed.

End Keyed.

(** C9.  In the keyed shape, when the [via] array of some package holds a
    [null], the [typeof] test lets it through, the field access throws, and
    [parseSCAJSON] returns the empty list for the whole file, whatever the
    other packages hold. *)
Theorem null_via_discards_file (host : Host) (content : string)
        (data vulns : value) (pkg : string) (vuln : value) (via : list value) :
  JSON_parse content = Some data ->
  JS.get data "vulnerabilities" = Ok vulns ->
  JS.isArray vulns = false ->
  JS.get_key vulns pkg = Ok vuln ->
  JS.get vuln "via" = Ok (VArr via) ->
  In VNull via ->
  JS.typeof_object VNull = true /\
  parseSCAJSON_doc data = Throw /\
  parseSCAJSON content = [].
Proof.
  intros Hparse Hvulns Harr Hkey Hvia Hnull.
  split; [reflexivity|].
  assert (Hdoc : parseSCAJSON_doc data = Throw).
  { destruct (get_key_via_array _ _ Harr Hkey Hvia) as (props & -> & Hlook).
    unfold parseSCAJSON_doc. rewrite Hvulns. simpl.
    apply forEach_throws with (x := pkg).
    - eapply lookup_In_keys. eassumption.
    - intros acc. eapply sca_package_null; eassumption. }
  split; [exact Hdoc|].
  unfold parseSCAJSON. rewrite (parse_Some _ Hparse). simpl.
  rewrite Hdoc. reflexivity.
Qed.

Lemma null_via_discards_file_witness :
  JS.typeof_object VNull = true /\
  parseSCAJSON_doc (host := Fixture.host) Fixture.null_via_doc = Throw /\
  parseSCAJSON (host := Fixture.host) Fixture.null_via_src = [].
Proof.
  apply (@null_via_discards_file Fixture.host Fixture.null_via_src
           Fixture.null_via_doc
           (VObj [("a", VObj [("via", VArr [VObj [("cve", VStr "CVE-2020-1")]])]);
                  ("b", VObj [("via", VArr [VNull])])])
           "b" (VObj [("via", VArr [VNull])]) [VNull]);
    try reflexivity.
  simpl. auto.
Defined.

(** Without the [null] the first package of that file gives a record. *)
Example null_via_first_package_alone :
  parseSCAJSON_doc (host := Fixture.host)
    (VObj [("vulnerabilities",
            VObj [("a", VObj [("via", VArr [VObj [("cve", VStr "CVE-2020-1")]])])])])
  = Ok [Vuln.make (VStr "CVE-2020-1") (VStr "Dependency vulnerability")
          (VStr "UNKNOWN") (VStr "a") (VStr "See package for details")
          (VStr "No fix available")].
Proof. reflexivity. Qed.


(** Bare texts, numbers and booleans in [via] give no record. *)
Example keyed_shape_skips_bare_text :
  parseSCAJSON_doc (host := Fixture.host)
    (VObj [("vulnerabilities",
            VObj [("express",
                   VObj [("via", VArr [VStr "qs"; VNum "7";
                                       VObj [("title", VStr "Open redirect")];
                                       VStr "body-parser"]);
                         ("fixAvailable", VBool false)])])])
  = Ok [Vuln.make (VStr "N/A") (VStr "Open redirect") (VStr "UNKNOWN")
          (VStr "express") (VStr "See package for details")
          (VStr "No fix available")].
Proof. reflexivity. Qed.

(* ------------------------------------------------------------------ *)
(** ** The HTML parser *)

Lemma parseHTML_combine {host : Host} (content : string) :
  parseHTML content
  = Ok (map (fun p => html_entry (fst p) (snd p))
            (combine (Re.matchAll Re.cwe_at content)
                     (Re.matchAll Re.severity_at content))).
Proof.
  unfold parseHTML.
  set (cwes := Re.matchAll Re.cwe_at content).
  set (severities := Re.matchAll Re.severity_at content).
  rewrite (forEach_push_map (html_record cwes severities)
             (fun i => html_entry (nth i cwes "") (nth i severities ""))).
  - simpl. f_equal. apply (map_nth_combine html_entry).
  - intros i Hi. apply in_seq in Hi. unfold html_record.
    rewrite normalizeSeverity_word; [reflexivity|].
    pose proof (severity_matches_are_words content) as Hall.
    rewrite Forall_forall in Hall. apply Hall. apply nth_In.
    fold severities. lia.
Qed.

(** C10.  [parseHTML] pairs the i-th CWE match with the i-th severity match,
    in the order of the document, and stops with the shorter of the two
    lists: it gives min(CWE matches, severity matches) records, and none when
    either list is empty. *)
Theorem parseHTML_pairs (host : Host) (content : string) :
  exists out,
    parseHTML content = Ok out /\
    out = map (fun p => html_entry (fst p) (snd p))
              (combine (Re.matchAll Re.cwe_at content)
                       (Re.matchAll Re.severity_at content)) /\
    List.length out
    = Nat.min (List.length (Re.matchAll Re.cwe_at content))
              (List.length (Re.matchAll Re.severity_at content)) /\
    (Re.matchAll Re.cwe_at content = [] \/ Re.matchAll Re.severity_at content = [] ->
     out = []).
Proof.
  eexists. split; [apply parseHTML_combine|]. split; [reflexivity|]. split.
  - rewrite length_map, length_combine. reflexivity.
  - intros [-> | ->]; [reflexivity|].
    destruct (Re.matchAll Re.cwe_at content); reflexivity.
Qed.

Lemma parseHTML_pairs_witness :
  parseHTML (host := Fixture.host) "<li>CWE-79 CWE-89 CWE-22</li>" = Ok [] /\
  parseHTML (host := Fixture.host) "<b>critical</b> and low" = Ok [] /\
  parseHTML (host := Fixture.host) "<td>CWE-79</td><td>High</td> CWE-89 CWE-22 low"
  = Ok [html_entry "79" "High"; html_entry "89" "low"].
Proof.
  split; [|split].
  - destruct (parseHTML_pairs Fixture.host "<li>CWE-79 CWE-89 CWE-22</li>")
      as (out & H & _ & _ & Hnone).
    rewrite H. f_equal. apply Hnone. right. reflexivity.
  - destruct (parseHTML_pairs Fixture.host "<b>critical</b> and low")
      as (out & H & _ & _ & Hnone).
    rewrite H. f_equal. apply Hnone. left. reflexivity.
  - destruct (parseHTML_pairs Fixture.host
                "<td>CWE-79</td><td>High</td> CWE-89 CWE-22 low")
      as (out & H & Hout & _).
    rewrite H. f_equal. rewrite Hout. reflexivity.
Defined.

(* ------------------------------------------------------------------ *)
(** ** The free-text parser *)

Section FreeText.

Context {host : Host}.

(** What a line adds: nothing without a CVE match, else one record, whose
    severity is the first severity word in upper case, or UNKNOWN. *)
Lemma scatxt_line_cases (line : string) (acc : list Vuln.t) :
  scatxt_line line acc
  = Ok (acc ++ match Re.first_match Re.cve_at line with
               | Some cve =>
                   [txt_entry cve
                      match Re.first_match Re.severity_at line with
                      | Some w => Str.upper w
                      | None => "UNKNOWN"
                      end line]
               | None => []
               end).
Proof.
  unfold scatxt_line.
  destruct (Re.first_match Re.cve_at line) as [cve|]; [|rewrite app_nil_r; reflexivity].
  destruct (Re.first_match Re.severity_at line) as [w|] eqn:E; [|reflexivity].
  rewrite normalizeSeverity_word; [reflexivity|].
  apply (proj1 (first_match_severity line)). exact E.
Qed.

Lemma scatxt_line_acc (line : string) (acc : list Vuln.t) :
  scatxt_line line acc = Ok (acc ++ line_records line).
Proof.
  unfold line_records. rewrite (scatxt_line_cases line []).
  rewrite scatxt_line_cases. reflexivity.
Qed.

Lemma parseSCATXT_flat_map (content : string) :
  parseSCATXT content = Ok (flat_map line_records (Str.split "010" content)).
Proof.
  unfold parseSCATXT. generalize (Str.split "010" content). intros lines.
  change (flat_map line_records lines) with ([] ++ flat_map line_records lines).
  generalize (@nil Vuln.t). induction lines as [|line lines IH]; intros acc; simpl.
  - rewrite app_nil_r. reflexivity.
  - rewrite scatxt_line_acc. simpl. rewrite IH, <- app_assoc. reflexivity.
Qed.

End FreeText.


Example parseSCATXT_sample :
  parseSCATXT (host := Fixture.host)
    "Found CVE-2022-9999 severity HIGH in module X"
  = Ok [Vuln.make (VStr "CVE-2022-9999") (VStr "Vulnerability CVE-2022-9999")
          (VStr "HIGH") (VStr "See TXT report")
          (VStr "Found CVE-2022-9999 severity HIGH in module X")
          (VStr "Update affected package")].
Proof. reflexivity. Qed.

(* ------------------------------------------------------------------ *)
(** ** The per-category functions *)

Section Reports.

Context {host : Host}.

(** A loop over files whose turns read only the name and the content of a
    file gives the same on two lists of files with the same names and
    contents. *)
Lemma forEach_files (step : FileEntry.t -> list Vuln.t -> exn (list Vuln.t)) :
  (forall f g acc, FileEntry.name f = FileEntry.name g ->
                   FileEntry.content f = FileEntry.content g ->
                   step f acc = step g acc) ->
  forall files1 files2,
    map (fun f => (FileEntry.name f, FileEntry.content f)) files1
    = map (fun f => (FileEntry.name f, FileEntry.content f)) files2 ->
    forall acc, forEach step files1 acc = forEach step files2 acc.
Proof.
  intros Hstep files1. induction files1 as [|f files1 IH]; intros [|g files2] H acc;
    simpl in H; try discriminate H; [reflexivity|].
  injection H as Hname Hcontent Hrest. simpl.
  rewrite (Hstep f g acc Hname Hcontent).
  destruct (step g acc) as [acc'|]; simpl; [apply IH; exact Hrest | reflexivity].
Qed.

Lemma sast_file_reads (f g : FileEntry.t) (acc : list Vuln.t) :
  FileEntry.name f = FileEntry.name g ->
  FileEntry.content f = FileEntry.content g ->
  sast_file f acc = sast_file g acc.
Proof. intros Hn Hc. unfold sast_file. rewrite Hn, Hc. reflexivity. Qed.

Lemma sca_file_reads (f g : FileEntry.t) (acc : list Vuln.t) :
  FileEntry.name f = FileEntry.name g ->
  FileEntry.content f = FileEntry.content g ->
  sca_file f acc = sca_file g acc.
Proof. intros Hn Hc. unfold sca_file. rewrite Hn, Hc. reflexivity. Qed.

Lemma dast_file_reads (f g : FileEntry.t) (acc : list Vuln.t) :
  FileEntry.name f = FileEntry.name g ->
  FileEntry.content f = FileEntry.content g ->
  dast_file f acc = dast_file g acc.
Proof. intros Hn Hc. unfold dast_file. rewrite Hn, Hc. reflexivity. Qed.

(** The shape the three per-category functions share. *)
Lemma report_same_listing
      (step : FileEntry.t -> list Vuln.t -> exn (list Vuln.t))
      (label dir : string) (fs1 fs2 : Fs.t) :
  (forall f g acc, FileEntry.name f = FileEntry.name g ->
                   FileEntry.content f = FileEntry.content g ->
                   step f acc = step g acc) ->
  listing fs1 dir = listing fs2 dir ->
  (files <- readFilesFromDirectory fs1 dir ;;
   all <- forEach step files [] ;; Ok (mkToolResult label all))
  = (files <- readFilesFromDirectory fs2 dir ;;
     all <- forEach step files [] ;; Ok (mkToolResult label all)).
Proof.
  intros Hstep. unfold listing. intros H.
  destruct (readFilesFromDirectory fs1 dir) as [files1|];
    destruct (readFilesFromDirectory fs2 dir) as [files2|];
    simpl in *; try discriminate H; [|reflexivity].
  injection H as H. rewrite (forEach_files step Hstep _ _ H). reflexivity.
Qed.

Lemma readFiles_missing_or_empty (fs : Fs.t) (dir : string) :
  missing_or_empty fs dir -> readFilesFromDirectory fs dir = Ok [].
Proof.
  unfold readFilesFromDirectory, Fs.existsSync, Fs.readdirSync.
  intros [H | H]; rewrite H; reflexivity.
Qed.

End Reports.

(** C8.  Two runs that find the same names and contents, in the same order,
    in the directory of a category give the same result for that category,
    hence the same serialization whatever the serializer; and a directory
    that is missing or empty gives a result with no vulnerability, not an
    error. *)
Theorem reports_deterministic (host : Host) (fs1 fs2 : Fs.t)
        (stringify : value -> string) :
  (listing fs1 SAST_DIR = listing fs2 SAST_DIR ->
   parseSASTReports fs1 = parseSASTReports fs2 /\
   forall r1 r2, parseSASTReports fs1 = Ok r1 -> parseSASTReports fs2 = Ok r2 ->
                 stringify (ToolResult_to_value r1) = stringify (ToolResult_to_value r2)) /\
  (listing fs1 SCA_DIR = listing fs2 SCA_DIR ->
   parseSCAReports fs1 = parseSCAReports fs2 /\
   forall r1 r2, parseSCAReports fs1 = Ok r1 -> parseSCAReports fs2 = Ok r2 ->
                 stringify (ToolResult_to_value r1) = stringify (ToolResult_to_value r2)) /\
  (listing fs1 DAST_DIR = listing fs2 DAST_DIR ->
   parseDASTReports fs1 = parseDASTReports fs2 /\
   forall r1 r2, parseDASTReports fs1 = Ok r1 -> parseDASTReports fs2 = Ok r2 ->
                 stringify (ToolResult_to_value r1) = stringify (ToolResult_to_value r2)) /\
  (missing_or_empty fs1 SAST_DIR -> parseSASTReports fs1 = Ok (mkToolResult "SAST" [])) /\
  (missing_or_empty fs1 SCA_DIR -> parseSCAReports fs1 = Ok (mkToolResult "SCA" [])) /\
  (missing_or_empty fs1 DAST_DIR -> parseDASTReports fs1 = Ok (mkToolResult "DAST" [])).
Proof.
  assert (Hser : forall (a b : exn ToolResult), a = b ->
                   forall r1 r2, a = Ok r1 -> b = Ok r2 ->
                     stringify (ToolResult_to_value r1) = stringify (ToolResult_to_value r2)).
  { intros a b -> r1 r2 H1 H2. rewrite H1 in H2. injection H2 as ->. reflexivity. }
  split; [|split; [|split; [|split; [|split]]]].
  - intros H.
    pose proof (report_same_listing sast_file "SAST" SAST_DIR fs1 fs2
                  sast_file_reads H) as E.
    split; [exact E | apply Hser; exact E].
  - intros H.
    pose proof (report_same_listing sca_file "SCA" SCA_DIR fs1 fs2
                  sca_file_reads H) as E.
    split; [exact E | apply Hser; exact E].
  - intros H.
    pose proof (report_same_listing dast_file "DAST" DAST_DIR fs1 fs2
                  dast_file_reads H) as E.
    split; [exact E | apply Hser; exact E].
  - intros H. unfold parseSASTReports.
    rewrite (readFiles_missing_or_empty H). reflexivity.
  - intros H. unfold parseSCAReports.
    rewrite (readFiles_missing_or_empty H). reflexivity.
  - intros H. unfold parseDASTReports.
    rewrite (readFiles_missing_or_empty H). reflexivity.
Qed.

Lemma reports_deterministic_witness :
  parseSASTReports (host := Fixture.host) Fixture.files
  = parseSASTReports (host := Fixture.host) Fixture.files_later /\
  parseSCAReports (host := Fixture.host) Fixture.files
  = parseSCAReports (host := Fixture.host) Fixture.files_later /\
  parseDASTReports (host := Fixture.host) Fixture.files = Ok (mkToolResult "DAST" []) /\
  parseDASTReports (host := Fixture.host) Fixture.files_later = Ok (mkToolResult "DAST" []).
Proof.
  destruct (reports_deterministic Fixture.host Fixture.files Fixture.files_later
              (fun v => match JS.toString v with Ok s => s | Throw => "" end))
    as (Hsast & Hsca & _ & _ & _ & Hmissing).
  destruct (reports_deterministic Fixture.host Fixture.files_later Fixture.files
              (fun v => match JS.toString v with Ok s => s | Throw => "" end))
    as (_ & _ & _ & _ & _ & Hempty).
  split; [apply Hsast; reflexivity|].
  split; [apply Hsca; reflexivity|].
  split; [apply Hmissing; left; reflexivity | apply Hempty; right; reflexivity].
Defined.

(* ------------------------------------------------------------------ *)
(** ** Further properties: reading a directory *)

Section Directories.

Context {host : Host}.

(** The loop of [readFilesFromDirectory] over entries that are all
    readable. *)
Lemma read_entries_ok (fs : Fs.t) (dir : string) (entries : list string)
      (acc : list FileEntry.t) :
  Forall (readable fs dir) entries ->
  exists files,
    forEach (fun file acc =>
               content <- Fs.readFileSync fs (path_join dir file) ;;
               Ok (acc ++ [FileEntry.make file (path_join dir file) content]))
            entries acc
    = Ok (acc ++ files) /\
    map FileEntry.name files = entries /\
    Forall (entry_of fs dir) files.
Proof.
  intros H. revert acc. induction H as [|e entries (content & He) _ IH]; intros acc.
  - exists []. simpl. rewrite app_nil_r. auto.
  - simpl. unfold Fs.readFileSync at 1. rewrite He. simpl.
    destruct (IH (acc ++ [FileEntry.make e (path_join dir e) content]))
      as (files & Hrun & Hnames & Hall).
    exists (FileEntry.make e (path_join dir e) content :: files).
    rewrite Hrun, <- app_assoc. simpl. repeat split.
    + rewrite Hnames. reflexivity.
    + constructor; [|exact Hall]. split; [reflexivity | exact He].
Qed.

(** The same loop when some entry cannot be read. *)
Lemma read_entries_throw (fs : Fs.t) (dir : string) (entries : list string)
      (e : string) :
  In e entries -> ~ readable fs dir e ->
  forall acc,
    forEach (fun file acc =>
               content <- Fs.readFileSync fs (path_join dir file) ;;
               Ok (acc ++ [FileEntry.make file (path_join dir file) content]))
            entries acc
    = Throw.
Proof.
  intros Hin Hbad. apply forEach_throws with (x := e); [exact Hin|].
  intros acc. unfold Fs.readFileSync, readable in *.
  destruct (fs (path_join dir e)) as [[content|sub]|]; try reflexivity.
  exfalso. apply Hbad. exists content. reflexivity.
Qed.

End Directories.

(** X1.  When every entry of a directory is a readable file,
    [readFilesFromDirectory] gives one file object per entry, in the order of
    the listing, with the entry as name, the joined path as path and the
    content of the file. *)
Theorem readFiles_lists_entries (host : Host) (fs : Fs.t) (dir : string)
        (entries : list string) :
  fs dir = Some (Fs.Dir entries) ->
  Forall (readable fs dir) entries ->
  exists files,
    readFilesFromDirectory fs dir = Ok files /\
    map FileEntry.name files = entries /\
    Forall (entry_of fs dir) files.
Proof.
  intros Hdir Hall. unfold readFilesFromDirectory, Fs.existsSync, Fs.readdirSync.
  rewrite Hdir. simpl.
  destruct (read_entries_ok [] Hall) as (files & Hrun & Hnames & Hentries).
  exists files. auto.
Qed.

Lemma readFiles_lists_entries_witness :
  exists files,
    readFilesFromDirectory (host := Fixture.host) Fixture.files "./reports/sast"
    = Ok files /\
    map FileEntry.name files = ["scan.sarif"; "README.md"] /\
    Forall (entry_of (host := Fixture.host) Fixture.files "./reports/sast") files.
Proof.
  apply (@readFiles_lists_entries Fixture.host Fixture.files "./reports/sast"
           ["scan.sarif"; "README.md"]); [reflexivity|].
  repeat constructor; eexists; reflexivity.
Defined.

(** X2.  An entry that is not a readable file (a sub-directory, say) makes
    [readFilesFromDirectory] throw, and so does a path that is a file and not
    a directory; nothing catches it: the function of the category throws
    too, whatever the other files hold. *)
Theorem unreadable_entry_aborts_category (host : Host) (fs : Fs.t) :
  (forall dir entries e,
      fs dir = Some (Fs.Dir entries) -> In e entries -> ~ readable fs dir e ->
      readFilesFromDirectory fs dir = Throw) /\
  (forall dir content, fs dir = Some (Fs.File content) ->
                       readFilesFromDirectory fs dir = Throw) /\
  (readFilesFromDirectory fs SAST_DIR = Throw -> parseSASTReports fs = Throw) /\
  (readFilesFromDirectory fs SCA_DIR = Throw -> parseSCAReports fs = Throw) /\
  (readFilesFromDirectory fs DAST_DIR = Throw -> parseDASTReports fs = Throw).
Proof.
  split; [|split; [|split; [|split]]].
  - intros dir entries e Hdir Hin Hbad.
    unfold readFilesFromDirectory, Fs.existsSync, Fs.readdirSync.
    rewrite Hdir. simpl. apply (read_entries_throw _ Hin Hbad).
  - intros dir content Hdir.
    unfold readFilesFromDirectory, Fs.existsSync, Fs.readdirSync.
    rewrite Hdir. reflexivity.
  - intros H. unfold parseSASTReports. rewrite H. reflexivity.
  - intros H. unfold parseSCAReports. rewrite H. reflexivity.
  - intros H. unfold parseDASTReports. rewrite H. reflexivity.
Qed.

Lemma unreadable_entry_aborts_category_witness :
  readFilesFromDirectory (host := Fixture.host) Sample.files_with_subdir "./reports/sast"
  = Throw /\
  parseSASTReports (host := Fixture.host) Sample.files_with_subdir = Throw.
Proof.
  destruct (unreadable_entry_aborts_category Fixture.host Sample.files_with_subdir)
    as (Hentry & _ & Hsast & _).
  assert (H : readFilesFromDirectory (host := Fixture.host)
                Sample.files_with_subdir "./reports/sast" = Throw).
  { apply (Hentry "./reports/sast" ["scan.sarif"; "old"] "old");
      [reflexivity | simpl; auto |].
    intros (content & E). discriminate E. }
  split; [exact H | apply Hsast; exact H].
Defined.

(* ------------------------------------------------------------------ *)
(** ** Further properties: the categories, file by file *)

(** A loop whose turns each append something that depends on the item only
    appends, in all, the concatenation of what the items give. *)
Lemma forEach_appends {A B : Type} (f : A -> list B -> exn (list B))
      (g : A -> list B) (l : list A) :
  (forall x acc, f x acc = Ok (acc ++ g x)) ->
  forall acc, forEach f l acc = Ok (acc ++ flat_map g l).
Proof.
  intros Hf. induction l as [|x l IH]; intros acc; simpl.
  - rewrite app_nil_r. reflexivity.
  - rewrite Hf. simpl. rewrite IH, <- app_assoc. reflexivity.
Qed.

Section Categories.

Context {host : Host}.

Lemma sast_file_appends (file : FileEntry.t) (acc : list Vuln.t) :
  sast_file file acc = Ok (acc ++ sast_records file).
Proof.
  unfold sast_file, sast_records, concat_found.
  destruct (Str.endsWith (FileEntry.name file) ".sarif"
            || Str.endsWith (FileEntry.name file) ".json"); [reflexivity|].
  destruct (Str.endsWith (FileEntry.name file) ".html").
  - destruct (parseHTML_all_text (FileEntry.content file)) as (out & -> & _).
    reflexivity.
  - rewrite app_nil_r. reflexivity.
Qed.

Lemma sca_file_appends (file : FileEntry.t) (acc : list Vuln.t) :
  sca_file file acc = Ok (acc ++ sca_records file).
Proof.
  unfold sca_file, sca_records, concat_found.
  destruct (Str.endsWith (FileEntry.name file) ".json"); [reflexivity|].
  destruct (Str.endsWith (FileEntry.name file) ".txt").
  - destruct (parseSCATXT_all_text (FileEntry.content file)) as (out & -> & _).
    reflexivity.
  - rewrite app_nil_r. reflexivity.
Qed.

Lemma dast_file_appends (file : FileEntry.t) (acc : list Vuln.t) :
  dast_file file acc = Ok (acc ++ dast_records file).
Proof.
  unfold dast_file, dast_records, concat_found.
  destruct (Str.endsWith (FileEntry.name file) ".json"); [reflexivity|].
  rewrite app_nil_r. reflexivity.
Qed.

End Categories.

(** X3.  Once the directory has been read, the function of a category never
    throws: its vulnerabilities are what each file gives, by the end of its
    name, one file after the other in the order of the listing.  A file that
    is not JSON, or whose name ends in nothing that is handled, adds nothing
    and leaves the records of the other files in place. *)
Theorem reports_concatenate_files (host : Host) (fs : Fs.t) :
  (forall files, readFilesFromDirectory fs SAST_DIR = Ok files ->
                 parseSASTReports fs
                 = Ok (mkToolResult "SAST" (flat_map sast_records files))) /\
  (forall files, readFilesFromDirectory fs SCA_DIR = Ok files ->
                 parseSCAReports fs
                 = Ok (mkToolResult "SCA" (flat_map sca_records files))) /\
  (forall files, readFilesFromDirectory fs DAST_DIR = Ok files ->
                 parseDASTReports fs
                 = Ok (mkToolResult "DAST" (flat_map dast_records files))) /\
  (forall file, JSON_parse (FileEntry.content file) = None ->
                Str.endsWith (FileEntry.name file) ".json" = true ->
                sast_records file = [] /\ sca_records file = [] /\
                dast_records file = []).
Proof.
  split; [|split; [|split]].
  - intros files H. unfold parseSASTReports. rewrite H. simpl.
    rewrite (forEach_appends sast_file sast_records files sast_file_appends).
    reflexivity.
  - intros files H. unfold parseSCAReports. rewrite H. simpl.
    rewrite (forEach_appends sca_file sca_records files sca_file_appends).
    reflexivity.
  - intros files H. unfold parseDASTReports. rewrite H. simpl.
    rewrite (forEach_appends dast_file dast_records files dast_file_appends).
    reflexivity.
  - intros file Hparse Hname.
    unfold sast_records, sca_records, dast_records.
    rewrite Hname, Bool.orb_true_r.
    unfold parseSARIF, parseSCAJSON, parseDASTJSON.
    rewrite (parse_None _ Hparse). auto.
Qed.

Lemma reports_concatenate_files_witness :
  parseSASTReports (host := Fixture.host) Fixture.files
  = Ok (mkToolResult "SAST"
          (flat_map (sast_records (host := Fixture.host))
             [FileEntry.make "scan.sarif" "./reports/sast/scan.sarif" Fixture.xss_src;
              FileEntry.make "README.md" "./reports/sast/README.md" "CWE-79 high"])) /\
  sca_records (host := Fixture.host)
    (FileEntry.make "broken.json" "./reports/sca/broken.json" Fixture.not_json_src)
  = [].
Proof.
  destruct (reports_concatenate_files Fixture.host Fixture.files)
    as (Hsast & _ & _ & Hbroken).
  split.
  - apply Hsast. reflexivity.
  - apply (Hbroken (FileEntry.make "broken.json" "./reports/sca/broken.json"
                      Fixture.not_json_src)); reflexivity.
Defined.

(* ------------------------------------------------------------------ *)
(** ** Further properties: one record per finding *)

Lemma flat_map_singleton {A B : Type} (f : A -> B) (l : list A) :
  flat_map (fun x => [f x]) l = map f l.
Proof. induction l as [|x l IH]; simpl; [reflexivity | rewrite IH; reflexivity]. Qed.

(** A loop that pushes the record of each item pairs the items with the
    records, in order. *)
Lemma forEach_push_Forall2 {A : Type} (build : A -> exn Vuln.t)
      (l : list A) (acc out : list Vuln.t) :
  forEach (fun x acc => r <- build x ;; Ok (push acc r)) l acc = Ok out ->
  exists lo, out = acc ++ lo /\ Forall2 (fun x r => build x = Ok r) l lo.
Proof.
  intros H.
  destruct (@forEach_entries A A (fun x acc => r <- build x ;; Ok (push acc r))
              (fun x => [x]) (fun x r => build x = Ok r) l) with (acc := acc) (out := out)
    as (lo & Hout & Hlo).
  - intros x st st' _ Hx. bind_inv. subst st'. exists [a]. split; [reflexivity|].
    constructor; [exact E | constructor].
  - exact H.
  - exists lo. split; [exact Hout|].
    rewrite flat_map_singleton, map_id in Hlo. exact Hlo.
Qed.

(** A loop that pushes the record of each item does not throw when no item
    does. *)
Lemma forEach_push_total {A : Type} (build : A -> exn Vuln.t) (l : list A) :
  Forall (fun x => exists r, build x = Ok r) l ->
  forall acc, exists out,
      forEach (fun x acc => r <- build x ;; Ok (push acc r)) l acc = Ok out /\
      List.length out = List.length acc + List.length l.
Proof.
  induction 1 as [|x l (r & Hx) _ IH]; intros acc; simpl.
  - exists acc. split; [reflexivity | lia].
  - rewrite Hx. simpl. destruct (IH (push acc r)) as (out & -> & Hlen).
    exists out. split; [reflexivity|].
    rewrite Hlen. unfold push. rewrite length_app. simpl. lia.
Qed.

Lemma get_total (v : value) (k : string) :
  JS.nullish v = false -> exists w, JS.get v k = Ok w.
Proof. destruct v; simpl; intros H; try discriminate H; eexists; reflexivity. Qed.

Lemma or_else_total (a b : exn value) :
  (exists va, a = Ok va) -> (exists vb, b = Ok vb) ->
  exists v, JS.or_else a b = Ok v.
Proof.
  intros (va & ->) (vb & ->). unfold JS.or_else. simpl.
  destruct (JS.truthy va); eexists; reflexivity.
Qed.

(** The classifier never throws on a value that is not an object or an
    array. *)
Lemma normalizeSeverity_primitive {host : Host} (v : value) :
  is_structured v = false -> exists s, normalizeSeverity v = Ok s.
Proof.
  intros H. unfold normalizeSeverity.
  destruct (JS.truthy v) eqn:T; simpl; [|eexists; reflexivity].
  destruct v as [| |b|n|s|items|props]; simpl in *; try discriminate;
    repeat match goal with
           | |- context [if ?c then _ else _] => destruct c
           end; eexists; reflexivity.
Qed.

Lemma sca_generic_total {host : Host} (item : value) :
  plain_finding item -> exists r, sca_generic item = Ok r.
Proof.
  intros [Hitem Hsev]. unfold sca_generic.
  assert (G : forall k, exists w, JS.get item k = Ok w)
    by (intros k; apply get_total; exact Hitem).
  assert (L : forall s, exists w, Ok (VStr s) = Ok w) by (intros s; eexists; reflexivity).
  destruct (or_else_total (G "id") (or_else_total (G "cve") (L "N/A"))) as (v1 & ->).
  destruct (or_else_total (G "title")
              (or_else_total (G "name") (L "Unknown vulnerability"))) as (v2 & ->).
  destruct (G "severity") as (sev & Esev). rewrite Esev. simpl.
  destruct (normalizeSeverity_primitive sev (Hsev sev Esev)) as (s & ->). simpl.
  destruct (or_else_total (G "package")
              (or_else_total (G "library")
                 (or_else_total (G "dependency") (L "unknown")))) as (v3 & ->).
  destruct (or_else_total (G "description") (L "No description")) as (v4 & ->).
  destruct (or_else_total (G "recommendation")
              (or_else_total (G "fix") (L "Update to latest version"))) as (v5 & ->).
  simpl. eexists. reflexivity.
Qed.

(** X4.  In the array shape of [parseSCAJSON] the records are, in order, the
    records of the findings, one each, whatever the findings are (a bare text
    gives a record of fallback literals); and the walk does not throw when
    every finding is there and has a severity that is absent or a JSON
    primitive. *)
Theorem sca_array_one_record_per_finding (host : Host) (data : value)
        (items : list value) :
  JS.get data "vulnerabilities" = Ok (VArr items) ->
  (forall out, parseSCAJSON_doc data = Ok out ->
               Forall2 (fun item r => sca_generic item = Ok r) items out) /\
  (Forall plain_finding items ->
   exists out, parseSCAJSON_doc data = Ok out /\
               List.length out = List.length items).
Proof.
  intros Hdata. unfold parseSCAJSON_doc. rewrite Hdata. simpl. split.
  - intros out H. destruct (forEach_push_Forall2 _ _ _ H) as (lo & -> & Hlo).
    exact Hlo.
  - intros Hall.
    destruct (@forEach_push_total _ sca_generic items) with (acc := @nil Vuln.t)
      as (out & Hout & Hlen).
    + eapply Forall_impl; [|exact Hall]. intros item. apply sca_generic_total.
    + exists out. split; [exact Hout | exact Hlen].
Qed.

Lemma sca_array_one_record_per_finding_witness :
  exists out,
    parseSCAJSON_doc (host := Fixture.host) Sample.sca_list_doc = Ok out /\
    List.length out = 3 /\
    Forall2 (fun item r => sca_generic (host := Fixture.host) item = Ok r)
      [VObj [("id", VStr "GHSA-1"); ("cve", VStr "CVE-2020-1");
             ("name", VStr "by name"); ("library", VStr "left-pad");
             ("dependency", VStr "other"); ("severity", VStr "moderate");
             ("fix", VStr "upgrade")];
       VStr "a bare text";
       VObj [("cve", VStr "CVE-2020-2"); ("severity", VNum "9.8")]]
      out.
Proof.
  destruct (@sca_array_one_record_per_finding Fixture.host Sample.sca_list_doc
              [VObj [("id", VStr "GHSA-1"); ("cve", VStr "CVE-2020-1");
                     ("name", VStr "by name"); ("library", VStr "left-pad");
                     ("dependency", VStr "other"); ("severity", VStr "moderate");
                     ("fix", VStr "upgrade")];
               VStr "a bare text";
               VObj [("cve", VStr "CVE-2020-2"); ("severity", VNum "9.8")]]
              eq_refl) as [Hrecords Htotal].
  destruct Htotal as (out & Hout & Hlen).
  - repeat constructor; simpl; intros sev E; injection E as <-; reflexivity.
  - exists out. split; [exact Hout|]. split; [exact Hlen|].
    apply Hrecords. exact Hout.
Defined.

Lemma Forall2_map_pair {A B : Type} (a : A) (R : A * A -> B -> Prop)
      (l : list A) (lo : list B) :
  Forall2 (fun x r => R (a, x) r) l lo -> Forall2 R (map (pair a) l) lo.
Proof. induction 1; simpl; constructor; assumption. Qed.

Lemma array_items_None (v : value) :
  array_items v = None ->
  match v with
  | VArr _ => False
  | _ => True
  end.
Proof. destruct v; simpl; intros H; try exact I. discriminate H. Qed.

Section Findings.

Context {host : Host}.

(** What the results of one run add. *)
Lemma sarif_run_adds (run : value) (acc acc' : list Vuln.t) :
  (results <- JS.get run "results" ;;
   match array_items results with
   | Some results =>
       forEach (fun result acc => r <- sarif_result run result ;; Ok (push acc r))
               results acc
   | None => Ok acc
   end) = Ok acc' ->
  exists lx, acc' = acc ++ lx /\
             Forall2 (fun p r => sarif_result (fst p) (snd p) = Ok r)
                     (match JS.get run "results" with
                      | Ok (VArr results) => map (pair run) results
                      | _ => []
                      end) lx.
Proof.
  intros H. bind_inv. rewrite E.
  destruct (array_items a) as [results|] eqn:Ha.
  - apply array_items_Some in Ha. subst a.
    destruct (forEach_push_Forall2 _ _ _ H) as (lo & -> & Hlo).
    exists lo. split; [reflexivity|].
    apply (Forall2_map_pair run (fun p r => sarif_result (fst p) (snd p) = Ok r)).
    exact Hlo.
  - injection H as <-. exists []. split; [symmetry; apply app_nil_r|].
    apply array_items_None in Ha. destruct a; try constructor. destruct Ha.
Qed.

(** What the alerts of one site add. *)
Lemma zap_site_adds (site : value) (acc acc' : list Vuln.t) :
  (alerts <- JS.get site "alerts" ;;
   match array_items alerts with
   | Some alerts =>
       forEach (fun alert acc => r <- dast_alert site alert ;; Ok (push acc r))
               alerts acc
   | None => Ok acc
   end) = Ok acc' ->
  exists lx, acc' = acc ++ lx /\
             Forall2 (fun p r => dast_alert (fst p) (snd p) = Ok r)
                     (match JS.get site "alerts" with
                      | Ok (VArr alerts) => map (pair site) alerts
                      | _ => []
                      end) lx.
Proof.
  intros H. bind_inv. rewrite E.
  destruct (array_items a) as [alerts|] eqn:Ha.
  - apply array_items_Some in Ha. subst a.
    destruct (forEach_push_Forall2 _ _ _ H) as (lo & -> & Hlo).
    exists lo. split; [reflexivity|].
    apply (Forall2_map_pair site (fun p r => dast_alert (fst p) (snd p) = Ok r)).
    exact Hlo.
  - injection H as <-. exists []. split; [symmetry; apply app_nil_r|].
    apply array_items_None in Ha. destruct a; try constructor. destruct Ha.
Qed.

(** A [null] result makes the callback of [parseSARIF] throw, whatever the
    run. *)
Lemma sarif_result_null (run : value) : sarif_result run VNull = Throw.
Proof.
  unfold sarif_result.
  destruct (JS.get run "tool") as [t|]; [simpl | reflexivity].
  destruct (JS.get_opt t "driver") as [d|]; [simpl | reflexivity].
  destruct (JS.get_opt d "rules") as [rules|]; [simpl | reflexivity].
  assert (Hfind : rules_find rules VNull = Throw \/ rules_find rules VNull = Ok VUndef).
  { destruct rules as [| |b|n|s|items|props]; simpl; auto.
    destruct items as [|r items]; simpl; [auto|].
    destruct (JS.get r "id"); simpl; auto. }
  destruct Hfind as [-> | ->]; reflexivity.
Qed.

End Findings.

(** X5.  [parseSARIF] gives one record per result, the results of the first
    run first, each built from its own run: when the walk does not throw, the
    records are, in order, the records of the (run, result) pairs of the
    document.  A run without a [results] array gives nothing and does not
    disturb the others. *)
Theorem sarif_one_record_per_result (host : Host) (sarif : value)
        (runs : list value) (out : list Vuln.t) :
  JS.get sarif "runs" = Ok (VArr runs) ->
  parseSARIF_doc sarif = Ok out ->
  Forall2 (fun p r => sarif_result (fst p) (snd p) = Ok r) (sarif_findings runs) out.
Proof.
  intros Hruns H. unfold parseSARIF_doc in H. rewrite Hruns in H. simpl in H.
  destruct (@forEach_entries _ _ _
              (fun run => match JS.get run "results" with
                          | Ok (VArr results) => map (pair run) results
                          | _ => []
                          end)
              (fun p r => sarif_result (fst p) (snd p) = Ok r) runs
              (fun run st st' _ => @sarif_run_adds host run st st') [] out H)
    as (lo & -> & Hlo).
  exact Hlo.
Qed.

Lemma sarif_one_record_per_result_witness :
  Forall2 (fun p r => sarif_result (host := Fixture.host) (fst p) (snd p) = Ok r)
    (sarif_findings
       [VObj [("results", VArr [VObj [("ruleId", VStr "R1")]; VObj []])];
        VObj [("tool", VStr "no results here")];
        VObj [("results", VArr [VObj [("level", VStr "low")]])]])
    [Vuln.make (VStr "R1") (VStr "Unknown vulnerability") (VStr "UNKNOWN")
       (VStr "unknown") (VStr "No description") (VStr "No recommendation available");
     Vuln.make (VStr "N/A") (VStr "Unknown vulnerability") (VStr "UNKNOWN")
       (VStr "unknown") (VStr "No description") (VStr "No recommendation available");
     Vuln.make (VStr "N/A") (VStr "Unknown vulnerability") (VStr "LOW")
       (VStr "unknown") (VStr "No description") (VStr "No recommendation available")].
Proof.
  apply (@sarif_one_record_per_result Fixture.host
           (VObj [("runs",
                   VArr [VObj [("results", VArr [VObj [("ruleId", VStr "R1")]; VObj []])];
                         VObj [("tool", VStr "no results here")];
                         VObj [("results", VArr [VObj [("level", VStr "low")]])]])]));
    reflexivity.
Defined.

Lemma dast_generic_total {host : Host} (item : value) :
  plain_finding item -> exists r, dast_generic item = Ok r.
Proof.
  intros [Hitem Hsev]. unfold dast_generic.
  assert (G : forall k, exists w, JS.get item k = Ok w)
    by (intros k; apply get_total; exact Hitem).
  assert (L : forall s, exists w, Ok (VStr s) = Ok w) by (intros s; eexists; reflexivity).
  destruct (or_else_total (G "id") (L "N/A")) as (v1 & ->).
  destruct (or_else_total (G "name")
              (or_else_total (G "title") (L "Unknown vulnerability"))) as (v2 & ->).
  destruct (G "severity") as (sev & Esev). rewrite Esev. simpl.
  destruct (normalizeSeverity_primitive sev (Hsev sev Esev)) as (s & ->). simpl.
  destruct (or_else_total (G "url")
              (or_else_total (G "endpoint") (L "unknown"))) as (v3 & ->).
  destruct (or_else_total (G "description") (L "No description")) as (v4 & ->).
  destruct (or_else_total (G "recommendation")
              (or_else_total (G "solution") (L "No recommendation available")))
    as (v5 & ->).
  simpl. eexists. reflexivity.
Qed.

Lemma dast_alert_total {host : Host} (site alert : value) :
  JS.nullish site = false -> plain_alert alert ->
  exists r, dast_alert site alert = Ok r.
Proof.
  intros Hsite (Halert & Hdesc & Hrisk). unfold dast_alert.
  assert (G : forall k, exists w, JS.get alert k = Ok w)
    by (intros k; apply get_total; exact Halert).
  assert (L : forall s, exists w, Ok (VStr s) = Ok w) by (intros s; eexists; reflexivity).
  destruct (or_else_total (G "pluginid") (or_else_total (G "id") (L "N/A")))
    as (v1 & ->).
  destruct (or_else_total (G "name")
              (or_else_total (G "alert") (L "Unknown vulnerability"))) as (v2 & ->).
  simpl.
  assert (R : exists risk,
             JS.or_else (riskdesc <- JS.get alert "riskdesc" ;; riskdesc_head riskdesc)
                        (JS.get alert "risk") = Ok risk /\
             is_structured risk = false).
  { destruct (G "riskdesc") as (rd & Erd). destruct (G "risk") as (risk & Erisk).
    specialize (Hrisk risk Erisk). rewrite Erd, Erisk. simpl.
    destruct (Hdesc rd Erd) as [Hnull | (s & ->)].
    - destruct rd; try discriminate Hnull; exists risk; split; auto.
    - unfold JS.or_else. simpl.
      destruct (negb (hd "" (Str.split " " s) =? "")%string);
        eexists; split; try reflexivity; exact Hrisk. }
  destruct R as (risk & -> & Hplain). simpl.
  destruct (normalizeSeverity_primitive risk Hplain) as (s & ->). simpl.
  destruct (or_else_total (G "url")
              (or_else_total (@get_total site "name" Hsite) (L "unknown"))) as (v3 & ->).
  destruct (or_else_total (G "desc")
              (or_else_total (G "description") (L "No description"))) as (v4 & ->).
  destruct (or_else_total (G "solution")
              (or_else_total (G "recommendation") (L "No recommendation available")))
    as (v5 & ->).
  simpl. eexists. reflexivity.
Qed.

(** The loop over the sites does not throw when every site is there and
    every alert is plain; it gives one record per alert. *)
Lemma zap_sites_total {host : Host} (sites : list value) :
  Forall (fun site => JS.nullish site = false) sites ->
  Forall (fun p => plain_alert (snd p)) (zap_findings sites) ->
  forall acc, exists out,
      forEach (fun site acc =>
                 alerts <- JS.get site "alerts" ;;
                 match array_items alerts with
                 | Some alerts =>
                     forEach (fun alert acc =>
                                r <- dast_alert site alert ;; Ok (push acc r))
                             alerts acc
                 | None => Ok acc
                 end) sites acc = Ok out /\
      List.length out = List.length acc + List.length (zap_findings sites).
Proof.
  induction 1 as [|site sites Hsite _ IH]; intros Hall acc.
  - exists acc. split; [reflexivity | simpl; lia].
  - unfold zap_findings in Hall. cbn [flat_map] in Hall.
    apply Forall_app in Hall. destruct Hall as [Hhere Hrest].
    cbn [forEach]. unfold zap_findings. cbn [flat_map]. rewrite length_app.
    destruct (@get_total site "alerts" Hsite) as (alerts & Ealerts).
    rewrite Ealerts in *. cbn [bind].
    destruct (array_items alerts) as [items|] eqn:Hitems.
    + apply array_items_Some in Hitems. subst alerts.
      destruct (@forEach_push_total _ (dast_alert site) items) with (acc := acc)
        as (mid & Hmid & Hlen).
      * rewrite Forall_map in Hhere. eapply Forall_impl; [|exact Hhere].
        intros alert Halert. apply dast_alert_total; assumption.
      * rewrite Hmid. cbn [bind].
        destruct (IH Hrest mid) as (out & Hout & Hlen').
        exists out. split; [exact Hout|].
        fold (zap_findings sites). rewrite Hlen', Hlen, length_map. lia.
    + destruct (IH Hrest acc) as (out & Hout & Hlen).
      exists out. split; [exact Hout|].
      fold (zap_findings sites). rewrite Hlen.
      apply array_items_None in Hitems.
      destruct alerts; simpl; lia || destruct Hitems.
Qed.

(** X6.  [parseDASTJSON] tries the site shape first.  When [site] is an
    array and the walk does not throw, the records are, in order, the
    records of the (site, alert) pairs, and the [vulnerabilities] of the same
    document are not read; the walk does not throw when every site is there
    and every alert is there with a [riskdesc] that is a text or absent and a
    [risk] that is absent or a JSON primitive.  When [site] is not an array
    and [vulnerabilities] is, a walk that does not throw gives one record per
    finding, in order; it does not throw when every finding is there and has
    a severity that is absent or a JSON primitive. *)
Theorem dast_one_record_per_finding (host : Host) (data : value) :
  (forall sites,
      JS.get data "site" = Ok (VArr sites) ->
      (forall out, parseDASTJSON_doc data = Ok out ->
                   Forall2 (fun p r => dast_alert (fst p) (snd p) = Ok r)
                           (zap_findings sites) out) /\
      (Forall (fun site => JS.nullish site = false) sites ->
       Forall (fun p => plain_alert (snd p)) (zap_findings sites) ->
       exists out, parseDASTJSON_doc data = Ok out /\
                   List.length out = List.length (zap_findings sites))) /\
  (forall other items,
      JS.get data "site" = Ok other -> JS.isArray other = false ->
      JS.get data "vulnerabilities" = Ok (VArr items) ->
      (forall out, parseDASTJSON_doc data = Ok out ->
                   Forall2 (fun item r => dast_generic item = Ok r) items out) /\
      (Forall plain_finding items ->
       exists out, parseDASTJSON_doc data = Ok out /\
                   List.length out = List.length items)).
Proof.
  split.
  - intros sites Hsite. unfold parseDASTJSON_doc. rewrite Hsite. simpl. split.
    + intros out H.
      destruct (@forEach_entries _ _ _
                  (fun site => match JS.get site "alerts" with
                               | Ok (VArr alerts) => map (pair site) alerts
                               | _ => []
                               end)
                  (fun p r => dast_alert (fst p) (snd p) = Ok r) sites
                  (fun site st st' _ => @zap_site_adds host site st st') [] out H)
        as (lo & -> & Hlo).
      exact Hlo.
    + intros Hsites Halerts.
      destruct (zap_sites_total Hsites Halerts []) as (out & Hout & Hlen).
      exists out. split; [exact Hout | exact Hlen].
  - intros other items Hsite Hother Hvulns.
    unfold parseDASTJSON_doc. rewrite Hsite. simpl.
    rewrite (array_items_not_array _ Hother), Hvulns. simpl. split.
    + intros out H. destruct (forEach_push_Forall2 _ _ _ H) as (lo & -> & Hlo).
      exact Hlo.
    + intros Hall.
      destruct (@forEach_push_total _ dast_generic items) with (acc := @nil Vuln.t)
        as (out & Hout & Hlen).
      * eapply Forall_impl; [|exact Hall]. intros item. apply dast_generic_total.
      * exists out. split; [exact Hout | exact Hlen].
Qed.

Lemma dast_one_record_per_finding_witness :
  (exists out,
      parseDASTJSON_doc (host := Fixture.host) Sample.zap_doc = Ok out /\
      List.length out = 2 /\
      Forall2 (fun p r => dast_alert (host := Fixture.host) (fst p) (snd p) = Ok r)
        (zap_findings
           [VObj [("name", VStr "http://shop.test");
                  ("alerts",
                   VArr [VObj [("pluginid", VStr "10020");
                               ("name", VStr "Missing header");
                               ("riskdesc", VStr "Medium (High)")];
                         VObj [("alert", VStr "Cookie flag");
                               ("risk", VStr "Low");
                               ("url", VStr "http://shop.test/cart")]])]])
        out) /\
  (exists out,
      parseDASTJSON_doc (host := Fixture.host)
        (VObj [("vulnerabilities",
                VArr [VObj [("title", VStr "Open redirect"); ("severity", VStr "low")];
                      VStr "a bare text"])]) = Ok out /\
      List.length out = 2).
Proof.
  split.
  - destruct (proj1 (dast_one_record_per_finding Fixture.host Sample.zap_doc)
                _ eq_refl) as [Hpairs Htotal].
    destruct Htotal as (out & Hout & Hlen).
    + repeat constructor.
    + cbn. repeat apply Forall_cons; try apply Forall_nil;
        (split; [reflexivity | split; intros v E; injection E as <-;
                               try reflexivity; try (left; reflexivity);
                               right; eexists; reflexivity]).
    + exists out. split; [exact Hout|]. split; [exact Hlen|].
      apply Hpairs. exact Hout.
  - apply (proj2 (dast_one_record_per_finding Fixture.host
                    (VObj [("vulnerabilities",
                            VArr [VObj [("title", VStr "Open redirect");
                                        ("severity", VStr "low")];
                                  VStr "a bare text"])]))
             VUndef
             [VObj [("title", VStr "Open redirect"); ("severity", VStr "low")];
              VStr "a bare text"]);
      try reflexivity.
    repeat apply Forall_cons; try apply Forall_nil;
      (split; [reflexivity | intros v E; injection E as <-; reflexivity]).
Defined.

(** X7.  A [null] among the findings of a JSON report makes the whole file
    give no record, in every parser and shape: a [null] result of a SARIF
    run, a [null] item of an SCA list, a [null] alert of a ZAP site, a [null]
    item of a DAST list.  What the other findings of the file would have
    given is lost. *)
Theorem null_finding_discards_file (host : Host) (content : string) (doc : value) :
  JSON_parse content = Some doc ->
  (forall runs run results,
      JS.get doc "runs" = Ok (VArr runs) -> In run runs ->
      JS.get run "results" = Ok (VArr results) -> In VNull results ->
      parseSARIF content = []) /\
  (forall items,
      JS.get doc "vulnerabilities" = Ok (VArr items) -> In VNull items ->
      parseSCAJSON content = []) /\
  (forall sites site alerts,
      JS.get doc "site" = Ok (VArr sites) -> In site sites ->
      JS.get site "alerts" = Ok (VArr alerts) -> In VNull alerts ->
      parseDASTJSON content = []) /\
  (forall other items,
      JS.get doc "site" = Ok other -> JS.isArray other = false ->
      JS.get doc "vulnerabilities" = Ok (VArr items) -> In VNull items ->
      parseDASTJSON content = []).
Proof.
  intros Hparse. unfold parseSARIF, parseSCAJSON, parseDASTJSON.
  rewrite (parse_Some _ Hparse). simpl.
  split; [|split; [|split]].
  - intros runs run results Hruns Hrun Hresults Hnull.
    unfold parseSARIF_doc. rewrite Hruns. simpl.
    rewrite forEach_throws with (x := run); [reflexivity | exact Hrun |].
    intros acc. rewrite Hresults. simpl.
    apply forEach_throws with (x := VNull); [exact Hnull|].
    intros st. rewrite sarif_result_null. reflexivity.
  - intros items Hitems Hnull.
    unfold parseSCAJSON_doc. rewrite Hitems. simpl.
    rewrite forEach_throws with (x := VNull); [reflexivity | exact Hnull |].
    intros st. reflexivity.
  - intros sites site alerts Hsites Hsite Halerts Hnull.
    unfold parseDASTJSON_doc. rewrite Hsites. simpl.
    rewrite forEach_throws with (x := site); [reflexivity | exact Hsite |].
    intros acc. rewrite Halerts. simpl.
    apply forEach_throws with (x := VNull); [exact Hnull|].
    intros st. reflexivity.
  - intros other items Hsite Hother Hitems Hnull.
    unfold parseDASTJSON_doc. rewrite Hsite. simpl.
    rewrite (array_items_not_array _ Hother), Hitems. simpl.
    rewrite forEach_throws with (x := VNull); [reflexivity | exact Hnull |].
    intros st. reflexivity.
Qed.

Lemma null_finding_discards_file_witness :
  parseSARIF (host := Sample.host) Sample.sarif_null_result_src = [] /\
  parseSCAJSON (host := Sample.host) Sample.sca_null_item_src = [] /\
  parseDASTJSON (host := Sample.host) Sample.zap_null_alert_src = [] /\
  parseDASTJSON (host := Sample.host) Sample.dast_list_null_src = [].
Proof.
  split; [|split; [|split]].
  - apply (proj1 (@null_finding_discards_file Sample.host
                    Sample.sarif_null_result_src Sample.sarif_null_result_doc eq_refl)
             [VObj [("results", VArr [VObj [("ruleId", VStr "R1")]; VNull])]]
             (VObj [("results", VArr [VObj [("ruleId", VStr "R1")]; VNull])])
             [VObj [("ruleId", VStr "R1")]; VNull]);
      try reflexivity; simpl; auto.
  - apply (proj1 (proj2 (@null_finding_discards_file Sample.host
                           Sample.sca_null_item_src Sample.sca_null_item_doc eq_refl))
             [VObj [("id", VStr "GHSA-1")]; VNull]);
      try reflexivity; simpl; auto.
  - apply (proj1 (proj2 (proj2 (@null_finding_discards_file Sample.host
                                  Sample.zap_null_alert_src Sample.zap_null_alert_doc
                                  eq_refl)))
             [VObj [("alerts", VArr [VObj [("name", VStr "kept?")]; VNull])]]
             (VObj [("alerts", VArr [VObj [("name", VStr "kept?")]; VNull])])
             [VObj [("name", VStr "kept?")]; VNull]);
      try reflexivity; simpl; auto.
  - apply (proj2 (proj2 (proj2 (@null_finding_discards_file Sample.host
                                  Sample.dast_list_null_src Sample.dast_list_null_doc
                                  eq_refl)))
             VUndef [VNull]);
      try reflexivity; simpl; auto.
Defined.

(* ------------------------------------------------------------------ *)
(** ** Further properties: fields and their aliases *)

Lemma or_else_lookup (props : list (string * value)) (k : string) (rest : exn value) :
  JS.or_else (JS.get (VObj props) k) rest
  = if JS.truthy (JS.or_undef (JS.lookup k props))
    then Ok (JS.or_undef (JS.lookup k props))
    else rest.
Proof. reflexivity. Qed.

Lemma first_truthy_cons (props : list (string * value)) (k : string)
      (names : list string) (fallback : string) :
  first_truthy props (k :: names) fallback
  = if JS.truthy (JS.or_undef (JS.lookup k props))
    then JS.or_undef (JS.lookup k props)
    else first_truthy props names fallback.
Proof.
  unfold first_truthy. simpl.
  destruct (JS.truthy (JS.or_undef (JS.lookup k props))); reflexivity.
Qed.

(** A chain [o.a || o.b || .. || 'fallback'] on an object is the first
    truthy alias, else the fallback. *)
Lemma or_else_chain (props : list (string * value)) (names : list string)
      (fallback : string) :
  fold_right (fun k rest => JS.or_else (JS.get (VObj props) k) rest)
             (Ok (VStr fallback)) names
  = Ok (first_truthy props names fallback).
Proof.
  induction names as [|k names IH]; [reflexivity|].
  cbn [fold_right]. rewrite IH, or_else_lookup, first_truthy_cons.
  destruct (JS.truthy (JS.or_undef (JS.lookup k props))); reflexivity.
Qed.

(** X8.  On a finding that is an object, each field of the generic SCA
    record is the first truthy alias of its list, else its fallback: [id]
    before [cve]; [title] before [name]; [package] before [library] before
    [dependency]; [recommendation] before [fix].  The generic DAST record
    reads [name] before [title], [url] before [endpoint] and [recommendation]
    before [solution], and has no alias for [id]. *)
Theorem generic_fields_by_alias (host : Host) (props : list (string * value))
        (r : Vuln.t) :
  (sca_generic (VObj props) = Ok r ->
   exists s,
     normalizeSeverity (JS.or_undef (JS.lookup "severity" props)) = Ok s /\
     r = Vuln.make (first_truthy props ["id"; "cve"] "N/A")
           (first_truthy props ["title"; "name"] "Unknown vulnerability")
           (VStr s)
           (first_truthy props ["package"; "library"; "dependency"] "unknown")
           (first_truthy props ["description"] "No description")
           (first_truthy props ["recommendation"; "fix"] "Update to latest version")) /\
  (dast_generic (VObj props) = Ok r ->
   exists s,
     normalizeSeverity (JS.or_undef (JS.lookup "severity" props)) = Ok s /\
     r = Vuln.make (first_truthy props ["id"] "N/A")
           (first_truthy props ["name"; "title"] "Unknown vulnerability")
           (VStr s)
           (first_truthy props ["url"; "endpoint"] "unknown")
           (first_truthy props ["description"] "No description")
           (first_truthy props ["recommendation"; "solution"]
              "No recommendation available")).
Proof.
  split.
  - unfold sca_generic.
    rewrite (or_else_chain props ["id"; "cve"] "N/A" : JS.or_else _ _ = _).
    rewrite (or_else_chain props ["title"; "name"] "Unknown vulnerability"
             : JS.or_else _ _ = _).
    rewrite (or_else_chain props ["package"; "library"; "dependency"] "unknown"
             : JS.or_else _ _ = _).
    rewrite (or_else_chain props ["description"] "No description"
             : JS.or_else _ _ = _).
    rewrite (or_else_chain props ["recommendation"; "fix"] "Update to latest version"
             : JS.or_else _ _ = _).
    simpl. intros H. bind_inv. subst r. eexists. split; [eassumption | reflexivity].
  - unfold dast_generic.
    rewrite (or_else_chain props ["id"] "N/A" : JS.or_else _ _ = _).
    rewrite (or_else_chain props ["name"; "title"] "Unknown vulnerability"
             : JS.or_else _ _ = _).
    rewrite (or_else_chain props ["url"; "endpoint"] "unknown"
             : JS.or_else _ _ = _).
    rewrite (or_else_chain props ["description"] "No description"
             : JS.or_else _ _ = _).
    rewrite (or_else_chain props ["recommendation"; "solution"]
               "No recommendation available" : JS.or_else _ _ = _).
    simpl. intros H. bind_inv. subst r. eexists. split; [eassumption | reflexivity].
Qed.

Lemma generic_fields_by_alias_witness :
  exists s,
    normalizeSeverity (host := Fixture.host) (VStr "moderate") = Ok s /\
    Vuln.make (VStr "GHSA-1") (VStr "by name") (VStr "MODERATE")
      (VStr "left-pad") (VStr "No description") (VStr "upgrade")
    = Vuln.make (VStr "GHSA-1") (VStr "by name") (VStr s)
        (VStr "left-pad") (VStr "No description") (VStr "upgrade").
Proof.
  apply (proj1 (generic_fields_by_alias Fixture.host
                  [("id", VStr "GHSA-1"); ("cve", VStr "CVE-2020-1");
                   ("name", VStr "by name"); ("library", VStr "left-pad");
                   ("dependency", VStr "other"); ("severity", VStr "moderate");
                   ("fix", VStr "upgrade")]
                  (Vuln.make (VStr "GHSA-1") (VStr "by name") (VStr "MODERATE")
                     (VStr "left-pad") (VStr "No description") (VStr "upgrade")))).
  reflexivity.
Defined.

(* ------------------------------------------------------------------ *)
(** ** Further properties: the rule of a SARIF result *)

(** X9.  The rule of a result is the first rule of the run whose [id] is
    strictly equal to the [ruleId] of the result: a later rule with the same
    [id] is not used, and what follows the first match is not looked at (a
    [null] there does no harm).  When no rule matches, the result has no rule
    and every field that comes from the rule falls back. *)
Theorem find_rule_first_match (host : Host) (result ruleId : value)
        (before after : list value) (rule : value) :
  JS.get result "ruleId" = Ok ruleId ->
  Forall (fun r => exists id, JS.get r "id" = Ok id /\ JS.strict_eq id ruleId = false)
         before ->
  (forall id, JS.get rule "id" = Ok id -> JS.strict_eq id ruleId = true ->
              rules_find (VArr (before ++ rule :: after)) result = Ok rule) /\
  rules_find (VArr before) result = Ok VUndef.
Proof.
  intros Hresult Hbefore. split.
  - intros id Hid Heq. simpl.
    induction Hbefore as [|r before (i & Hi & Hne) _ IH]; simpl.
    + rewrite Hid, Hresult. simpl. rewrite Heq. reflexivity.
    + rewrite Hi, Hresult. simpl. rewrite Hne. exact IH.
  - simpl. induction Hbefore as [|r before (i & Hi & Hne) _ IH]; simpl.
    + reflexivity.
    + rewrite Hi, Hresult. simpl. rewrite Hne. exact IH.
Qed.

Lemma find_rule_first_match_witness :
  rules_find
    (VArr ([VObj [("id", VStr "R0")]]
           ++ VObj [("id", VStr "R1"); ("name", VStr "first")]
           :: [VObj [("id", VStr "R1"); ("name", VStr "second")]; VNull]))
    (VObj [("ruleId", VStr "R1")])
  = Ok (VObj [("id", VStr "R1"); ("name", VStr "first")]) /\
  rules_find (VArr [VObj [("id", VStr "R0")]]) (VObj [("ruleId", VStr "R1")])
  = Ok VUndef.
Proof.
  destruct (@find_rule_first_match Fixture.host (VObj [("ruleId", VStr "R1")])
              (VStr "R1") [VObj [("id", VStr "R0")]]
              [VObj [("id", VStr "R1"); ("name", VStr "second")]; VNull]
              (VObj [("id", VStr "R1"); ("name", VStr "first")]) eq_refl)
    as [Hfirst Hnone].
  - constructor; [|constructor]. exists (VStr "R0"). split; reflexivity.
  - split; [|exact Hnone]. apply (Hfirst (VStr "R1")); reflexivity.
Defined.

Example parseSARIF_two_rules :
  parseSARIF_doc (host := Fixture.host) Sample.two_rules_doc
  = Ok [Vuln.make (VStr "R1") (VStr "first") (VStr "UNKNOWN") (VStr "unknown")
          (VStr "No description") (VStr "No recommendation available")].
Proof. reflexivity. Qed.

(* ------------------------------------------------------------------ *)
(** ** Further properties: the severity of a ZAP alert *)

Lemma split_head (a rest : string) :
  no_space a = true ->
  hd "" (Str.split " " (a ++ String " " rest)) = a.
Proof.
  induction a as [|c a IH]; simpl; intros H; [reflexivity|].
  apply Bool.andb_true_iff in H. destruct H as [Hc Ha].
  apply Bool.negb_true_iff in Hc. rewrite Hc.
  specialize (IH Ha).
  destruct (Str.split " " (a ++ String " " rest)) as [|piece pieces];
    simpl in *; rewrite IH; reflexivity.
Qed.

(** Where the severity of a ZAP record comes from. *)
Lemma dast_alert_risk {host : Host} (site alert : value) (r : Vuln.t) :
  dast_alert site alert = Ok r ->
  exists risk s,
    JS.or_else (riskdesc <- JS.get alert "riskdesc" ;; riskdesc_head riskdesc)
               (JS.get alert "risk") = Ok risk /\
    normalizeSeverity risk = Ok s /\
    Vuln.severity r = VStr s.
Proof.
  intros H. unfold dast_alert in H. bind_inv. subst r. simpl.
  do 2 eexists. split; [eassumption|]. split; [eassumption | reflexivity].
Qed.

Lemma split_one_word (a : string) :
  no_space a = true -> hd "" (Str.split " " a) = a.
Proof.
  induction a as [|c a IH]; simpl; intros H; [reflexivity|].
  apply Bool.andb_true_iff in H. destruct H as [Hc Ha].
  apply Bool.negb_true_iff in Hc. rewrite Hc.
  specialize (IH Ha).
  destruct (Str.split " " a) as [|piece pieces]; simpl in *; rewrite IH; reflexivity.
Qed.

Lemma append_empty (a : string) : (a ++ "")%string = a.
Proof. induction a as [|c a IH]; simpl; [reflexivity | rewrite IH; reflexivity]. Qed.

(** The first piece of a text cut at its spaces is what stands before the
    first space, or the whole text when it has none. *)
Lemma split_first_word (a rest : string) :
  no_space a = true ->
  rest = "" \/ (exists rest', rest = String " " rest') ->
  hd "" (Str.split " " (a ++ rest)) = a.
Proof.
  intros Ha [-> | (rest' & ->)].
  - rewrite append_empty. apply split_one_word. exact Ha.
  - apply split_head. exact Ha.
Qed.

(** X10.  The severity of a ZAP alert whose [riskdesc] is a text comes from
    the first word of it, what stands before the first space or the whole
    text when there is no space: the confidence of "Medium (High)" has no
    part in it.  When that first word is empty (the text is empty or begins
    with a space), and when [riskdesc] is [null] or missing, the severity
    comes from [risk]; and a [riskdesc] that is neither a text nor absent
    makes the callback throw. *)
Theorem dast_alert_severity (host : Host) (site alert : value) :
  (forall level rest r,
      JS.get alert "riskdesc" = Ok (VStr (level ++ rest)) ->
      no_space level = true -> level <> "" ->
      rest = "" \/ (exists rest', rest = String " " rest') ->
      dast_alert site alert = Ok r ->
      Vuln.severity r = VStr (Spec.classify level)) /\
  (forall riskdesc r,
      JS.get alert "riskdesc" = Ok riskdesc ->
      JS.nullish riskdesc = true \/ riskdesc = VStr "" \/
      (exists rest, riskdesc = VStr (String " " rest)) ->
      dast_alert site alert = Ok r ->
      exists risk s, JS.get alert "risk" = Ok risk /\
                     normalizeSeverity risk = Ok s /\
                     Vuln.severity r = VStr s) /\
  (forall riskdesc,
      JS.get alert "riskdesc" = Ok riskdesc -> JS.nullish riskdesc = false ->
      (forall s, riskdesc <> VStr s) ->
      dast_alert site alert = Throw).
Proof.
  split; [|split].
  - intros level rest r Hdesc Hlevel Hne Hrest H.
    destruct (dast_alert_risk _ _ H) as (risk & s & Hrisk & Hs & ->).
    rewrite Hdesc in Hrisk. unfold JS.or_else in Hrisk. simpl in Hrisk.
    rewrite (split_first_word level Hlevel Hrest), (eqb_empty_false Hne) in Hrisk.
    simpl in Hrisk. injection Hrisk as <-.
    rewrite normalizeSeverity_classify in Hs. injection Hs as <-. reflexivity.
  - intros riskdesc r Hdesc Hcase H.
    destruct (dast_alert_risk _ _ H) as (risk & s & Hrisk & Hs & Hsev).
    rewrite Hdesc in Hrisk.
    exists risk, s. split; [|split; assumption].
    destruct Hcase as [Hnull | [-> | (rest & ->)]].
    + destruct riskdesc; try discriminate Hnull; exact Hrisk.
    + exact Hrisk.
    + exact Hrisk.
  - intros riskdesc Hdesc Hnull Hnot. unfold dast_alert.
    destruct (JS.or_else (JS.get alert "pluginid") _) as [v1|]; [simpl|reflexivity].
    destruct (JS.or_else (JS.get alert "name") _) as [v2|]; [simpl|reflexivity].
    rewrite Hdesc. simpl.
    destruct riskdesc as [| |b|n|s|items|props]; try discriminate Hnull;
      try reflexivity.
    exfalso. apply (Hnot s). reflexivity.
Qed.

Lemma dast_alert_severity_witness :
  (exists r,
      dast_alert (host := Fixture.host) (VObj [("name", VStr "http://shop.test")])
        (VObj [("pluginid", VStr "10020"); ("name", VStr "Missing header");
               ("riskdesc", VStr "Medium (High)")]) = Ok r /\
      Vuln.severity r = VStr "MEDIUM" /\
      normalizeSeverity (host := Fixture.host) (VStr "Medium (High)") = Ok "HIGH") /\
  (exists r,
      dast_alert (host := Fixture.host) VNull
        (VObj [("url", VStr "http://shop.test/cart"); ("riskdesc", VStr "High");
               ("risk", VStr "low")]) = Ok r /\
      Vuln.severity r = VStr "HIGH") /\
  (exists r,
      dast_alert (host := Fixture.host) (VObj [])
        (VObj [("riskdesc", VStr " High"); ("risk", VStr "low")]) = Ok r /\
      exists risk s,
        JS.get (VObj [("riskdesc", VStr " High"); ("risk", VStr "low")]) "risk" = Ok risk /\
        normalizeSeverity (host := Fixture.host) risk = Ok s /\
        Vuln.severity r = VStr s /\ s = "LOW").
Proof.
  split; [|split].
  - eexists. split; [reflexivity|]. split; [|reflexivity].
    apply (proj1 (dast_alert_severity Fixture.host
                    (VObj [("name", VStr "http://shop.test")])
                    (VObj [("pluginid", VStr "10020"); ("name", VStr "Missing header");
                           ("riskdesc", VStr "Medium (High)")]))
             "Medium" " (High)");
      try reflexivity; [discriminate | right; eexists; reflexivity].
  - eexists. split; [reflexivity|].
    apply (proj1 (dast_alert_severity Fixture.host VNull
                    (VObj [("url", VStr "http://shop.test/cart");
                           ("riskdesc", VStr "High"); ("risk", VStr "low")]))
             "High" "");
      try reflexivity; [discriminate | left; reflexivity].
  - eexists. split; [reflexivity|].
    destruct (proj1 (proj2 (dast_alert_severity Fixture.host (VObj [])
                              (VObj [("riskdesc", VStr " High"); ("risk", VStr "low")])))
                (VStr " High") _ eq_refl
                (or_intror (or_intror (ex_intro _ "High" eq_refl))) eq_refl)
      as (risk & s & Hrisk & Hs & Hsev).
    exists risk, s. split; [exact Hrisk|]. split; [exact Hs|]. split; [exact Hsev|].
    injection Hrisk as <-. injection Hs as <-. reflexivity.
Defined.

(* ------------------------------------------------------------------ *)
(** ** Further properties: the classifier on ASCII text *)

Section AsciiText.

Lemma upper_char_idempotent (c : ascii) :
  Str.upper_char (Str.upper_char c) = Str.upper_char c.
Proof.
  destruct (Str.is_lower c) eqn:E.
  - assert (L : Str.is_lower (ascii_of_nat (nat_of_ascii c - 32)) = false).
    { unfold Str.is_lower in *. apply Bool.andb_true_iff in E. destruct E as [E1 E2].
      apply Nat.leb_le in E1. apply Nat.leb_le in E2.
      rewrite nat_ascii_embedding by lia.
      apply Bool.andb_false_iff. left. apply Nat.leb_gt. lia. }
    unfold Str.upper_char. rewrite E, L. reflexivity.
  - unfold Str.upper_char. rewrite E, E. reflexivity.
Qed.

Lemma upper_idempotent (s : string) : Str.upper (Str.upper s) = Str.upper s.
Proof.
  induction s as [|c s IH]; simpl; [reflexivity|].
  rewrite upper_char_idempotent, IH. reflexivity.
Qed.

Lemma upper_char_keeps_ascii (c : ascii) :
  nat_of_ascii c < 128 -> nat_of_ascii (Str.upper_char c) < 128.
Proof.
  intros H. unfold Str.upper_char. destruct (Str.is_lower c); [|exact H].
  rewrite nat_ascii_embedding by lia. lia.
Qed.

Lemma upper_keeps_ascii (s : string) :
  Str.is_ascii s = true -> Str.is_ascii (Str.upper s) = true.
Proof.
  induction s as [|c s IH]; simpl; [reflexivity|].
  intros H. apply Bool.andb_true_iff in H. destruct H as [Hc Hs].
  apply Nat.ltb_lt in Hc. apply upper_char_keeps_ascii in Hc.
  apply Bool.andb_true_iff. split; [apply Nat.ltb_lt; exact Hc | apply IH; exact Hs].
Qed.

Lemma upper_nonempty (s : string) : s <> "" -> Str.upper s <> "".
Proof. destruct s; [congruence | discriminate]. Qed.

(** The answer of the cascade on an upper-case ASCII text, classified again,
    is itself. *)
Lemma by_text_stable (u : string) :
  Str.upper u = u -> by_text (Str.upper (by_text u)) = by_text u.
Proof.
  intros Hu. unfold by_text at 2 3.
  destruct (Str.includes u "CRITICAL" || Str.includes u "CRIT") eqn:E1; [reflexivity|].
  destruct (Str.includes u "HIGH") eqn:E2; [reflexivity|].
  destruct (Str.includes u "MEDIUM" || Str.includes u "MED") eqn:E3; [reflexivity|].
  destruct (Str.includes u "LOW") eqn:E4; [reflexivity|].
  destruct (Str.includes u "INFO") eqn:E5; [reflexivity|].
  rewrite Hu. unfold by_text. rewrite E1, E2, E3, E4, E5. reflexivity.
Qed.

Lemma by_text_ascii (u : string) :
  Str.is_ascii u = true -> Str.is_ascii (by_text u) = true.
Proof.
  intros H. unfold by_text.
  repeat match goal with
         | |- context [if ?c then _ else _] => destruct c
         end; try reflexivity; exact H.
Qed.

Lemma by_text_nonempty (u : string) : u <> "" -> by_text u <> "".
Proof.
  intros H. unfold by_text.
  repeat match goal with
         | |- context [if ?c then _ else _] => destruct c
         end; try discriminate; exact H.
Qed.

End AsciiText.

(** X11.  On ASCII text the classifier is blind to case and stable: a text
    and its upper case are classified alike, and classifying an answer of the
    classifier again gives the same answer, so that a normalized report can
    be normalized again without change. *)
Theorem normalizeSeverity_stable (host : Host) (s r : string) :
  Str.is_ascii s = true ->
  normalizeSeverity (VStr s) = Ok r ->
  normalizeSeverity (VStr (Str.upper s)) = Ok r /\
  normalizeSeverity (VStr r) = Ok r.
Proof.
  intros Ha H. destruct (String.eqb s "") eqn:E.
  - apply String.eqb_eq in E. subst s.
    rewrite normalizeSeverity_falsy in H by reflexivity. injection H as <-.
    split; [apply normalizeSeverity_falsy; reflexivity|].
    rewrite normalizeSeverity_ascii by (reflexivity || discriminate). reflexivity.
  - apply String.eqb_neq in E.
    rewrite (normalizeSeverity_ascii Ha E) in H. injection H as <-.
    split.
    + rewrite (normalizeSeverity_ascii (upper_keeps_ascii _ Ha) (upper_nonempty E)).
      rewrite upper_idempotent. reflexivity.
    + rewrite normalizeSeverity_ascii.
      * rewrite (by_text_stable (upper_idempotent s)). reflexivity.
      * apply by_text_ascii, upper_keeps_ascii, Ha.
      * apply by_text_nonempty, upper_nonempty, E.
Qed.

Lemma normalizeSeverity_stable_witness :
  normalizeSeverity (host := Fixture.host) (VStr "SEVERITY: HIGH") = Ok "HIGH" /\
  normalizeSeverity (host := Fixture.host) (VStr "HIGH") = Ok "HIGH" /\
  normalizeSeverity (host := Fixture.host) (VStr "TO REVIEW") = Ok "TO REVIEW".
Proof.
  destruct (@normalizeSeverity_stable Fixture.host "Severity: high" "HIGH"
              eq_refl eq_refl) as [H1 H2].
  destruct (@normalizeSeverity_stable Fixture.host "to review" "TO REVIEW"
              eq_refl eq_refl) as [H3 H4].
  split; [exact H1|]. split; [exact H2 | exact H4].
Defined.

(* ------------------------------------------------------------------ *)
(** ** Further properties: what the text parsers can give *)

Lemma cwe_at_digits (s : string) (n : nat) (m : string) :
  Re.cwe_at s = Some (n, m) -> Spec.all_digits m = true /\ m <> "".
Proof.
  unfold Re.cwe_at. destruct (Re.startsWith_ci s "CWE-"); [|discriminate].
  destruct (Re.digits (Re.drop 4 s)) as [|d num] eqn:E; [discriminate|].
  intros H. injection H as _ <-. split; [|discriminate].
  rewrite <- E. apply digits_all.
Qed.

Lemma cwe_matches_are_numbers (content : string) :
  Forall (fun m => Spec.all_digits m = true /\ m <> "")
         (Re.matchAll Re.cwe_at content).
Proof.
  unfold Re.matchAll. apply match_all_Forall.
  intros s n m H. apply (cwe_at_digits _ H).
Qed.

(** X12.  [parseHTML] never throws, and whatever the document every record
    it gives has an [id] made of [CWE-] and one or more digits and a severity
    that is CRITICAL, HIGH, MEDIUM or LOW: it never gives UNKNOWN, INFO or a
    free text. *)
Theorem parseHTML_vocabulary (host : Host) (content : string) :
  exists out,
    parseHTML content = Ok out /\
    Forall (fun r =>
              (exists cwe, Vuln.id r = VStr ("CWE-" ++ cwe)%string /\
                           Spec.all_digits cwe = true /\ cwe <> "") /\
              In (Vuln.severity r)
                 [VStr "CRITICAL"; VStr "HIGH"; VStr "MEDIUM"; VStr "LOW"])
           out.
Proof.
  eexists. split; [apply parseHTML_combine|].
  apply Forall_forall. intros r Hr.
  apply in_map_iff in Hr. destruct Hr as ([cwe w] & <- & Hin).
  pose proof (cwe_matches_are_numbers content) as Hcwe.
  pose proof (severity_matches_are_words content) as Hsev.
  rewrite Forall_forall in Hcwe, Hsev.
  destruct (Hcwe cwe (in_combine_l _ _ _ _ Hin)) as [Hd Hne].
  specialize (Hsev w (in_combine_r _ _ _ _ Hin)).
  simpl. split.
  - exists cwe. auto.
  - unfold Spec.is_severity_word in Hsev.
    apply (in_map VStr) in Hsev. exact Hsev.
Qed.

Lemma flat_map_length_le {A B : Type} (g : A -> list B) (l : list A) :
  (forall x, List.length (g x) <= 1) ->
  List.length (flat_map g l) <= List.length l.
Proof.
  intros Hg. induction l as [|x l IH]; simpl; [lia|].
  rewrite length_app. specialize (Hg x). lia.
Qed.

Lemma line_records_cases {host : Host} (line : string) :
  line_records line
  = match Re.first_match Re.cve_at line with
    | Some cve =>
        [txt_entry cve
           match Re.first_match Re.severity_at line with
           | Some w => Str.upper w
           | None => "UNKNOWN"
           end line]
    | None => []
    end.
Proof. unfold line_records. rewrite scatxt_line_cases. reflexivity. Qed.

(** X13.  [parseSCATXT] never throws and gives at most one record per line;
    whatever the text, the severity of a record is CRITICAL, HIGH, MEDIUM,
    LOW or UNKNOWN (never INFO or a free text) and its [id] is a CVE-shaped
    token. *)
Theorem parseSCATXT_vocabulary (host : Host) (content : string) :
  exists out,
    parseSCATXT content = Ok out /\
    List.length out <= List.length (Str.split "010" content) /\
    Forall (fun r =>
              (exists cve, Vuln.id r = VStr cve /\ Spec.is_cve_token cve) /\
              In (Vuln.severity r)
                 [VStr "CRITICAL"; VStr "HIGH"; VStr "MEDIUM"; VStr "LOW";
                  VStr "UNKNOWN"])
           out.
Proof.
  eexists. split; [apply parseSCATXT_flat_map|]. split.
  - apply flat_map_length_le. intros line. rewrite line_records_cases.
    destruct (Re.first_match Re.cve_at line); simpl; lia.
  - apply Forall_forall. intros r Hr.
    apply in_flat_map in Hr. destruct Hr as (line & _ & Hr).
    rewrite line_records_cases in Hr.
    destruct (Re.first_match Re.cve_at line) as [cve|] eqn:Ecve; [|destruct Hr].
    destruct Hr as [<- | []]. simpl. split.
    + exists cve. split; [reflexivity|].
      apply (proj1 (first_match_cve line)). exact Ecve.
    + destruct (Re.first_match Re.severity_at line) as [w|] eqn:Esev.
      * destruct (proj1 (first_match_severity line) w Esev) as [Hword _].
        unfold Spec.is_severity_word in Hword.
        apply (in_map VStr) in Hword. simpl in Hword. simpl. tauto.
      * simpl. tauto.
Qed.

(* ------------------------------------------------------------------ *)
(** ** Further properties: which CVE a line is filed under *)

Section Leftmost.

Local Open Scope string_scope.
Variable at_start : string -> option Re.hit.

(** The match [first_match] keeps is at the first place where the pattern
    matches. *)
Lemma first_match_leftmost (s m : string) :
  Re.first_match at_start s = Some m ->
  exists before rest n,
    s = before ++ rest /\ at_start rest = Some (n, m) /\
    forall skipped from_here,
      before = skipped ++ from_here -> from_here <> "" ->
      at_start (from_here ++ rest) = None.
Proof.
  induction s as [|c s IH]; simpl.
  - destruct (at_start "") as [[n m']|] eqn:E; [|discriminate].
    intros H. injection H as <-. exists "", "", n.
    split; [reflexivity|]. split; [exact E|].
    intros skipped from_here H. destruct skipped; simpl in H; [|discriminate].
    congruence.
  - destruct (at_start (String c s)) as [[n m']|] eqn:E.
    + intros H. injection H as <-. exists "", (String c s), n.
      split; [reflexivity|]. split; [exact E|].
      intros skipped from_here H. destruct skipped; simpl in H; [|discriminate].
      congruence.
    + intros H. destruct (IH H) as (before & rest & n & -> & Hat & Hleft).
      exists (String c before), rest, n.
      split; [reflexivity|]. split; [exact Hat|].
      intros skipped from_here Hsplit Hne.
      destruct skipped as [|k skipped]; simpl in Hsplit.
      * subst from_here. exact E.
      * injection Hsplit as _ Hsplit. apply (Hleft skipped from_here Hsplit Hne).
Qed.

End Leftmost.

Lemma digits_of_rest (s : string) :
  Re.digits (Re.drop (String.length (Re.digits s)) s) = "".
Proof.
  induction s as [|c s IH]; simpl; [reflexivity|].
  destruct (Str.is_digit c) eqn:E; simpl; [exact IH | rewrite E; reflexivity].
Qed.

(** The CVE pattern takes every digit that follows. *)
Lemma cve_at_greedy (s : string) (n : nat) (t : string) :
  Re.cve_at s = Some (n, t) -> Re.digits (Re.drop n s) = "".
Proof.
  unfold Re.cve_at. intros H.
  destruct (Re.startsWith_ci s "CVE-"); [|discriminate].
  destruct ((4 <=? String.length (Re.digits (Re.drop 4 s)))
            && Str.startsWith (Re.drop 8 s) "-"); [|discriminate].
  destruct (Re.digits (Re.drop 9 s)) as [|d num] eqn:E; [discriminate|].
  remember (9 + String.length (String d num)) as k eqn:Ek.
  injection H as <- _. subst k. rewrite drop_add, <- E. apply digits_of_rest.
Qed.

(** X14.  A line is filed under its first CVE: the [id] of its record is the
    CVE-shaped token that begins first in the line (no such token begins
    before it), taken with all the digits that follow it; the other CVEs of
    the line give no record. *)
Theorem scatxt_first_cve_wins (host : Host) (line : string) (r : Vuln.t) :
  In r (line_records line) ->
  exists before cve after,
    line = (before ++ cve ++ after)%string /\
    line_records line = [r] /\
    Vuln.id r = VStr cve /\
    Spec.is_cve_token cve /\
    no_cve_starts_in before (cve ++ after)%string /\
    Re.digits after = "".
Proof.
  rewrite line_records_cases.
  destruct (Re.first_match Re.cve_at line) as [cve|] eqn:E; [|intros []].
  intros [<- | []].
  destruct (first_match_leftmost _ _ E) as (before & rest & n & Hline & Hat & Hleft).
  destruct (cve_at_token _ Hat) as [Htok Hrest].
  exists before, cve, (Re.drop n rest).
  split; [rewrite <- Hrest; exact Hline|].
  split; [reflexivity|]. split; [reflexivity|]. split; [exact Htok|]. split.
  - intros skipped from_here t after Hsplit Hne Ht Heq.
    rewrite <- Hrest in Heq.
    apply (token_cve_at after Ht). rewrite <- Heq.
    apply (Hleft skipped from_here Hsplit Hne).
  - apply (cve_at_greedy _ Hat).
Qed.

Lemma scatxt_first_cve_wins_witness :
  exists before cve after,
    "see CVE-2020-1234567 and cve-2019-22"
    = (before ++ cve ++ after)%string /\
    line_records (host := Fixture.host) "see CVE-2020-1234567 and cve-2019-22"
    = [txt_entry (host := Fixture.host) "CVE-2020-1234567" "UNKNOWN"
         "see CVE-2020-1234567 and cve-2019-22"] /\
    VStr "CVE-2020-1234567" = VStr cve /\
    Spec.is_cve_token cve /\
    no_cve_starts_in before (cve ++ after)%string /\
    Re.digits after = "".
Proof.
  apply (@scatxt_first_cve_wins Fixture.host "see CVE-2020-1234567 and cve-2019-22"
           (txt_entry (host := Fixture.host) "CVE-2020-1234567" "UNKNOWN"
              "see CVE-2020-1234567 and cve-2019-22")).
  left. reflexivity.
Defined.

(* ------------------------------------------------------------------ *)
(** ** What each field falls back to *)

Lemma get_prop (v : value) :
  JS.nullish v = false -> forall k, JS.get v k = Ok (prop v k).
Proof. destruct v; simpl; intros H k; try discriminate H; reflexivity. Qed.

Lemma get_opt_prop (v : value) (k : string) : JS.get_opt v k = Ok (prop v k).
Proof. destruct v; reflexivity. Qed.

Lemma get2_prop (v : value) :
  JS.nullish v = false ->
  forall k1 k2, get2 v k1 k2 = Ok (prop (prop v k1) k2).
Proof.
  intros H k1 k2. unfold get2. rewrite (get_prop _ H). simpl. apply get_opt_prop.
Qed.

Lemma get_Ok_present (v : value) (k : string) (w : value) :
  JS.get v k = Ok w -> JS.nullish v = false.
Proof. destruct v; simpl; intros H; try discriminate H; reflexivity. Qed.

Lemma or_else_Ok_first (a b : value) :
  JS.or_else (Ok a) (Ok b) = Ok (first_or [a] b).
Proof.
  unfold JS.or_else, first_or. simpl. destruct (JS.truthy a); reflexivity.
Qed.

Lemma first_or_nest (first more : list value) (last : value) :
  first_or first (first_or more last) = first_or (first ++ more) last.
Proof.
  unfold first_or. induction first as [|a first IH]; simpl; [reflexivity|].
  destruct (JS.truthy a); [reflexivity | exact IH].
Qed.

(** A chain that ends in a truthy value gives a truthy value. *)
Lemma or_else_truthy (m : exn value) (b v : value) :
  JS.truthy b = true -> JS.or_else m (Ok b) = Ok v -> JS.truthy v = true.
Proof.
  intros Hb H. destruct (or_else_inv _ _ H) as [[_ T] | (va & _ & _ & E)].
  - exact T.
  - injection E as <-. exact Hb.
Qed.

(** The site is read only when the alert has no address. *)
Lemma or_else_site_name (url site : value) (fallback : string) (v : value) :
  JS.or_else (Ok url) (JS.or_else (JS.get site "name") (Ok (VStr fallback))) = Ok v ->
  v = pick [url; prop site "name"] fallback.
Proof.
  unfold JS.or_else at 1. unfold pick, first_or. simpl.
  destruct (JS.truthy url); [intros H; injection H as <-; reflexivity|].
  destruct (JS.nullish site) eqn:N.
  - destruct site; try discriminate N; simpl; discriminate.
  - rewrite (get_prop _ N), or_else_Ok_first. intros H. injection H as <-.
    unfold first_or. simpl. reflexivity.
Qed.

Lemma severity_from_Ok {host : Host} (source : value) (s : string) :
  normalizeSeverity source = Ok s -> severity_from source s.
Proof.
  intros H. split; [exact H|]. intros F.
  rewrite (normalizeSeverity_falsy _ F) in H. injection H as <-. reflexivity.
Qed.

Ltac ok_subst :=
  repeat match goal with
         | H : Ok _ = Ok ?x |- _ => is_var x; injection H as H; subst x
         end.

Ltac chains :=
  rewrite ?or_else_Ok_first, ?first_or_nest in *; cbn [app] in *; ok_subst.

Section Fallbacks.

Context {host : Host}.

Lemma sca_generic_degrades (vuln : value) (r : Vuln.t) :
  sca_generic vuln = Ok r -> sca_generic_fields vuln r.
Proof.
  intros H. unfold sca_generic in H. bind_inv.
  pose proof (get_Ok_present _ _ E1) as N.
  rewrite !(get_prop _ N) in *. chains. subst r.
  exists a2. split; [apply severity_from_Ok; assumption | reflexivity].
Qed.

Lemma dast_generic_degrades (vuln : value) (r : Vuln.t) :
  dast_generic vuln = Ok r -> dast_generic_fields vuln r.
Proof.
  intros H. unfold dast_generic in H. bind_inv.
  pose proof (get_Ok_present _ _ E1) as N.
  rewrite !(get_prop _ N) in *. chains. subst r.
  exists a2. split; [apply severity_from_Ok; assumption | reflexivity].
Qed.

Lemma sca_via_degrades (pkg : string) (vuln v : value) (r : Vuln.t) :
  sca_via pkg vuln v = Ok r -> sca_via_fields pkg vuln v r.
Proof.
  intros H. unfold sca_via in H. bind_inv.
  pose proof (get_Ok_present _ _ E1) as N.
  pose proof (get_Ok_present _ _ E4) as Nvuln.
  rewrite !(get_prop _ N), !(get_prop _ Nvuln) in *. chains. subst r.
  exists a2. split; [apply severity_from_Ok; assumption | reflexivity].
Qed.

Lemma dast_alert_degrades (site alert : value) (r : Vuln.t) :
  dast_alert site alert = Ok r -> dast_alert_fields site alert r.
Proof.
  intros H. unfold dast_alert in H. bind_inv.
  assert (N : JS.nullish alert = false).
  { destruct alert; try reflexivity; discriminate E. }
  rewrite !(get_prop _ N) in *. cbn [bind] in E1.
  apply or_else_site_name in E3.
  unfold JS.or_else at 1 in E1. apply bind_Ok_inv in E1.
  destruct E1 as (head & Ehead & E1).
  change (JS.or_else (Ok head) (Ok (prop alert "risk")) = Ok a1) in E1.
  chains. subst r a3.
  exists head, a2. split; [exact Ehead|].
  split; [apply severity_from_Ok; assumption | reflexivity].
Qed.

Lemma sarif_result_degrades (run result : value) (r : Vuln.t) :
  sarif_result run result = Ok r -> sarif_fields run result r.
Proof.
  intros H. unfold sarif_result in H. bind_inv.
  pose proof (get_Ok_present _ _ E) as Nrun.
  pose proof (get_Ok_present _ _ E3) as Nres.
  assert (Nrule : JS.nullish a2 = false).
  { apply truthy_present. eapply or_else_truthy; [|exact E2]. reflexivity. }
  rewrite !(get_prop _ Nrun), !(get_prop _ Nres), !(get_prop _ Nrule),
    ?(get2_prop _ Nres), ?(get2_prop _ Nrule), ?get_opt_prop in *.
  chains. subst r.
  exists a2, a4, a11. split; [exact E2|]. split; [exact E4|].
  split; [apply severity_from_Ok; assumption | reflexivity].
Qed.

(** Every record of a parsed document was built from one of its
    findings. *)
Lemma parseSARIF_doc_built (sarif : value) (out : list Vuln.t) :
  parseSARIF_doc sarif = Ok out ->
  Forall (fun r => exists run result, sarif_result run result = Ok r) out.
Proof.
  unfold parseSARIF_doc. intros H. bind_inv.
  destruct (array_items a) as [runs|]; [|injection H as <-; constructor].
  revert H. apply forEach_invariant; [|constructor].
  intros run acc acc' _ Hacc Hrun. bind_inv.
  destruct (array_items a0) as [results|]; [|injection Hrun as <-; exact Hacc].
  revert Hrun. apply forEach_push_Forall; [|exact Hacc].
  intros result r _ Hr. exists run, result. exact Hr.
Qed.

Lemma parseSCAJSON_doc_built (data : value) (out : list Vuln.t) :
  parseSCAJSON_doc data = Ok out ->
  Forall (fun r => (exists vuln, sca_generic vuln = Ok r) \/
                   (exists pkg vuln v, sca_via pkg vuln v = Ok r)) out.
Proof.
  unfold parseSCAJSON_doc. intros H. bind_inv.
  destruct (array_items a) as [items|].
  - revert H. apply forEach_push_Forall; [|constructor].
    intros vuln r _ Hr. left. exists vuln. exact Hr.
  - destruct (JS.truthy a); [|injection H as <-; constructor].
    bind_inv. revert H. apply forEach_invariant; [|constructor].
    intros pkg st st' _ Hst Hpkg. unfold sca_package in Hpkg. bind_inv.
    destruct (array_items a2) as [via|]; [|injection Hpkg as <-; exact Hst].
    revert Hpkg. apply forEach_invariant; [|exact Hst].
    intros v acc acc' _ Hacc Hv. unfold sca_via_entry in Hv.
    destruct (JS.typeof_object v); [|injection Hv as <-; exact Hacc].
    bind_inv. subst acc'. unfold push. apply Forall_app. split; [exact Hacc|].
    constructor; [|constructor]. right. exists pkg, a1, v. assumption.
Qed.

Lemma parseDASTJSON_doc_built (data : value) (out : list Vuln.t) :
  parseDASTJSON_doc data = Ok out ->
  Forall (fun r => (exists site alert, dast_alert site alert = Ok r) \/
                   (exists vuln, dast_generic vuln = Ok r)) out.
Proof.
  unfold parseDASTJSON_doc. intros H. bind_inv.
  destruct (array_items a) as [sites|].
  - revert H. apply forEach_invariant; [|constructor].
    intros site acc acc' _ Hacc Hsite. bind_inv.
    destruct (array_items a0) as [alerts|]; [|injection Hsite as <-; exact Hacc].
    revert Hsite. apply forEach_push_Forall; [|exact Hacc].
    intros alert r _ Hr. left. exists site, alert. exact Hr.
  - bind_inv. destruct (array_items a0) as [items|]; [|injection H as <-; constructor].
    revert H. apply forEach_push_Forall; [|constructor].
    intros vuln r _ Hr. right. exists vuln. exact Hr.
Qed.

End Fallbacks.

Lemma Forall_both {A : Type} (P Q : A -> Prop) (l : list A) :
  Forall P l -> Forall Q l -> Forall (fun x => P x /\ Q x) l.
Proof.
  intros HP HQ. rewrite Forall_forall in *. intros x Hx. split; auto.
Qed.

(** C1, as the code has it.  Whatever the input text, every record of the
    three JSON parsers was built from a finding of the document and has its
    six fields, none of them [null] or [undefined], and a severity that is a
    text.  The other fields need not be texts: each is the first truthy value
    of its chain of upstream properties, kept as it is, and the fallback
    literal of the field when none of them is truthy; the severity is UNKNOWN
    when its source is falsy.  The HTML and the free-text parser never throw
    and every field of their records is a text. *)
Theorem records_have_six_fields (host : Host) (content : string) :
  Forall (fun r => well_formed r /\
                   exists run result, sarif_result run result = Ok r)
         (parseSARIF content) /\
  Forall (fun r => well_formed r /\
                   ((exists vuln, sca_generic vuln = Ok r) \/
                    (exists pkg vuln v, sca_via pkg vuln v = Ok r)))
         (parseSCAJSON content) /\
  Forall (fun r => well_formed r /\
                   ((exists site alert, dast_alert site alert = Ok r) \/
                    (exists vuln, dast_generic vuln = Ok r)))
         (parseDASTJSON content) /\
  (exists out, parseHTML content = Ok out /\ Forall all_text out) /\
  (exists out, parseSCATXT content = Ok out /\ Forall all_text out) /\
  (forall run result r,
      sarif_result run result = Ok r -> sarif_fields run result r) /\
  (forall vuln r, sca_generic vuln = Ok r -> sca_generic_fields vuln r) /\
  (forall pkg vuln v r,
      sca_via pkg vuln v = Ok r -> sca_via_fields pkg vuln v r) /\
  (forall site alert r,
      dast_alert site alert = Ok r -> dast_alert_fields site alert r) /\
  (forall vuln r, dast_generic vuln = Ok r -> dast_generic_fields vuln r).
Proof.
  split; [|split; [|split; [|split; [|split; [|split; [|split; [|split; [|split]]]]]]]].
  - apply try_or_empty_Forall. intros l H. bind_inv. apply Forall_both.
    + eapply parseSARIF_doc_well_formed. eassumption.
    + eapply parseSARIF_doc_built. eassumption.
  - apply try_or_empty_Forall. intros l H. bind_inv. apply Forall_both.
    + eapply parseSCAJSON_doc_well_formed. eassumption.
    + eapply parseSCAJSON_doc_built. eassumption.
  - apply try_or_empty_Forall. intros l H. bind_inv. apply Forall_both.
    + eapply parseDASTJSON_doc_well_formed. eassumption.
    + eapply parseDASTJSON_doc_built. eassumption.
  - apply parseHTML_all_text.
  - apply parseSCATXT_all_text.
  - apply @sarif_result_degrades.
  - apply @sca_generic_degrades.
  - apply @sca_via_degrades.
  - apply @dast_alert_degrades.
  - apply @dast_generic_degrades.
Qed.

Lemma records_have_six_fields_witness :
  sca_generic_fields (host := Fixture.host)
    (VObj [("cve", VStr "CVE-2020-2"); ("title", VStr ""); ("name", VNull);
           ("severity", VNum "0"); ("library", VStr "left-pad")])
    (Vuln.make (VStr "CVE-2020-2") (VStr "Unknown vulnerability") (VStr "UNKNOWN")
       (VStr "left-pad") (VStr "No description") (VStr "Update to latest version")) /\
  sarif_fields (host := Fixture.host)
    (VObj [("tool",
            VObj [("driver",
                   VObj [("rules",
                          VArr [VObj [("id", VStr "CWE-79"); ("name", VStr "XSS");
                                      ("help", VObj [("text", VStr "Sanitize input")])]])])])])
    (VObj [("ruleId", VStr "CWE-79"); ("level", VStr "error")])
    (Vuln.make (VStr "CWE-79") (VStr "XSS") (VStr "ERROR") (VStr "unknown")
       (VStr "No description") (VStr "Sanitize input")) /\
  dast_alert_fields (host := Fixture.host) (VObj [("name", VStr "http://shop.test")])
    (VObj [("id", VNum "7"); ("alert", VStr "Cookie flag"); ("risk", VStr "Low")])
    (Vuln.make (VNum "7") (VStr "Cookie flag") (VStr "LOW") (VStr "http://shop.test")
       (VStr "No description") (VStr "No recommendation available")).
Proof.
  destruct (records_have_six_fields Fixture.host "")
    as (_ & _ & _ & _ & _ & Hsarif & Hsca & _ & Hzap & _).
  split; [|split].
  - apply Hsca. reflexivity.
  - apply Hsarif. reflexivity.
  - apply Hzap. reflexivity.
Defined.

(* ------------------------------------------------------------------ *)
(** ** The keyed shape, walked to the end *)

Section KeyedWalk.

Context {host : Host}.

Lemma sca_via_total (pkg : string) (vuln v : value) :
  JS.nullish vuln = false -> plain_finding v ->
  exists r, sca_via pkg vuln v = Ok r.
Proof.
  intros Hvuln [Hv Hsev]. unfold sca_via.
  assert (G : forall k, exists w, JS.get v k = Ok w)
    by (intros k; apply get_total; exact Hv).
  assert (L : forall s, exists w, Ok (VStr s) = Ok w) by (intros s; eexists; reflexivity).
  destruct (or_else_total (G "cve") (or_else_total (G "id") (L "N/A"))) as (v1 & ->).
  destruct (or_else_total (G "title") (L "Dependency vulnerability")) as (v2 & ->).
  destruct (G "severity") as (sev & Esev). rewrite Esev. simpl.
  destruct (normalizeSeverity_primitive sev (Hsev sev Esev)) as (s & ->). simpl.
  destruct (or_else_total (G "url") (L "See package for details")) as (v3 & ->).
  destruct (@get_total vuln "fixAvailable" Hvuln) as (fx & ->).
  simpl. eexists. reflexivity.
Qed.

Lemma sca_package_total (vulns : value) (pkg : string) (acc : list Vuln.t) :
  walkable_package vulns pkg -> exists acc', sca_package vulns pkg acc = Ok acc'.
Proof.
  intros (vuln & Hkey & Hvuln & Hvia). unfold sca_package. rewrite Hkey. simpl.
  destruct (@get_total vuln "via" Hvuln) as (via & Evia). rewrite Evia. simpl.
  destruct (array_items via) as [items|] eqn:Hitems; [|exists acc; reflexivity].
  apply array_items_Some in Hitems. subst via.
  apply forEach_total. intros v st Hin. unfold sca_via_entry.
  destruct (JS.typeof_object v) eqn:Hty; [|exists st; reflexivity].
  destruct (@sca_via_total pkg vuln v Hvuln (Hvia items v Evia Hin Hty)) as (r & ->).
  simpl. eexists. reflexivity.
Qed.

(** A keyed document whose packages can all be walked is walked to the
    end. *)
Lemma parseSCAJSON_doc_walkable (data vulns : value) :
  JS.get data "vulnerabilities" = Ok vulns ->
  JS.isArray vulns = false ->
  keyed_walkable vulns ->
  exists out, parseSCAJSON_doc data = Ok out.
Proof.
  intros Hvulns Harr Hwalk. unfold parseSCAJSON_doc. rewrite Hvulns. simpl.
  rewrite (array_items_not_array _ Harr).
  destruct (JS.truthy vulns) eqn:T; [|exists []; reflexivity].
  destruct (JS.keys vulns) as [pkgs|] eqn:Hkeys.
  - simpl. apply forEach_total. intros pkg st Hin.
    apply sca_package_total.
    specialize (Hwalk pkgs Hkeys). rewrite Forall_forall in Hwalk.
    apply Hwalk. exact Hin.
  - destruct vulns; simpl in *; discriminate.
Qed.

(** A package whose value is [null] stops the walk. *)
Lemma parseSCAJSON_doc_null_package (data vulns : value) (pkgs : list string)
      (pkg : string) (vuln : value) :
  JS.get data "vulnerabilities" = Ok vulns ->
  JS.isArray vulns = false ->
  JS.keys vulns = Ok pkgs -> In pkg pkgs ->
  JS.get_key vulns pkg = Ok vuln -> JS.nullish vuln = true ->
  parseSCAJSON_doc data = Throw.
Proof.
  intros Hvulns Harr Hkeys Hin Hkey Hnull.
  unfold parseSCAJSON_doc. rewrite Hvulns. simpl.
  rewrite (array_items_not_array _ Harr).
  assert (T : JS.truthy vulns = true).
  { destruct vulns as [| |b|n|s|items|props]; simpl in *;
      try discriminate; try (injection Hkeys as <-; destruct Hin);
      try reflexivity.
    destruct s; [injection Hkeys as <-; destruct Hin | reflexivity]. }
  rewrite T, Hkeys. simpl.
  apply forEach_throws with (x := pkg); [exact Hin|].
  intros acc. unfold sca_package. rewrite Hkey. simpl.
  destruct vuln; try discriminate Hnull; reflexivity.
Qed.

End KeyedWalk.

(** C5, as the code has it.  In the keyed shape, when every package holds a
    value that is there and every object among the [via] entries is there
    and has a severity that is absent or a JSON primitive, [parseSCAJSON]
    gives, in order, exactly one record per entry of a [via] array that is a
    structured object, bare texts being skipped; the record of an entry has
    the enclosing package name as [file] and one of the two texts "Update
    available" and "No fix available" as [recommendation], by the truth of
    [fixAvailable].  The same holds of every walk that does not throw.  A
    package whose value is [null] makes the file give no record at all.  The
    lodash document of the specification gives one record: file lodash,
    severity HIGH, recommendation "Update available". *)
Theorem keyed_shape_records (host : Host) :
  (forall (content : string) (data vulns : value),
      JSON_parse content = Some data ->
      JS.get data "vulnerabilities" = Ok vulns ->
      JS.isArray vulns = false ->
      (keyed_walkable vulns ->
       Forall2 keyed_record (keyed_entries vulns) (parseSCAJSON content)) /\
      (forall out, parseSCAJSON_doc data = Ok out ->
                   parseSCAJSON content = out /\
                   Forall2 keyed_record (keyed_entries vulns) out) /\
      (forall pkgs pkg vuln,
          JS.keys vulns = Ok pkgs -> In pkg pkgs ->
          JS.get_key vulns pkg = Ok vuln -> JS.nullish vuln = true ->
          parseSCAJSON content = [])) /\
  (JSON_parse Fixture.lodash_src = Some Fixture.lodash_doc ->
   parseSCAJSON Fixture.lodash_src
   = [Vuln.make (VStr "CVE-2021-1234") (VStr "Dependency vulnerability")
        (VStr "HIGH") (VStr "lodash") (VStr "See package for details")
        (VStr "Update available")]).
Proof.
  split.
  - intros content data vulns Hparse Hvulns Harr.
    assert (Hok : forall out, parseSCAJSON_doc data = Ok out ->
                              parseSCAJSON content = out /\
                              Forall2 keyed_record (keyed_entries vulns) out).
    { intros out H. split.
      - unfold parseSCAJSON. rewrite (parse_Some _ Hparse). simpl.
        rewrite H. reflexivity.
      - eapply parseSCAJSON_doc_keyed; eassumption. }
    split; [|split; [exact Hok|]].
    + intros Hwalk.
      destruct (parseSCAJSON_doc_walkable _ Hvulns Harr Hwalk) as (out & Hout).
      destruct (Hok out Hout) as [-> Hall]. exact Hall.
    + intros pkgs pkg vuln Hkeys Hin Hkey Hnull.
      unfold parseSCAJSON. rewrite (parse_Some _ Hparse). simpl.
      assert (Hthrow : parseSCAJSON_doc data = Throw)
        by (eapply parseSCAJSON_doc_null_package; eassumption).
      rewrite Hthrow. reflexivity.
  - intros H. unfold parseSCAJSON. rewrite (parse_Some _ H). simpl.
    rewrite parseSCAJSON_doc_lodash. reflexivity.
Qed.

Lemma keyed_shape_records_witness :
  Forall2 (keyed_record (host := Fixture.host))
    [("lodash",
      VObj [("via", VArr [VObj [("cve", VStr "CVE-2021-1234");
                                ("severity", VStr "high")]]);
            ("fixAvailable", VBool true)],
      VObj [("cve", VStr "CVE-2021-1234"); ("severity", VStr "high")])]
    (parseSCAJSON (host := Fixture.host) Fixture.lodash_src) /\
  parseSCAJSON (host := Fixture.host) Fixture.lodash_src
  = [Vuln.make (VStr "CVE-2021-1234") (VStr "Dependency vulnerability")
       (VStr "HIGH") (VStr "lodash") (VStr "See package for details")
       (VStr "Update available")] /\
  parseSCAJSON (host := Fixture.host) Fixture.null_package_src = [].
Proof.
  split; [|split].
  - apply (proj1 (proj1 (keyed_shape_records Fixture.host) Fixture.lodash_src
                    Fixture.lodash_doc
                    (VObj [("lodash",
                            VObj [("via", VArr [VObj [("cve", VStr "CVE-2021-1234");
                                                      ("severity", VStr "high")]]);
                                  ("fixAvailable", VBool true)])])
                    eq_refl eq_refl eq_refl)).
    intros pkgs E. injection E as <-.
    apply Forall_cons; [|apply Forall_nil].
    eexists. split; [reflexivity|]. split; [reflexivity|].
    intros via v E Hin _. injection E as <-.
    destruct Hin as [<- | []]. split; [reflexivity|].
    intros sev E. injection E as <-. reflexivity.
  - apply (proj2 (keyed_shape_records Fixture.host)). reflexivity.
  - apply (proj2 (proj2 (proj1 (keyed_shape_records Fixture.host)
                           Fixture.null_package_src Fixture.null_package_doc
                           (VObj [("a", VObj [("via", VArr [VObj [("cve", VStr "CVE-2020-1")]])]);
                                  ("b", VNull)])
                           eq_refl eq_refl eq_refl))
             ["a"; "b"] "b" VNull);
      try reflexivity.
    right. left. reflexivity.
Defined.

(** C5 as stated fails: in a file where another package holds [null], the
    structured entry of the first package gives no record. *)
Lemma structured_entry_without_record :
  ~ (forall (host : Host) (content : string) (data vulns : value),
        JSON_parse content = Some data ->
        JS.get data "vulnerabilities" = Ok vulns ->
        JS.isArray vulns = false ->
        Forall2 keyed_record (keyed_entries vulns) (parseSCAJSON content)).
Proof.
  intros H.
  specialize (H Fixture.host Fixture.null_package_src Fixture.null_package_doc
                (VObj [("a", VObj [("via", VArr [VObj [("cve", VStr "CVE-2020-1")]])]);
                       ("b", VNull)])
                eq_refl eq_refl eq_refl).
  inversion H.
Qed.

(* ------------------------------------------------------------------ *)
(** ** The lines of a text *)

Lemma split_not_nil (sep : ascii) (s : string) : Str.split sep s <> [].
Proof.
  destruct s as [|c s]; simpl; [discriminate|].
  destruct (Ascii.eqb c sep); [discriminate|].
  destruct (Str.split sep s); discriminate.
Qed.

Lemma split_one_line (line : string) :
  Spec.one_line line = true -> Str.split "010" line = [line].
Proof.
  induction line as [|c line IH]; simpl; intros H; [reflexivity|].
  apply Bool.andb_true_iff in H. destruct H as [Hc Hline].
  apply Bool.negb_true_iff in Hc. rewrite Hc, (IH Hline). reflexivity.
Qed.

Lemma split_line_feed (line rest : string) :
  Spec.one_line line = true ->
  Str.split "010" (line ++ String "010" rest) = line :: Str.split "010" rest.
Proof.
  induction line as [|c line IH]; simpl; intros H; [reflexivity|].
  apply Bool.andb_true_iff in H. destruct H as [Hc Hline].
  apply Bool.negb_true_iff in Hc. rewrite Hc, (IH Hline). reflexivity.
Qed.

(** Cutting the text of some lines at its line feeds gives the lines
    back. *)
Lemma split_unlines (lines : list string) :
  lines <> [] -> Forall (fun line => Spec.one_line line = true) lines ->
  Str.split "010" (Spec.unlines lines) = lines.
Proof.
  intros Hne Hall. induction Hall as [|line rest Hline Hrest IH]; [contradiction|].
  destruct rest as [|next rest].
  - simpl. apply split_one_line. exact Hline.
  - change (Spec.unlines (line :: next :: rest))
      with (line ++ String "010" (Spec.unlines (next :: rest)))%string.
    rewrite (@split_line_feed line _ Hline), IH; [reflexivity | discriminate].
Qed.

(** Every text is the text of its pieces, and no piece holds a line
    feed. *)
Lemma unlines_split (s : string) :
  Spec.unlines (Str.split "010" s) = s /\
  Forall (fun line => Spec.one_line line = true) (Str.split "010" s).
Proof.
  induction s as [|c s [IHs IHall]]; simpl.
  - split; [reflexivity | repeat constructor].
  - pose proof (@split_not_nil "010" s) as Hne.
    destruct (Ascii.eqb c "010") eqn:Hc.
    + apply Ascii.eqb_eq in Hc. subst c. split.
      * destruct (Str.split "010" s) as [|piece pieces]; [contradiction|].
        change (Spec.unlines ("" :: piece :: pieces))
          with ("" ++ String "010" (Spec.unlines (piece :: pieces)))%string.
        rewrite IHs. reflexivity.
      * constructor; [reflexivity | exact IHall].
    + destruct (Str.split "010" s) as [|piece pieces]; [contradiction|].
      inversion_clear IHall as [|? ? Hpiece Hpieces]. split.
      * destruct pieces as [|next pieces].
        -- simpl in *. rewrite IHs. reflexivity.
        -- change (Spec.unlines (String c piece :: next :: pieces))
             with (String c (piece ++ String "010" (Spec.unlines (next :: pieces))))%string.
           change (Spec.unlines (piece :: next :: pieces))
             with (piece ++ String "010" (Spec.unlines (next :: pieces)))%string in IHs.
           rewrite IHs. reflexivity.
      * constructor; [|exact Hpieces]. simpl. rewrite Hc, Hpiece. reflexivity.
Qed.

Lemma digits_empty_no_digit (s : string) : Re.digits s = "" -> no_digit_ahead s.
Proof.
  intros H c rest ->. simpl in H.
  destruct (Str.is_digit c); [discriminate H | reflexivity].
Qed.

(** The severity word a line is classified by is the first one of the
    line. *)
Lemma first_match_severity_leftmost (line w : string) :
  Re.first_match Re.severity_at line = Some w ->
  exists before after,
    line = (before ++ w ++ after)%string /\
    Spec.is_severity_word w /\
    no_severity_word_starts_in before (w ++ after)%string.
Proof.
  intros E.
  destruct (first_match_leftmost _ _ E) as (before & rest & n & Hline & Hat & Hleft).
  destruct (severity_at_word _ Hat) as [Hword Hrest].
  exists before, (Re.drop n rest).
  split; [rewrite <- Hrest; exact Hline|]. split; [exact Hword|].
  intros skipped from_here w' after Hsplit Hne Hw' Heq.
  rewrite <- Hrest in Heq.
  apply (word_severity_at after Hw'). rewrite <- Heq.
  apply (Hleft skipped from_here Hsplit Hne).
Qed.

(** The CVE a line is filed under is the first one of the line, with all
    its digits. *)
Lemma first_match_cve_leftmost (line cve : string) :
  Re.first_match Re.cve_at line = Some cve ->
  exists before after,
    line = (before ++ cve ++ after)%string /\
    Spec.is_cve_token cve /\
    no_cve_starts_in before (cve ++ after)%string /\
    no_digit_ahead after.
Proof.
  intros E.
  destruct (first_match_leftmost _ _ E) as (before & rest & n & Hline & Hat & Hleft).
  destruct (cve_at_token _ Hat) as [Htok Hrest].
  exists before, (Re.drop n rest).
  split; [rewrite <- Hrest; exact Hline|]. split; [exact Htok|]. split.
  - intros skipped from_here t after Hsplit Hne Ht Heq.
    rewrite <- Hrest in Heq.
    apply (token_cve_at after Ht). rewrite <- Heq.
    apply (Hleft skipped from_here Hsplit Hne).
  - apply digits_empty_no_digit. apply (cve_at_greedy _ Hat).
Qed.

(** C6.  [parseSCATXT] works line by line: the text of some lines, joined by
    line feeds, gives what each line gives by itself, line after line, and
    every text is the text of its lines.  A line without a CVE-shaped token
    gives nothing.  A line with one gives one record: its [id] is the first
    CVE-shaped token of the line, with all its digits; its severity is the
    first severity word of the line in upper case, or UNKNOWN when the line
    has none; its description is the trimmed line and its [file] is "See TXT
    report". *)
Theorem parseSCATXT_line_by_line (host : Host) :
  (forall lines,
      lines <> [] -> Forall (fun line => Spec.one_line line = true) lines ->
      parseSCATXT (Spec.unlines lines) = Ok (flat_map line_records lines)) /\
  (forall content,
      exists lines,
        lines <> [] /\ Forall (fun line => Spec.one_line line = true) lines /\
        content = Spec.unlines lines) /\
  (forall line,
      (~ Spec.has_cve line -> line_records line = []) /\
      (Spec.has_cve line ->
       exists before cve after severity,
         line = (before ++ cve ++ after)%string /\
         Spec.is_cve_token cve /\
         no_cve_starts_in before (cve ++ after)%string /\
         no_digit_ahead after /\
         line_records line
         = [Vuln.make (VStr cve) (VStr ("Vulnerability " ++ cve)%string)
              (VStr severity) (VStr "See TXT report") (VStr (trim line))
              (VStr "Update affected package")] /\
         (~ Spec.has_severity_word line -> severity = "UNKNOWN") /\
         (Spec.has_severity_word line ->
          exists before' w after',
            line = (before' ++ w ++ after')%string /\
            Spec.is_severity_word w /\
            no_severity_word_starts_in before' (w ++ after')%string /\
            normalizeSeverity (VStr w) = Ok severity /\
            severity = Str.upper w))).
Proof.
  split; [|split].
  - intros lines Hne Hall.
    rewrite parseSCATXT_flat_map, (split_unlines Hne Hall). reflexivity.
  - intros content. exists (Str.split "010" content).
    destruct (unlines_split content) as [Hjoin Hall].
    split; [apply split_not_nil|]. split; [exact Hall | symmetry; exact Hjoin].
  - intros line.
    destruct (first_match_cve line) as [_ HcveNone].
    destruct (first_match_severity line) as [_ HsevNone].
    rewrite line_records_cases. split.
    + intros H. apply HcveNone in H. rewrite H. reflexivity.
    + intros H.
      destruct (Re.first_match Re.cve_at line) as [cve|] eqn:Ecve.
      2:{ exfalso. apply (proj1 HcveNone); [reflexivity | exact H]. }
      destruct (first_match_cve_leftmost _ Ecve)
        as (before & after & Hline & Htok & Hfirst & Hgreedy).
      destruct (Re.first_match Re.severity_at line) as [w|] eqn:Esev.
      * exists before, cve, after, (Str.upper w).
        destruct (first_match_severity_leftmost _ Esev)
          as (before' & after' & Hline' & Hword & Hfirst').
        split; [exact Hline|]. split; [exact Htok|]. split; [exact Hfirst|].
        split; [exact Hgreedy|]. split; [reflexivity|]. split.
        -- intros Hno. exfalso. apply Hno. exists w. split; [exact Hword|].
           exists before', after'. exact Hline'.
        -- intros _. exists before', w, after'.
           split; [exact Hline'|]. split; [exact Hword|]. split; [exact Hfirst'|].
           split; [apply normalizeSeverity_word; exact Hword | reflexivity].
      * exists before, cve, after, "UNKNOWN".
        split; [exact Hline|]. split; [exact Htok|]. split; [exact Hfirst|].
        split; [exact Hgreedy|]. split; [reflexivity|]. split.
        -- intros _. reflexivity.
        -- intros Hyes. exfalso. apply (proj1 HsevNone); [reflexivity | exact Hyes].
Qed.

Lemma parseSCATXT_line_by_line_witness :
  parseSCATXT (host := Fixture.host)
    (Spec.unlines ["Found CVE-2022-9999 severity HIGH in module X";
                    "3 packages audited, severity high";
                    "  see cve-2021-44228 (Low, was critical) and CVE-2020-1  "])
  = Ok [Vuln.make (VStr "CVE-2022-9999") (VStr "Vulnerability CVE-2022-9999")
          (VStr "HIGH") (VStr "See TXT report")
          (VStr "Found CVE-2022-9999 severity HIGH in module X")
          (VStr "Update affected package");
        Vuln.make (VStr "cve-2021-44228") (VStr "Vulnerability cve-2021-44228")
          (VStr "LOW") (VStr "See TXT report")
          (VStr "see cve-2021-44228 (Low, was critical) and CVE-2020-1")
          (VStr "Update affected package")] /\
  (exists before cve after severity,
      "Found CVE-2022-9999 severity HIGH in module X"
      = (before ++ cve ++ after)%string /\
      Spec.is_cve_token cve /\
      no_cve_starts_in before (cve ++ after)%string /\
      no_digit_ahead after /\
      line_records (host := Fixture.host)
        "Found CVE-2022-9999 severity HIGH in module X"
      = [Vuln.make (VStr cve) (VStr ("Vulnerability " ++ cve)%string)
           (VStr severity) (VStr "See TXT report")
           (VStr "Found CVE-2022-9999 severity HIGH in module X")
           (VStr "Update affected package")] /\
      (~ Spec.has_severity_word "Found CVE-2022-9999 severity HIGH in module X" ->
       severity = "UNKNOWN") /\
      (Spec.has_severity_word "Found CVE-2022-9999 severity HIGH in module X" ->
       exists before' w after',
         "Found CVE-2022-9999 severity HIGH in module X"
         = (before' ++ w ++ after')%string /\
         Spec.is_severity_word w /\
         no_severity_word_starts_in before' (w ++ after')%string /\
         normalizeSeverity (host := Fixture.host) (VStr w) = Ok severity /\
         severity = Str.upper w)) /\
  line_records (host := Fixture.host) "3 packages audited, severity high" = [].
Proof.
  split; [|split].
  - apply (proj1 (parseSCATXT_line_by_line Fixture.host)
             ["Found CVE-2022-9999 severity HIGH in module X";
              "3 packages audited, severity high";
              "  see cve-2021-44228 (Low, was critical) and CVE-2020-1  "]).
    + discriminate.
    + repeat constructor.
  - apply (proj2 (proj2 (parseSCATXT_line_by_line Fixture.host))
             "Found CVE-2022-9999 severity HIGH in module X").
    exists "CVE-2022-9999". split.
    + exists "CVE-", "2022", "9999".
      repeat split; try reflexivity. discriminate.
    + exists "Found ", " severity HIGH in module X". reflexivity.
  - apply (proj2 (proj2 (parseSCATXT_line_by_line Fixture.host))
             "3 packages audited, severity high").
    apply (proj2 (first_match_cve "3 packages audited, severity high")).
    reflexivity.
Defined.
